(** * AutoGFormBot: the conversation engine of [browser/handler.py] and the
    duration question of [questions/duration.py]

    A shallow embedding of the Telegram handlers that walk a Google Form
    one question at a time ([_obtain_question], [_submit_answer],
    [_save_answer]), of the scheduler bridge ([_auto_submit], [_start_date],
    [_confirm_add]) and of [DurationQuestion.answer].

    Python objects that live in [context.user_data] are records of optional
    fields; every [isinstance] test of the source is a constructor test here.
    The collaborators whose code is not part of these files (the form driver
    of [processor.py], the markups, the question base classes, [datetime])
    are the fields of one record, [Env]: every theorem holds for all of them. *)

From Stdlib Require Import String Ascii List ZArith Bool Arith Lia.
Import ListNotations.
Local Open Scope string_scope.

(** ** Python built-ins used by the handlers

    A [string] stands for a Python [str] whose characters lie below
    U+0100, one [ascii] per character. *)

Module Py.

(** [str.split(sep)] for a non-empty separator: cut at every
    non-overlapping occurrence, scanning from the left.  [skip] counts the
    characters of a matched separator still to be stepped over. *)
Fixpoint split_from (sep s : string) (skip : nat) (cur : string) : list string :=
  match s with
  | EmptyString => [cur]
  | String c s' =>
      match skip with
      | S k => split_from sep s' k cur
      | O =>
          if String.prefix sep s
          then cur :: split_from sep s' (String.length sep - 1) EmptyString
          else split_from sep s' 0 (cur ++ String c EmptyString)
      end
  end.

Definition split (sep s : string) : list string := split_from sep s 0 EmptyString.

(** What [int()] strips at both ends of a [str]: the ASCII characters
    that C calls space (tab to carriage return, and the blank) and, beyond
    ASCII, the characters that [str.isspace] accepts, of which U+0085 and
    U+00A0 are below 256.  The separators U+001C to U+001F are space for
    [str.isspace] but not for [int()]. *)
Definition is_int_space (c : ascii) : bool :=
  let n := nat_of_ascii c in
  (Nat.leb 9 n && Nat.leb n 13) || Nat.eqb n 32 || Nat.eqb n 133 || Nat.eqb n 160.

Fixpoint lstrip (s : string) : string :=
  match s with
  | String c s' => if is_int_space c then lstrip s' else s
  | EmptyString => EmptyString
  end.

Fixpoint rev_onto (s acc : string) : string :=
  match s with
  | EmptyString => acc
  | String c s' => rev_onto s' (String c acc)
  end.

Definition strip (s : string) : string :=
  rev_onto (lstrip (rev_onto (lstrip s) EmptyString)) EmptyString.

Definition digit_val (c : ascii) : option Z :=
  let n := nat_of_ascii c in
  if Nat.leb 48 n && Nat.leb n 57 then Some (Z.of_nat (n - 48)) else None.

(** Decimal digits with single underscores between digits, as [int()]
    accepts them: the value and the number of digits.  [prev] says the
    previous character was a digit.  Below 256 the decimal digits are the
    ASCII ones. *)
Fixpoint digits (s : string) (acc : Z) (count : nat) (prev : bool) : option (Z * nat) :=
  match s with
  | EmptyString => if prev then Some (acc, count) else None
  | String c s' =>
      match digit_val c with
      | Some d => digits s' (10 * acc + d) (S count) true
      | None => if (Ascii.eqb c "_") && prev then digits s' acc count false else None
      end
  end.

(** [sys.get_int_max_str_digits()], as the interpreter starts with. *)
Definition int_max_str_digits : nat := 4300.

Definition within_limit (r : option (Z * nat)) : option Z :=
  match r with
  | Some (v, count) => if Nat.leb count int_max_str_digits then Some v else None
  | None => None
  end.

(** [int(s)]: [None] stands for [ValueError]. *)
Definition int (s : string) : option Z :=
  match strip s with
  | String "+" r => within_limit (digits r 0 0 false)
  | String "-" r => option_map Z.opp (within_limit (digits r 0 0 false))
  | t => within_limit (digits t 0 0 false)
  end.

(** [re.findall(r"[0-9]+", s)]: the maximal runs of ASCII digits. *)
Fixpoint digit_runs (s : string) (cur : string) : list string :=
  match s with
  | EmptyString => match cur with EmptyString => [] | _ => [cur] end
  | String c s' =>
      match digit_val c with
      | Some _ => digit_runs s' (cur ++ String c EmptyString)
      | None =>
          match cur with
          | EmptyString => digit_runs s' EmptyString
          | _ => cur :: digit_runs s' EmptyString
          end
      end
  end.

Definition findall_digits (s : string) : list string := digit_runs s EmptyString.

(** [sub in s] for two strings: [sub] occurs somewhere in [s]. *)
Fixpoint contains (sub s : string) : bool :=
  String.prefix sub s ||
  match s with
  | EmptyString => false
  | String _ s' => contains sub s'
  end.

(** [l.index(x)] followed by [l[i] = y]: the first element equal to [x]
    becomes [y]; [None] stands for the [ValueError] of [index]. *)
Fixpoint replace_first (x y : string) (l : list string) : option (list string) :=
  match l with
  | [] => None
  | z :: rest =>
      if z =? x then Some (y :: rest)
      else option_map (cons z) (replace_first x y rest)
  end.

(** [range(start, stop, step)] for a positive step. *)
Fixpoint range_from (fuel start stop step : nat) : list nat :=
  match fuel with
  | O => []
  | S fuel' =>
      if Nat.ltb start stop then start :: range_from fuel' (start + step) stop step
      else []
  end.

Definition range (start stop step : nat) : list nat := range_from stop start stop step.

(** [s[i:j]] for [0 <= i <= j]: a slice stops at the end of the string. *)
Definition slice (s : string) (i j : nat) : string := String.substring i (j - i) s.

(** [s.count("{}")] and [s.format] applied to [args], for a template whose only
    braces are those of [{}] fields: the fields take the arguments in
    order; [None] stands for the [IndexError] of a field without
    argument. *)
Fixpoint count_fields (s : string) : nat :=
  match s with
  | String "{" (String "}" s') => S (count_fields s')
  | String _ s' => count_fields s'
  | EmptyString => O
  end.

Fixpoint format (s : string) (args : list string) : option string :=
  match s with
  | String "{" (String "}" s') =>
      match args with
      | a :: args' => option_map (String.append a) (format s' args')
      | [] => None
      end
  | String c s' => option_map (String c) (format s' args)
  | EmptyString => Some EmptyString
  end.

Example split_three : split ":" "01:02:03" = ["01"; "02"; "03"].
Proof. reflexivity. Qed.

Example split_trailing : split ", " "a, b, " = ["a"; "b"; ""].
Proof. reflexivity. Qed.

Example split_overlap : split "aa" "aaa" = [""; "a"].
Proof. reflexivity. Qed.

Example int_examples :
  int " 12 " = Some 12%Z /\ int "-0" = Some 0%Z /\ int "1_0" = Some 10%Z /\
  int "007" = Some 7%Z /\ int "+3" = Some 3%Z /\
  int "" = None /\ int "1__0" = None /\ int "+ 1" = None /\ int "7x" = None /\
  int "_1" = None /\ int "1_" = None /\ int "1 2" = None.
Proof. repeat split; reflexivity. Qed.

(** A tab and a no-break space are stripped, a file separator is not. *)
Example int_space_examples :
  int (String (ascii_of_nat 9) "1") = Some 1%Z /\
  int (String (ascii_of_nat 160) "1") = Some 1%Z /\
  int (String (ascii_of_nat 28) "1") = None /\
  int (String (ascii_of_nat 31) "1") = None.
Proof. repeat split; reflexivity. Qed.

Fixpoint repeat_char (c : ascii) (n : nat) : string :=
  match n with
  | O => EmptyString
  | S n' => String c (repeat_char c n')
  end.

(** 4300 digits are read, 4301 are too many, leading zeros included. *)
Example int_limit_examples :
  int (repeat_char "0" 4300) = Some 0%Z /\ int (repeat_char "0" 4301) = None.
Proof. split; vm_compute; reflexivity. Qed.

Example findall_example : findall_digits "Submit every 1 days, 02 hours and 30 minutes" = ["1"; "02"; "30"].
Proof. reflexivity. Qed.

End Py.

(** ** [questions/duration.py]: [DurationQuestion] *)

Module Duration.

(** What [answer] does to the browser: [element.click()] and
    [element.send_keys(answer)]. *)
Inductive event (WebElement : Type) : Type :=
| click (e : WebElement)
| send_keys (e : WebElement) (v : Z).
Arguments click {WebElement} e.
Arguments send_keys {WebElement} e v.

(** A call either returns an [Optional[bool]] or raises. *)
Inductive result : Type :=
| Returns (r : option bool)
| Raises.

(** Python truthiness of an [Optional[bool]]. *)
Definition truthy (r : option bool) : bool :=
  match r with Some true => true | _ => false end.

Section DurationQuestion.

(** The parts of the class that live in [questions/base.py] and in the
    browser: the state of the [BaseQuestion] part of the object, its
    [get_info], its [_is_valid], and the three [find_element] look-ups of
    [get_info] taken together ([None] when one of them finds nothing). *)
Variable WebElement : Type.
Variable Base : Type.
Variable super_get_info : Base -> option bool * Base.
Variable _is_valid : Base -> WebElement -> WebElement -> WebElement -> bool.
Variable find_answer_elements : Base -> option (WebElement * WebElement * WebElement).

Record DurationQuestion : Type := {
  base : Base;
  _ANSWER_ELEMENTS : option (WebElement * WebElement * WebElement)
}.

Definition get_answer_elements (q : DurationQuestion) := _ANSWER_ELEMENTS q.

Definition set_answer_elements (q : DurationQuestion) (h m s : WebElement) : DurationQuestion :=
  {| base := base q; _ANSWER_ELEMENTS := Some (h, m, s) |}.

(** [get_info]: cascade an unwanted result of the base class, otherwise
    cache the hour, minute and second inputs.  An element that is not
    found ends the call with [None], the result the docstring gives to
    [Browser.monitor_browser]. *)
Definition get_info (q : DurationQuestion) : option bool * DurationQuestion :=
  let (r, b) := super_get_info (base q) in
  let q1 := {| base := b; _ANSWER_ELEMENTS := _ANSWER_ELEMENTS q |} in
  if truthy r then
    match find_answer_elements b with
    | Some (h, m, s) => (Some true, set_answer_elements q1 h m s)
    | None => (None, q1)
    end
  else (r, q1).

(** The [try] block of [answer]: [None] is the [ValueError] branch. *)
Definition parse_duration (duration : string) : option (Z * Z * Z) :=
  match Py.split ":" duration with
  | [a; b; c] =>
      match Py.int a, Py.int b, Py.int c with
      | Some hour, Some minute, Some second =>
          if ((0 <=? hour) && (hour <=? 72) && (0 <=? minute) && (minute <=? 59)
              && (0 <=? second) && (second <=? 59))%Z
          then Some (hour, minute, second)
          else None
      | _, _, _ => None
      end
  | _ => None
  end.

(** The sanity check of [answer]: the answer elements are set and
    [_is_valid] accepts them. *)
Definition sanity_check (q : DurationQuestion) : bool :=
  match get_answer_elements q with
  | Some (h, m, s) => _is_valid (base q) h m s
  | None => false
  end.

(** The loop over [zip(self._ANSWER_ELEMENTS, (hour, minute, second))]. *)
Definition send_instructions (els : WebElement * WebElement * WebElement) (hour minute second : Z)
  : list (event WebElement) :=
  let '(eh, em, es) := els in
  [click eh; send_keys eh hour; click em; send_keys em minute; click es; send_keys es second].

Definition validate_and_send (q : DurationQuestion) (duration : string)
  : result * DurationQuestion * list (event WebElement) :=
  match parse_duration duration with
  | None => (Returns (Some false), q, [])
  | Some (hour, minute, second) =>
      match _ANSWER_ELEMENTS q with
      | Some els => (Returns (Some true), q, send_instructions els hour minute second)
      | None => (Raises, q, [])
      end
  end.

Definition answer (q : DurationQuestion) (duration : string)
  : result * DurationQuestion * list (event WebElement) :=
  if negb (sanity_check q) then
    let (r, q1) := get_info q in
    if negb (truthy r) then (Returns r, q1, [])
    else validate_and_send q1 duration
  else validate_and_send q duration.

(** The claim's words: the string splits on ':' into exactly three
    integer parts within the bounds. *)
Definition well_formed_duration (duration : string) (hour minute second : Z) : Prop :=
  exists a b c,
    Py.split ":" duration = [a; b; c] /\
    Py.int a = Some hour /\ Py.int b = Some minute /\ Py.int c = Some second /\
    (0 <= hour <= 72)%Z /\ (0 <= minute <= 59)%Z /\ (0 <= second <= 59)%Z.

(** The elements [answer] works with: the cached ones when the sanity
    check passes, else the ones [get_info] caches, if it succeeds. *)
Definition prepared (q : DurationQuestion) : option DurationQuestion :=
  if sanity_check q then Some q
  else let (r, q1) := get_info q in if truthy r then Some q1 else None.

Lemma parse_duration_sound duration hour minute second :
  parse_duration duration = Some (hour, minute, second) ->
  well_formed_duration duration hour minute second.
Proof.
  unfold parse_duration, well_formed_duration.
  destruct (Py.split ":" duration) as [|a [|b [|c [|d l]]]]; try discriminate.
  destruct (Py.int a) as [h|] eqn:Ha; try discriminate.
  destruct (Py.int b) as [m|] eqn:Hb; try discriminate.
  destruct (Py.int c) as [s|] eqn:Hc; try discriminate.
  destruct (_ && _)%bool eqn:Hr; try discriminate.
  intros H; inversion H; subst.
  repeat (apply andb_prop in Hr; destruct Hr as [Hr ?]).
  exists a, b, c. repeat split; auto; lia.
Qed.

Lemma parse_duration_complete duration hour minute second :
  well_formed_duration duration hour minute second ->
  parse_duration duration = Some (hour, minute, second).
Proof.
  intros (a & b & c & Hs & Ha & Hb & Hc & Hh & Hm & Hsec).
  unfold parse_duration. rewrite Hs, Ha, Hb, Hc.
  replace (_ && _)%bool with true; auto.
  symmetry. repeat (apply andb_true_intro; split); lia.
Qed.

Lemma prepared_has_elements q q1 :
  prepared q = Some q1 -> exists els, _ANSWER_ELEMENTS q1 = Some els.
Proof.
  unfold prepared, sanity_check, get_answer_elements, get_info.
  destruct (_ANSWER_ELEMENTS q) as [[[h m] s]|] eqn:He.
  - destruct (_is_valid (base q) h m s).
    + intros H; inversion H; subst. eauto.
    + destruct (super_get_info (base q)) as [r b].
      destruct (truthy r) eqn:Hr.
      * destruct (find_answer_elements b) as [[[h' m'] s']|]; simpl.
        -- intros H; inversion H; subst; simpl; eauto.
        -- discriminate.
      * rewrite Hr. discriminate.
  - destruct (super_get_info (base q)) as [r b].
    destruct (truthy r) eqn:Hr.
    + destruct (find_answer_elements b) as [[[h' m'] s']|]; simpl.
      * intros H; inversion H; subst; simpl; eauto.
      * discriminate.
    + rewrite Hr. discriminate.
Qed.

Lemma answer_prepared q q1 duration :
  prepared q = Some q1 -> answer q duration = validate_and_send q1 duration.
Proof.
  unfold prepared, answer. destruct (sanity_check q); simpl.
  - intros H; inversion H; reflexivity.
  - destruct (get_info q) as [r q2]. destruct (truthy r); simpl.
    + intros H; inversion H; reflexivity.
    + discriminate.
Qed.

Lemma answer_unprepared q duration :
  prepared q = None ->
  exists r q1, answer q duration = (Returns r, q1, []) /\ truthy r = false.
Proof.
  unfold prepared, answer. destruct (sanity_check q); simpl; try discriminate.
  destruct (get_info q) as [r q2]. destruct (truthy r) eqn:Hr; simpl; try discriminate.
  intros _. eauto.
Qed.

(** C10. [DurationQuestion.answer] sends input to the form only when the
    string splits on ':' into exactly three parts that [int()] reads,
    within 0..72, 0..59 and 0..59.  With the answer elements at hand
    (cached and valid, or cached anew by [get_info]) such a string makes
    it return [True] after a click and the value on the hour, the minute
    and the second element, in that order, and any other string makes it
    return [False] with nothing sent.  Without the elements it returns the
    falsy result of [get_info], whatever the string, again with nothing
    sent. *)
Theorem duration_answer_sends_iff_well_formed (q : DurationQuestion) (duration : string) :
  (snd (answer q duration) <> [] ->
     exists hour minute second, well_formed_duration duration hour minute second) /\
  (forall q1, prepared q = Some q1 ->
     (forall hour minute second, well_formed_duration duration hour minute second ->
        exists eh em es,
          _ANSWER_ELEMENTS q1 = Some (eh, em, es) /\
          answer q duration =
            (Returns (Some true), q1,
             [click eh; send_keys eh hour; click em; send_keys em minute;
              click es; send_keys es second])) /\
     ((forall hour minute second, ~ well_formed_duration duration hour minute second) ->
        answer q duration = (Returns (Some false), q1, []))) /\
  (prepared q = None ->
     exists r q1, answer q duration = (Returns r, q1, []) /\ truthy r = false).
Proof.
  split; [|split].
  - destruct (prepared q) as [q1|] eqn:Hp.
    + rewrite (answer_prepared _ _ duration Hp). unfold validate_and_send.
      destruct (parse_duration duration) as [[[h m] s]|] eqn:Hd.
      * intros _. exists h, m, s. now apply parse_duration_sound.
      * simpl. intros H. now elim H.
    + destruct (answer_unprepared _ duration Hp) as (r & q1 & -> & _).
      simpl. intros H. now elim H.
  - intros q1 Hp. rewrite (answer_prepared _ _ duration Hp). unfold validate_and_send.
    destruct (prepared_has_elements _ _ Hp) as [[[eh em] es] He].
    split.
    + intros h m s Hwf. rewrite (parse_duration_complete _ _ _ _ Hwf), He.
      exists eh, em, es. split; reflexivity.
    + intros Hno. destruct (parse_duration duration) as [[[h m] s]|] eqn:Hd; auto.
      exfalso. apply (Hno h m s). now apply parse_duration_sound.
  - apply answer_unprepared.
Qed.

End DurationQuestion.

Arguments base {WebElement Base} d.
Arguments _ANSWER_ELEMENTS {WebElement Base} d.

(** A question whose base class succeeds and whose three inputs are the
    elements 1, 2 and 3; nothing is cached yet. *)
Definition sample_question : DurationQuestion nat unit :=
  {| base := tt; _ANSWER_ELEMENTS := None |}.

Definition sample_answer (q : DurationQuestion nat unit) (duration : string) :=
  answer nat unit (fun b => (Some true, b)) (fun _ _ _ _ => true)
    (fun _ => Some (1, 2, 3)) q duration.

Lemma duration_answer_witness :
  sample_answer sample_question "1:30:05" =
    (Returns (Some true), {| base := tt; _ANSWER_ELEMENTS := Some (1, 2, 3) |},
     [click 1; send_keys 1 1%Z; click 2; send_keys 2 30%Z; click 3; send_keys 3 5%Z]) /\
  sample_answer sample_question "73:00:00" =
    (Returns (Some false), {| base := tt; _ANSWER_ELEMENTS := Some (1, 2, 3) |}, []).
Proof.
  destruct (duration_answer_sends_iff_well_formed nat unit (fun b => (Some true, b))
              (fun _ _ _ _ => true) (fun _ => Some (1, 2, 3)) sample_question "1:30:05")
    as (_ & Hsome & _).
  destruct (Hsome {| base := tt; _ANSWER_ELEMENTS := Some (1, 2, 3) |} eq_refl) as [Hyes _].
  destruct (Hyes 1%Z 30%Z 5%Z) as (eh & em & es & Hels & Hrun).
  - exists "1", "30", "05". repeat split; try reflexivity; lia.
  - inversion Hels; subst. split; [exact Hrun | reflexivity].
Defined.

(** The same question on a page that its base class cannot read, and on
    one where the browser gives no result. *)
Definition unread_answer (q : DurationQuestion nat unit) (duration : string) :=
  answer nat unit (fun b => (Some false, b)) (fun _ _ _ _ => true)
    (fun _ => Some (1, 2, 3)) q duration.

Definition lost_answer (q : DurationQuestion nat unit) (duration : string) :=
  answer nat unit (fun b => (None, b)) (fun _ _ _ _ => true)
    (fun _ => Some (1, 2, 3)) q duration.

(** C10 as the claim states it fails where the answer elements are not
    at hand: the well-formed "1:30:05" is not sent and [answer] returns
    [False], and for the string "x" it returns [None], not [False]. *)
Lemma duration_answer_without_elements :
  well_formed_duration "1:30:05" 1 30 5 /\
  unread_answer sample_question "1:30:05" = (Returns (Some false), sample_question, []) /\
  (forall hour minute second, ~ well_formed_duration "x" hour minute second) /\
  lost_answer sample_question "x" = (Returns None, sample_question, []).
Proof.
  split; [|split; [reflexivity | split; [|reflexivity]]].
  - exists "1", "30", "05". repeat split; try reflexivity; lia.
  - intros hour minute second (a & b & c & Hsplit & _). discriminate Hsplit.
Qed.

End Duration.

(** ** [browser/handler.py] *)

Module Handler.

(** *** Values kept in [context.user_data] *)

(** The conversation states, [utils.generate_random_signatures(27)]: 27
    pairwise distinct tokens. *)
Inductive state : Type :=
| _OBTAINING_LINK | _SET_PREFERENCE | _SET_REMINDER | _RESET | _CONFIRM_RESET
| _OBTAIN_QUESTION | _SKIP_OR_ANSWER | _ANSWER_OTHER | _CONFIRM_SUBMIT | _SAVE_ANSWER
| _EDIT_PREF_GLOBAL | _EDIT_PREF_LOCAL | _SELECT_QUESTION | _CONFIRM_PREF_GLOBAL | _CONFIRM_PREF_LOCAL
| _ADD_JOB | _CHOOSE_FREQ | _CUSTOM_FREQ | _SELECT_START | _CONFIRM_ADD
| _REMOVE_JOB | _SELECT_JOB | _CONFIRM_REMOVE
| _SELECTING_ACTION | _STOPPING | _CANCEL | _RETURN.

(** [question.get_pref_key()]: header, description, required flag. *)
Definition identity : Type := (string * string * bool)%type.

(** A key of the local preference dictionary.  The close-match loop asserts
    [isinstance(pref_key, tuple) and len(pref_key) == 3]; [KOther] is a key
    that fails the assertion. *)
Inductive dict_key : Type :=
| KIdentity (k : identity)
| KOther (s : string).

(** An answer of the user: a [str] or a [tuple] of [str]. *)
Inductive value : Type :=
| Str (s : string)
| Tuple (l : list string).

(** [_CURRENT_ANSWER] and [_ANSWER_KEY]: a plain value, or the
    [OrderedDict] of a grid question (sub-question to answer or [None]). *)
Inductive Answer : Type :=
| Plain (v : value)
| Grid (m : list (string * option value)).

(** The options of [SavePrefMarkup]; [not_an_option] is any other value,
    the one [SavePrefMarkup.is_option] rejects. *)
Inductive save_pref : Type :=
| save_always | never_save | ask_again
| not_an_option (s : string).

Record question_pref : Type := {
  _PREF_KEY : option save_pref;
  _ANSWER_KEY : option Answer
}.

Record save_prefs : Type := {
  _GLOBAL_SAVE_PREF : option save_pref;
  _LOCAL_SAVE_PREF : option (list (dict_key * question_pref))
}.

Record datetime : Type := { year : Z; month : Z; day : Z; hour : Z; minute : Z }.

(** [datetime.time()] *)
Definition time_of (d : datetime) : Z * Z := (hour d, minute d).

(** What [_confirm_add] hands to the job queue. *)
Inductive trigger : Type :=
| run_repeating (interval : Z) (first : datetime)
| run_daily (time : Z * Z)
| run_monthly (when : Z * Z) (day : Z).

Record job : Type := { job_name : string; job_trigger : trigger }.

Definition datetime_eqb (a b : datetime) : bool :=
  (year a =? year b)%Z && (month a =? month b)%Z && (day a =? day b)%Z
  && (hour a =? hour b)%Z && (minute a =? minute b)%Z.

Definition trigger_eqb (a b : trigger) : bool :=
  match a, b with
  | run_repeating i f, run_repeating i' f' => (i =? i')%Z && datetime_eqb f f'
  | run_daily (h, m), run_daily (h', m') => (h =? h')%Z && (m =? m')%Z
  | run_monthly (h, m) d, run_monthly (h', m') d' =>
      (h =? h')%Z && (m =? m')%Z && (d =? d')%Z
  | _, _ => false
  end.

Definition job_eqb (a b : job) : bool :=
  (job_name a =? job_name b) && trigger_eqb (job_trigger a) (job_trigger b).

(** The argument of [processor.answer_question]: [skip=True] or the
    answers in order. *)
Inductive submission : Type :=
| Skip
| Answers (answers : list (option value)).

Inductive exn : Type := AssertionError | KeyError | AttributeError.

(** *** The collaborators *)

Inductive question_result (Question : Type) : Type :=
| QTrue                       (* no more questions *)
| QFalse                      (* the driver failed *)
| QNotAQuestion               (* neither a bool nor a BaseQuestion *)
| QQuestion (q : Question).
Arguments QTrue {Question}.
Arguments QFalse {Question}.
Arguments QNotAQuestion {Question}.
Arguments QQuestion {Question} q.

Inductive action_result (Keyboard : Type) : Type :=
| AKeyboard (k : Keyboard)    (* an InlineKeyboardMarkup *)
| AStr (s : string)
| AOther.
Arguments AKeyboard {Keyboard} k.
Arguments AStr {Keyboard} s.
Arguments AOther {Keyboard}.

(** Everything the handlers call that is defined in [processor.py], in the
    [questions] and [markups] packages and in [datetime]. *)
Record Env : Type := {
  FormProcessor : Type;
  Question : Type;
  WebElement : Type;
  Markup : Type;
  Keyboard : Type;
  (* processor.py *)
  new_FormProcessor : string -> FormProcessor;
  get_question : FormProcessor -> bool -> question_result Question * FormProcessor;
  refresh_section : FormProcessor -> option WebElement * FormProcessor;
  answer_question : FormProcessor -> submission -> option bool * FormProcessor;
  close_browser : FormProcessor -> FormProcessor;
  get_link : FormProcessor -> string;
  (* questions *)
  get_info : Question -> FormProcessor -> option bool * Question * FormProcessor;
  set_question_element : Question -> WebElement -> Question;
  get_pref_key : Question -> identity;
  get_header : Question -> string;
  get_description : Question -> string;
  is_required : Question -> bool;
  get_sub_questions : Question -> list string;
  get_options : Question -> list string;
  is_DatetimeQuestion : Question -> bool;
  is_DateQuestion : Question -> bool;
  is_TimeQuestion : Question -> bool;
  is_DurationQuestion : Question -> bool;
  is_BaseOptionQuestion : Question -> bool;
  is_CheckboxQuestion : Question -> bool;
  is_BaseOptionGridQuestion : Question -> bool;
  (* markups *)
  DatetimeMarkup : bool -> Markup;
  DateMarkup : bool -> Markup;
  TimeMarkup : bool -> option Z -> Markup;
  MenuMarkup : bool -> bool -> list string -> Markup;
  is_BaseOptionMarkup : Markup -> bool;
  is_DatetimeMarkup : Markup -> bool;
  perform_action : Markup -> string -> action_result Keyboard * Markup;
  get_pattern : Markup -> string;
  get_markup : Markup -> Keyboard;
  get_required_warning : string;
  get_skip : string;
  TFMarkup_confirm : string -> option bool;
  TFMarkup_get_pattern : string;
  get_hourly : string;
  get_daily : string;
  get_weekly : string;
  get_monthly : string;
  valid_freq : Z -> Z -> Z -> bool;
  (* datetime.strptime(start, "%Y-%m-%d %H:%M") *)
  strptime : string -> option datetime
}.

Section Handlers.

Variable E : Env.

(** [_PROCESSOR]: the form link, a live [FormProcessor], or anything else. *)
Inductive processor_slot : Type :=
| IdleLink (link : string)
| Active (p : FormProcessor E)
| NotAProcessor.

Inductive question_slot : Type :=
| AQuestion (q : Question E)
| NotAQuestion.

(** [_CURRENT_MARKUP] may hold [None]: [_obtain_question] stores the markup
    it built even when the question has none. *)
Inductive markup_slot : Type :=
| AMarkup (m : Markup E)
| NoneMarkup.

Inductive job_slot : Type :=
| JobName (s : string)
| NotAName.

Record user_data : Type := {
  _SAVE_PREFS : option save_prefs;
  _PROCESSOR : option processor_slot;
  _CURRENT_QUESTION : option question_slot;
  _CURRENT_ANSWER : option Answer;
  _CURRENT_MARKUP : option markup_slot;
  _CURRENT_JOB : option job_slot
}.

(** *** What the user and the driver see *)

Inductive prompt_tail : Type :=
| saved_answer_detected (answer_text : string)
| answer_recommendation (answer_text : string)
| please_answer (select : bool) (may_skip : bool).

Inductive text : Type :=
| please_wait
| form_submitted
| job_error
| answer_saved
| answer_discarded
| save_prompt
| question_text (header description : string) (required : bool)
                (sub_question : option string) (tail : prompt_tail)
| same_text
| confirm_job (name : string)
| job_scheduled
| job_aborted.

Inductive reply_markup : Type :=
| no_markup
| TF_markup
| return_button
| ok_button (to : state)
| keyboard (k : Keyboard E).

Inductive driver_call : Type :=
| call_FormProcessor (link : string)
| call_get_question (start : bool)
| call_get_info
| call_refresh_section
| call_set_question_element
| call_answer_question (s : submission)
| call_close_browser
| call_get_link (link : string).

Inductive event : Type :=
| callback_answer (alert : option string)
| edit_message_text (t : text) (m : reply_markup)
| send_bug_message
| driver (c : driver_call).

(** The session, the job queue, the patterns of the two dynamic handlers
    and the history of events, newest first. *)
Record world : Type := {
  ud : user_data;
  job_queue : list job;
  answer_handler_pattern : string;
  confirm_handler_pattern : string;
  history : list event
}.

(** *** A monad for handler bodies

    A step of a handler continues with a value or leaves the body: it
    returns a state, returns the result of
    [_obtain_question(update, context, to_process=...)], raises, or runs
    out of fuel in a loop of the source. *)
Inductive exit : Type :=
| Return (s : state)
| TailCall (to_process : bool)
| Raise (e : exn)
| OutOfFuel.

Inductive outcome (A : Type) : Type :=
| Normal (a : A)
| Exit (x : exit).
Arguments Normal {A} a.
Arguments Exit {A} x.

Definition M (A : Type) : Type := world -> outcome A * world.

Definition ret {A} (a : A) : M A := fun w => (Normal a, w).

Definition bind {A B} (m : M A) (f : A -> M B) : M B :=
  fun w =>
    match m w with
    | (Normal a, w1) => f a w1
    | (Exit x, w1) => (Exit x, w1)
    end.

Definition return_ {A} (s : state) : M A := fun w => (Exit (Return s), w).
Definition tail_call {A} (to_process : bool) : M A := fun w => (Exit (TailCall to_process), w).
Definition raise {A} (e : exn) : M A := fun w => (Exit (Raise e), w).
Definition out_of_fuel {A} : M A := fun w => (Exit OutOfFuel, w).

(** The result of a handler body: where it left, and the world then. *)
Definition run (m : M state) (w : world) : exit * world :=
  match m w with
  | (Normal s, w1) => (Return s, w1)
  | (Exit x, w1) => (x, w1)
  end.

Definition get_ud : M user_data := fun w => (Normal (ud w), w).

Definition modify_ud (f : user_data -> user_data) : M unit :=
  fun w => (Normal tt,
            {| ud := f (ud w); job_queue := job_queue w;
               answer_handler_pattern := answer_handler_pattern w;
               confirm_handler_pattern := confirm_handler_pattern w;
               history := history w |}).

Definition emit (e : event) : M unit :=
  fun w => (Normal tt,
            {| ud := ud w; job_queue := job_queue w;
               answer_handler_pattern := answer_handler_pattern w;
               confirm_handler_pattern := confirm_handler_pattern w;
               history := e :: history w |}).

Definition set_answer_handler_pattern (p : string) : M unit :=
  fun w => (Normal tt,
            {| ud := ud w; job_queue := job_queue w;
               answer_handler_pattern := p;
               confirm_handler_pattern := confirm_handler_pattern w;
               history := history w |}).

Definition set_confirm_handler_pattern (p : string) : M unit :=
  fun w => (Normal tt,
            {| ud := ud w; job_queue := job_queue w;
               answer_handler_pattern := answer_handler_pattern w;
               confirm_handler_pattern := p;
               history := history w |}).

Definition get_job_queue : M (list job) := fun w => (Normal (job_queue w), w).

Definition add_job (j : job) : M unit :=
  fun w => (Normal tt,
            {| ud := ud w; job_queue := job_queue w ++ [j];
               answer_handler_pattern := answer_handler_pattern w;
               confirm_handler_pattern := confirm_handler_pattern w;
               history := history w |}).


(** *** Dictionaries

    A Python [dict] (and an [OrderedDict]) keeps its keys in insertion
    order: an association list whose keys are pairwise distinct. *)
Section Dict.
Context {K V : Type} (eqb : K -> K -> bool).

Fixpoint dict_get (k : K) (d : list (K * V)) : option V :=
  match d with
  | [] => None
  | (k', v) :: rest => if eqb k k' then Some v else dict_get k rest
  end.

Definition dict_mem (k : K) (d : list (K * V)) : bool :=
  match dict_get k d with Some _ => true | None => false end.

(** [d[k] = v]: in place when the key is there, at the end otherwise. *)
Fixpoint dict_set (k : K) (v : V) (d : list (K * V)) : list (K * V) :=
  match d with
  | [] => [(k, v)]
  | (k', v') :: rest => if eqb k k' then (k', v) :: rest else (k', v') :: dict_set k v rest
  end.

Fixpoint dict_remove (k : K) (d : list (K * V)) : list (K * V) :=
  match d with
  | [] => []
  | (k', v') :: rest => if eqb k k' then rest else (k', v') :: dict_remove k rest
  end.
End Dict.

Definition identity_eqb (a b : identity) : bool :=
  let '(h1, d1, r1) := a in
  let '(h2, d2, r2) := b in
  (h1 =? h2) && (d1 =? d2) && Bool.eqb r1 r2.

Definition dict_key_eqb (a b : dict_key) : bool :=
  match a, b with
  | KIdentity x, KIdentity y => identity_eqb x y
  | KOther x, KOther y => x =? y
  | _, _ => false
  end.

(** *** Truthiness and the shapes of an answer *)

Definition truthy (r : option bool) : bool :=
  match r with Some true => true | _ => false end.

Definition value_truthy (v : value) : bool :=
  match v with
  | Str s => negb (s =? "")
  | Tuple l => match l with [] => false | _ => true end
  end.

Definition answer_truthy (a : Answer) : bool :=
  match a with
  | Plain v => value_truthy v
  | Grid m => match m with [] => false | _ => true end
  end.

Definition opt_truthy {A} (f : A -> bool) (o : option A) : bool :=
  match o with Some a => f a | None => false end.

(** The arguments a saved or current answer is submitted with:
    [*answer.values()], [*answer] or [str(answer)]. *)
Definition submission_args (a : Answer) : list (option value) :=
  match a with
  | Grid m => map snd m
  | Plain (Tuple l) => map (fun s => Some (Str s)) l
  | Plain (Str s) => [Some (Str s)]
  end.

(** [OrderedDict((q, None) for q in question.get_sub_questions())] *)
Definition empty_grid (sub_questions : list string) : list (string * option value) :=
  fold_left (fun d q => dict_set String.eqb q None d) sub_questions [].

(** The first sub-question whose answer is still [None]. *)
Fixpoint first_unanswered (m : list (string * option value)) : option string :=
  match m with
  | [] => None
  | (k, None) :: _ => Some k
  | (_, Some _) :: rest => first_unanswered rest
  end.

(** [None in answer.values()] *)
Definition has_unanswered (m : list (string * option value)) : bool :=
  existsb (fun kv => match snd kv with None => true | Some _ => false end) m.

(** The rejection loop of [_submit_answer]: walking the keys backwards,
    reset the first answer that is not [None]. *)
Definition is_answered (m : list (string * option value)) (k : string) : bool :=
  match dict_get String.eqb k m with
  | Some (Some _) => true
  | _ => false
  end.

Definition reset_last_answer (m : list (string * option value)) : list (string * option value) :=
  match find (is_answered m) (rev (map fst m)) with
  | Some k => dict_set String.eqb k None m
  | None => m
  end.

(** The filling loop of [_process_answer]: the first [None] takes the
    answer, an empty string when the user skips. *)
Definition fill_first_unanswered (skip_label : string) (result : value)
    (m : list (string * option value)) : list (string * option value) :=
  match first_unanswered m with
  | Some k =>
      let stored :=
        match result with
        | Str s => if (s =? skip_label) || (s =? "/skip") then Str "" else result
        | Tuple _ => result
        end in
      dict_set String.eqb k (Some stored) m
  | None => m
  end.

(** *** Field updates of [context.user_data] *)

Definition set_SAVE_PREFS (v : option save_prefs) (u : user_data) : user_data :=
  {| _SAVE_PREFS := v; _PROCESSOR := _PROCESSOR u; _CURRENT_QUESTION := _CURRENT_QUESTION u;
     _CURRENT_ANSWER := _CURRENT_ANSWER u; _CURRENT_MARKUP := _CURRENT_MARKUP u;
     _CURRENT_JOB := _CURRENT_JOB u |}.

Definition set_PROCESSOR (v : option processor_slot) (u : user_data) : user_data :=
  {| _SAVE_PREFS := _SAVE_PREFS u; _PROCESSOR := v; _CURRENT_QUESTION := _CURRENT_QUESTION u;
     _CURRENT_ANSWER := _CURRENT_ANSWER u; _CURRENT_MARKUP := _CURRENT_MARKUP u;
     _CURRENT_JOB := _CURRENT_JOB u |}.

Definition set_CURRENT_QUESTION (v : option question_slot) (u : user_data) : user_data :=
  {| _SAVE_PREFS := _SAVE_PREFS u; _PROCESSOR := _PROCESSOR u; _CURRENT_QUESTION := v;
     _CURRENT_ANSWER := _CURRENT_ANSWER u; _CURRENT_MARKUP := _CURRENT_MARKUP u;
     _CURRENT_JOB := _CURRENT_JOB u |}.

Definition set_CURRENT_ANSWER (v : option Answer) (u : user_data) : user_data :=
  {| _SAVE_PREFS := _SAVE_PREFS u; _PROCESSOR := _PROCESSOR u; _CURRENT_QUESTION := _CURRENT_QUESTION u;
     _CURRENT_ANSWER := v; _CURRENT_MARKUP := _CURRENT_MARKUP u;
     _CURRENT_JOB := _CURRENT_JOB u |}.

Definition set_CURRENT_MARKUP (v : option markup_slot) (u : user_data) : user_data :=
  {| _SAVE_PREFS := _SAVE_PREFS u; _PROCESSOR := _PROCESSOR u; _CURRENT_QUESTION := _CURRENT_QUESTION u;
     _CURRENT_ANSWER := _CURRENT_ANSWER u; _CURRENT_MARKUP := v;
     _CURRENT_JOB := _CURRENT_JOB u |}.

Definition set_CURRENT_JOB (v : option job_slot) (u : user_data) : user_data :=
  {| _SAVE_PREFS := _SAVE_PREFS u; _PROCESSOR := _PROCESSOR u; _CURRENT_QUESTION := _CURRENT_QUESTION u;
     _CURRENT_ANSWER := _CURRENT_ANSWER u; _CURRENT_MARKUP := _CURRENT_MARKUP u;
     _CURRENT_JOB := v |}.

(** The local preference dictionary,
    [user_data.get(_SAVE_PREFS, {}).get(_LOCAL_SAVE_PREF, {})]. *)
Definition local_prefs (u : user_data) : list (dict_key * question_pref) :=
  match _SAVE_PREFS u with
  | Some sp => match _LOCAL_SAVE_PREF sp with Some d => d | None => [] end
  | None => []
  end.

Definition set_local_prefs (d : list (dict_key * question_pref)) (u : user_data) : user_data :=
  match _SAVE_PREFS u with
  | Some sp =>
      set_SAVE_PREFS (Some {| _GLOBAL_SAVE_PREF := _GLOBAL_SAVE_PREF sp;
                              _LOCAL_SAVE_PREF := Some d |}) u
  | None => u
  end.

Notation "x <- m ;; k" := (bind m (fun x => k))
  (at level 61, m at next level, right associativity).
Notation "m ;; k" := (bind m (fun _ => k))
  (at level 61, right associativity).

(** *** Helper functions of the source *)

(** [_show_loading_screen]: a [BadRequest] is caught, the screen is
    already there. *)
Definition _show_loading_screen : M unit :=
  emit (edit_message_text please_wait no_markup).

(** [_remove_current_pointers]: pop [_CURRENT_QUESTION] and
    [_CURRENT_ANSWER] when they are there. *)
Definition _remove_current_pointers : M unit :=
  modify_ud (fun u => set_CURRENT_ANSWER None (set_CURRENT_QUESTION None u)).

(** A call on the [FormProcessor] object that [_PROCESSOR] holds. *)
Definition with_processor {A} (c : driver_call)
    (f : FormProcessor E -> A * FormProcessor E) : M A :=
  u <- get_ud ;;
  match _PROCESSOR u with
  | Some (Active p) =>
      let (a, p') := f p in
      modify_ud (set_PROCESSOR (Some (Active p'))) ;;
      emit (driver c) ;;
      ret a
  | _ => raise AttributeError
  end.

Definition is_skip (a : option value) : bool :=
  match a with
  | Some (Str s) => (s =? get_skip E) || (s =? "/skip")
  | _ => false
  end.

(** [_submit_to_google_forms(processor, *answers)] *)
Definition _submit_to_google_forms (answers : list (option value)) : M (option bool) :=
  match answers with
  | [] => ret (Some true)
  | first :: _ =>
      if is_skip first
      then with_processor (call_answer_question Skip)
             (fun p => answer_question E p Skip)
      else with_processor (call_answer_question (Answers answers))
             (fun p => answer_question E p (Answers answers))
  end.

(** [processor.get_browser().close_browser()] followed by
    [user_data[_PROCESSOR] = processor.get_browser().get_link()]. *)
Definition release_processor (p : FormProcessor E) : M unit :=
  let p' := close_browser E p in
  emit (driver call_close_browser) ;;
  emit (driver (call_get_link (get_link E p'))) ;;
  modify_ud (set_PROCESSOR (Some (IdleLink (get_link E p')))).

(** *** [_obtain_question] *)

(** [question.get_info()] on the question stored in [_CURRENT_QUESTION]:
    the call changes the question object in place and drives the browser. *)
Definition question_get_info : M (option bool) :=
  u <- get_ud ;;
  match _CURRENT_QUESTION u, _PROCESSOR u with
  | Some (AQuestion q), Some (Active p) =>
      let '(r, q', p') := get_info E q p in
      modify_ud (fun u => set_CURRENT_QUESTION (Some (AQuestion q'))
                            (set_PROCESSOR (Some (Active p')) u)) ;;
      emit (driver call_get_info) ;;
      ret r
  | _, _ => raise AttributeError
  end.

Definition question_set_element (e : WebElement E) : M unit :=
  u <- get_ud ;;
  match _CURRENT_QUESTION u with
  | Some (AQuestion q) =>
      modify_ud (set_CURRENT_QUESTION (Some (AQuestion (set_question_element E q e)))) ;;
      emit (driver call_set_question_element)
  | _ => raise AttributeError
  end.

(** [while result is False]: re-crawl the page and read the question
    again.  The source loop has no bound; [fuel] bounds its iterations
    here. *)
Fixpoint refresh_loop (fuel : nat) (result : option bool) : M (option bool) :=
  match result with
  | Some false =>
      match fuel with
      | O => out_of_fuel
      | S fuel' =>
          element <- with_processor call_refresh_section (refresh_section E) ;;
          match element with
          | None => ret None
          | Some e =>
              question_set_element e ;;
              result' <- question_get_info ;;
              refresh_loop fuel' result'
          end
      end
  | _ => ret result
  end.

(** Region "Obtain FormProcessor": [start] is the result. *)
Definition obtain_processor (slot : processor_slot) : M bool :=
  match slot with
  | Active _ => ret false
  | IdleLink link =>
      modify_ud (set_PROCESSOR (Some (Active (new_FormProcessor E link)))) ;;
      emit (driver (call_FormProcessor link)) ;;
      emit (callback_answer None) ;;
      ret true
  | NotAProcessor => raise AssertionError
  end.

(** Region "Obtain the next Google Form question". *)
Definition obtain_next_question (fuel : nat) (start : bool) : M (Question E) :=
  u <- get_ud ;;
  match _CURRENT_QUESTION u with
  | None =>
      question <- with_processor (call_get_question start)
                    (fun p => get_question E p start) ;;
      match question with
      | QTrue =>
          emit (edit_message_text form_submitted return_button) ;;
          u1 <- get_ud ;;
          match _PROCESSOR u1 with
          | Some (Active p) =>
              release_processor p ;;
              set_answer_handler_pattern "^$" ;;
              return_ _RETURN
          | _ => raise AttributeError
          end
      | QFalse | QNotAQuestion =>
          emit send_bug_message ;;
          return_ _STOPPING
      | QQuestion q =>
          modify_ud (set_CURRENT_QUESTION (Some (AQuestion q))) ;;
          result <- question_get_info ;;
          result <- refresh_loop fuel result ;;
          if truthy result then
            u2 <- get_ud ;;
            match _CURRENT_QUESTION u2 with
            | Some (AQuestion q') => ret q'
            | _ => raise AttributeError
            end
          else
            emit send_bug_message ;;
            return_ _STOPPING
      end
  | Some (AQuestion q) => ret q
  | Some NotAQuestion =>
      emit send_bug_message ;;
      return_ _STOPPING
  end.

(** The initialisation and the two regions above: the question this call
    of [_obtain_question] works on. *)
Definition prepare_question (fuel : nat) : M (Question E) :=
  u <- get_ud ;;
  match _PROCESSOR u with
  | None =>
      emit send_bug_message ;;
      return_ _STOPPING
  | Some slot =>
      _show_loading_screen ;;
      start <- obtain_processor slot ;;
      obtain_next_question fuel start
  end.

(** The close-match loop over [prefs.keys()]: the first key with the
    question's header and with its description or its required flag. *)
Inductive scan_result : Type :=
| NoMatch
| Matched (k : dict_key)
| BadKey.

Definition is_close_match (q_key stored : identity) : bool :=
  let '(header, description, required) := q_key in
  let '(h, d, r) := stored in
  (header =? h) && ((description =? d) || Bool.eqb required r).

Fixpoint close_match (q_key : identity) (keys : list dict_key) : scan_result :=
  match keys with
  | [] => NoMatch
  | KOther _ :: _ => BadKey
  | KIdentity stored :: rest =>
      if is_close_match q_key stored then Matched (KIdentity stored)
      else close_match q_key rest
  end.

Definition is_option (p : option save_pref) : bool :=
  match p with
  | Some save_always | Some never_save | Some ask_again => true
  | _ => false
  end.

Definition save_pref_eqb (p : option save_pref) (o : save_pref) : bool :=
  match p, o with
  | Some save_always, save_always => true
  | Some never_save, never_save => true
  | Some ask_again, ask_again => true
  | Some (not_an_option a), not_an_option b => a =? b
  | _, _ => false
  end.

(** Region "Obtain previously-stored answer, if any": the values of
    [answer] and [preference] at its end. *)
Definition stored_answer (to_process : bool) (question : Question E)
    : M (option Answer * option save_pref) :=
  u <- get_ud ;;
  match to_process, _SAVE_PREFS u with
  | true, Some sp =>
      match _LOCAL_SAVE_PREF sp with
      | Some prefs =>
          match dict_get dict_key_eqb (KIdentity (get_pref_key E question)) prefs with
          | Some entry =>
              match _PREF_KEY entry with
              | None =>
                  emit send_bug_message ;;
                  return_ _STOPPING
              | Some _ =>
                  let preference := _PREF_KEY entry in
                  let answer := _ANSWER_KEY entry in
                  if negb (is_option preference) then
                    emit send_bug_message ;;
                    return_ _STOPPING
                  else
                    match answer with
                    | Some a =>
                        if answer_truthy a then
                          if save_pref_eqb preference save_always then
                            result <- _submit_to_google_forms (submission_args a) ;;
                            if truthy result then
                              _remove_current_pointers ;;
                              tail_call true
                            else return_ _STOPPING
                          else ret (answer, preference)
                        else ret (answer, preference)
                    | None => ret (answer, preference)
                    end
              end
          | None =>
              match close_match (get_pref_key E question) (map fst prefs) with
              | NoMatch => ret (None, None)
              | Matched k =>
                  ret (match dict_get dict_key_eqb k prefs with
                       | Some entry => _ANSWER_KEY entry
                       | None => None
                       end, None)
              | BadKey =>
                  emit send_bug_message ;;
                  return_ _STOPPING
              end
          end
      | None => ret (None, None)
      end
  | _, _ => ret (None, None)
  end.

(** The text of an answer in a confirmation prompt. *)
Definition value_text (v : value) : string :=
  match v with
  | Str s => s
  | Tuple l => String.concat " | " l
  end.

Definition format_value (a : option value) : string :=
  match a with
  | None => "Skipping the question"
  | Some v =>
      if match v with Str s => s =? get_skip E | Tuple _ => false end
         || negb (value_truthy v)
      then "Skipping the question"
      else value_text v
  end.

Definition format_answer (a : Answer) : string :=
  match a with
  | Plain v => format_value (Some v)
  | Grid m =>
      match m with
      | [] => "Skipping the question"
      | _ => String.concat " | " (map fst m)
      end
  end.

Definition question_prompt (question : Question E) (sub_question : option string)
    (tail : prompt_tail) : text :=
  question_text (get_header E question)
    (if get_description E question =? "" then "(no description)"
     else get_description E question)
    (is_required E question) sub_question tail.

(** The markup for a question that has none stored yet. *)
Definition new_markup (question : Question E) : option (Markup E) :=
  if is_DatetimeQuestion E question then Some (DatetimeMarkup E (is_required E question))
  else if is_DateQuestion E question then Some (DateMarkup E (is_required E question))
  else if is_TimeQuestion E question then Some (TimeMarkup E (is_required E question) None)
  else if is_DurationQuestion E question
       then Some (TimeMarkup E (is_required E question) (Some 0%Z))
  else if is_BaseOptionQuestion E question
       then Some (MenuMarkup E (is_required E question) (is_CheckboxQuestion E question)
                    (get_options E question))
  else None.

(** "Format sub-question for grid-based questions": the sub-question to
    process and the saved answer that is left. *)
Definition grid_sub_question (question : Question E) (answer : option Answer)
    : M (option string * option Answer) :=
  if is_BaseOptionGridQuestion E question then
    u <- get_ud ;;
    match _CURRENT_ANSWER u with
    | None =>
        modify_ud (set_CURRENT_ANSWER
                     (Some (Grid (empty_grid (get_sub_questions E question)))))
    | Some _ => ret tt
    end ;;
    u1 <- get_ud ;;
    match _CURRENT_ANSWER u1 with
    | Some (Grid m) =>
        match first_unanswered m with
        | None =>
            emit send_bug_message ;;
            return_ _STOPPING
        | Some sub_question =>
            match answer with
            | Some (Plain v) =>
                if value_truthy v then
                  let key := KIdentity (get_pref_key E question) in
                  if dict_mem dict_key_eqb key (local_prefs u1) then
                    modify_ud (set_local_prefs
                                 (dict_remove dict_key_eqb key (local_prefs u1))) ;;
                    ret (Some sub_question, None)
                  else raise KeyError
                else ret (Some sub_question, answer)
            | _ => ret (Some sub_question, answer)
            end
        end
    | _ => raise AttributeError
    end
  else ret (None, answer).

(** "Format saved answers": the prompt that offers a saved answer or a
    recommendation.  The source puts the saved object itself in
    [_CURRENT_ANSWER]: for a [str] or a [tuple] that is the same as a
    value; a saved [OrderedDict] offered for a question that is not a grid
    stays one object with the saved one, which the values here do not
    follow once a later handler changes it in place. *)
Definition offer_saved_answer (question : Question E) (sub_question : option string)
    (a : Answer) (preference : option save_pref) : M state :=
  u <- get_ud ;;
  match _CURRENT_ANSWER u with
  | None => modify_ud (set_CURRENT_ANSWER (Some a))
  | Some _ => ret tt
  end ;;
  answer_text <-
    (if is_BaseOptionGridQuestion E question then
       u1 <- get_ud ;;
       match a, _CURRENT_ANSWER u1, sub_question with
       | Grid saved, Some (Grid m), Some sub =>
           let sub_answer :=
             match dict_get String.eqb sub saved with
             | Some v => v
             | None => None
             end in
           modify_ud (set_CURRENT_ANSWER
                        (Some (Grid (dict_set String.eqb sub sub_answer m)))) ;;
           ret (format_value sub_answer)
       | _, _, _ => raise AssertionError
       end
     else ret (format_answer a)) ;;
  emit (edit_message_text
          (question_prompt question sub_question
             (if save_pref_eqb preference ask_again
              then saved_answer_detected answer_text
              else answer_recommendation answer_text))
          TF_markup) ;;
  set_confirm_handler_pattern (TFMarkup_get_pattern E) ;;
  return_ _CONFIRM_SUBMIT.

(** "Obtain appropriate markup" and the prompt for input. *)
Definition prompt_for_input (question : Question E) (sub_question : option string)
    : M state :=
  u <- get_ud ;;
  markup <-
    match _CURRENT_MARKUP u with
    | Some (AMarkup m) =>
        if is_BaseOptionMarkup E m then ret (Some m) else return_ _STOPPING
    | Some NoneMarkup => return_ _STOPPING
    | None =>
        let markup := new_markup question in
        modify_ud (set_CURRENT_MARKUP
                     (Some (match markup with Some m => AMarkup m | None => NoneMarkup end))) ;;
        ret markup
    end ;;
  match markup with
  | Some m => set_answer_handler_pattern (get_pattern E m)
  | None => ret tt
  end ;;
  emit (edit_message_text
          (question_prompt question sub_question
             (please_answer (is_BaseOptionQuestion E question)
                            (negb (is_required E question))))
          (match markup with Some m => keyboard (get_markup E m) | None => no_markup end)) ;;
  return_ _SKIP_OR_ANSWER.

(** Region "Display the question metadata". *)
Definition display_question (to_process : bool) (question : Question E)
    (answer : option Answer) (preference : option save_pref) : M state :=
  sa <- grid_sub_question question answer ;;
  let (sub_question, answer) := (sa : option string * option Answer) in
  match answer with
  | Some a =>
      if to_process && answer_truthy a
      then offer_saved_answer question sub_question a preference
      else prompt_for_input question sub_question
  | None => prompt_for_input question sub_question
  end.

(** One run of the body of [_obtain_question], up to its [return]. *)
Definition _obtain_question_body (fuel : nat) (to_process : bool) : M state :=
  question <- prepare_question fuel ;;
  ap <- stored_answer to_process question ;;
  display_question to_process question (fst ap) (snd ap).

(** A handler whose body ends in [return _obtain_question(...)] goes on
    with that call; [fuel] bounds the chain of such calls. *)
Fixpoint _obtain_question (fuel : nat) (to_process : bool) (w : world) : exit * world :=
  match run (_obtain_question_body fuel to_process) w with
  | (TailCall to_process', w1) =>
      match fuel with
      | O => (OutOfFuel, w1)
      | S fuel' => _obtain_question fuel' to_process' w1
      end
  | r => r
  end.

Definition continue_with (fuel : nat) (r : exit * world) : exit * world :=
  match r with
  | (TailCall to_process, w1) => _obtain_question fuel to_process w1
  | r => r
  end.

(** *** [_submit_answer] and [_save_answer] *)

(** The entry [default[_LOCAL_SAVE_PREF][question.get_pref_key()]]: the
    global preference, [ask_again] when there is none. *)
Definition default_question_pref (u : user_data) : question_pref :=
  {| _PREF_KEY :=
       Some (match _SAVE_PREFS u with
             | Some sp =>
                 match _GLOBAL_SAVE_PREF sp with
                 | Some g => g
                 | None => ask_again
                 end
             | None => ask_again
             end);
     _ANSWER_KEY := None |}.

(** "Determine answer save preference": make sure the question has an
    entry in the local preferences. *)
Definition ensure_question_pref (key : dict_key) (u : user_data) : user_data :=
  match _SAVE_PREFS u with
  | None =>
      set_SAVE_PREFS
        (Some {| _GLOBAL_SAVE_PREF := Some ask_again;
                 _LOCAL_SAVE_PREF := Some [(key, default_question_pref u)] |}) u
  | Some sp =>
      match _LOCAL_SAVE_PREF sp with
      | None =>
          set_SAVE_PREFS
            (Some {| _GLOBAL_SAVE_PREF := _GLOBAL_SAVE_PREF sp;
                     _LOCAL_SAVE_PREF := Some [(key, default_question_pref u)] |}) u
      | Some prefs =>
          if dict_mem dict_key_eqb key prefs then u
          else set_SAVE_PREFS
                 (Some {| _GLOBAL_SAVE_PREF := _GLOBAL_SAVE_PREF sp;
                          _LOCAL_SAVE_PREF :=
                            Some (dict_set dict_key_eqb key (default_question_pref u) prefs) |}) u
      end
  end.

(** [question_pref[_ANSWER_KEY] = answer] on the entry of [key]. *)
Definition save_answer_for (key : dict_key) (a : option Answer) (u : user_data) : user_data :=
  match dict_get dict_key_eqb key (local_prefs u) with
  | Some entry =>
      set_local_prefs
        (dict_set dict_key_eqb key
           {| _PREF_KEY := _PREF_KEY entry; _ANSWER_KEY := a |} (local_prefs u)) u
  | None => u
  end.

(** Region "Save answer" of [_submit_answer]. *)
Definition save_region (question : Question E) : M state :=
  let key := KIdentity (get_pref_key E question) in
  modify_ud (ensure_question_pref key) ;;
  u <- get_ud ;;
  match dict_get dict_key_eqb key (local_prefs u) with
  | None => raise AttributeError
  | Some question_pref =>
      if negb (is_option (_PREF_KEY question_pref)) then
        emit send_bug_message ;;
        return_ _STOPPING
      else if save_pref_eqb (_PREF_KEY question_pref) save_always then
        modify_ud (save_answer_for key (_CURRENT_ANSWER u)) ;;
        emit (edit_message_text answer_saved no_markup) ;;
        _remove_current_pointers ;;
        tail_call true
      else if save_pref_eqb (_PREF_KEY question_pref) never_save then
        emit (edit_message_text answer_discarded no_markup) ;;
        _remove_current_pointers ;;
        tail_call true
      else
        emit (edit_message_text save_prompt TF_markup) ;;
        return_ _SAVE_ANSWER
  end.

(** The body of [_submit_answer]; [data] is [update.callback_query.data]. *)
Definition _submit_answer_body (data : option string) : M state :=
  u <- get_ud ;;
  match data, _CURRENT_ANSWER u, _CURRENT_QUESTION u, _PROCESSOR u with
  | Some data, Some current, Some (AQuestion question), Some (Active _) =>
      emit (callback_answer None) ;;
      modify_ud (set_CURRENT_MARKUP None) ;;
      set_confirm_handler_pattern "^$" ;;
      match TFMarkup_confirm E data with
      | None => return_ _STOPPING
      | Some true =>
          match current with
          | Grid m =>
              if has_unanswered m then tail_call true
              else
                _show_loading_screen ;;
                result <- _submit_to_google_forms (submission_args current) ;;
                if truthy result then save_region question else return_ _STOPPING
          | Plain _ =>
              _show_loading_screen ;;
              result <- _submit_to_google_forms (submission_args current) ;;
              if truthy result then save_region question else return_ _STOPPING
          end
      | Some false =>
          match current with
          | Grid m => modify_ud (set_CURRENT_ANSWER (Some (Grid (reset_last_answer m))))
          | Plain _ => ret tt
          end ;;
          tail_call false
      end
  | _, _, _, _ =>
      emit send_bug_message ;;
      return_ _STOPPING
  end.

Definition _submit_answer (fuel : nat) (data : option string) (w : world) : exit * world :=
  continue_with fuel (run (_submit_answer_body data) w).

(** The body of [_save_answer]. *)
Definition _save_answer_body (data : option string) : M state :=
  u <- get_ud ;;
  match data, _CURRENT_ANSWER u, _CURRENT_QUESTION u with
  | Some data, Some current, Some (AQuestion question) =>
      let key := KIdentity (get_pref_key E question) in
      if save_pref_eqb
           (match dict_get dict_key_eqb key (local_prefs u) with
            | Some entry => _PREF_KEY entry
            | None => None
            end) ask_again
      then
        emit (callback_answer None) ;;
        match TFMarkup_confirm E data with
        | None => return_ _STOPPING
        | Some result =>
            (if result then modify_ud (save_answer_for key (Some current)) else ret tt) ;;
            _remove_current_pointers ;;
            tail_call true
        end
      else
        emit send_bug_message ;;
        return_ _STOPPING
  | _, _, _ =>
      emit send_bug_message ;;
      return_ _STOPPING
  end.

Definition _save_answer (fuel : nat) (data : option string) (w : world) : exit * world :=
  continue_with fuel (run (_save_answer_body data) w).

(** *** The scheduler bridge *)

(** The clean-up of [_auto_submit] after [_obtain_question] returned
    [_STOPPING]. *)
Definition job_failed : M unit :=
  _remove_current_pointers ;;
  u <- get_ud ;;
  match _PROCESSOR u with
  | Some (Active p) => release_processor p
  | _ => ret tt
  end ;;
  set_answer_handler_pattern "^$" ;;
  emit (edit_message_text job_error (ok_button _SET_REMINDER)).

(** How a fired job ends: [_auto_submit] returns nothing. *)
Inductive job_result : Type :=
| job_done
| job_raised (e : exn)
| job_out_of_fuel.

(** [_auto_submit], called by a job with the update and the context that
    [_confirm_add] registered it with (so the assertions of its
    initialisation hold). *)
Definition _auto_submit (fuel : nat) (w : world) : job_result * world :=
  match _PROCESSOR (ud w) with
  | Some (Active _) => (job_done, w)
  | _ =>
      match _obtain_question fuel true w with
      | (Return _STOPPING, w1) => (job_done, snd (job_failed w1))
      | (Return _, w1) => (job_done, w1)
      | (TailCall _, w1) => (job_done, w1)
      | (Raise e, w1) => (job_raised e, w1)
      | (OutOfFuel, w1) => (job_out_of_fuel, w1)
      end
  end.

(** [context.job_queue.get_jobs_by_name(name)] *)
Definition get_jobs_by_name (name : string) (jobs : list job) : list job :=
  filter (fun j => job_name j =? name) jobs.

(** [_start_date] *)
Definition _start_date (data : option string) : M state :=
  u <- get_ud ;;
  match data, _CURRENT_MARKUP u, _CURRENT_JOB u with
  | Some data, Some (AMarkup markup), Some (JobName current_job) =>
      if negb (data =? "") && is_DatetimeMarkup E markup then
        let (result, markup') := perform_action E markup data in
        modify_ud (set_CURRENT_MARKUP (Some (AMarkup markup'))) ;;
        match result with
        | AKeyboard k =>
            emit (edit_message_text same_text (keyboard k)) ;;
            emit (callback_answer None) ;;
            return_ _SELECT_START
        | AStr result =>
            if result =? get_required_warning E then
              emit (callback_answer (Some result)) ;;
              return_ _SELECT_START
            else
              let job_name := current_job ++ ", starting from " ++ result in
              jobs <- get_job_queue ;;
              match get_jobs_by_name job_name jobs with
              | _ :: _ =>
                  emit (callback_answer (Some "ALERT: An identical job already exists!")) ;;
                  return_ _SELECT_START
              | [] =>
                  emit (callback_answer None) ;;
                  modify_ud (set_CURRENT_MARKUP None) ;;
                  modify_ud (set_CURRENT_JOB (Some (JobName job_name))) ;;
                  emit (edit_message_text (confirm_job job_name) TF_markup) ;;
                  return_ _CONFIRM_ADD
              end
        | AOther =>
            emit (callback_answer None) ;;
            return_ _SELECT_START
        end
      else
        emit send_bug_message ;;
        return_ _STOPPING
  | _, _, _ =>
      emit send_bug_message ;;
      return_ _STOPPING
  end.

(** The trigger [_confirm_add] registers for a frequency; [None] when a
    custom frequency is not recognised. *)
Definition trigger_for (freq : string) (start_datetime : datetime) : option trigger :=
  if freq =? get_hourly E then Some (run_repeating (60 * 60) start_datetime)
  else if freq =? get_daily E then Some (run_daily (time_of start_datetime))
  else if freq =? get_weekly E then Some (run_repeating (60 * 60 * 24 * 7) start_datetime)
  else if freq =? get_monthly E
       then Some (run_monthly (time_of start_datetime) (day start_datetime))
  else
    match Py.findall_digits freq with
    | [days; hours; minutes] =>
        match Py.int days, Py.int hours, Py.int minutes with
        | Some d, Some h, Some m =>
            if valid_freq E d h m
            then Some (run_repeating (60 * ((d * 24 + h) * 60 + m)) start_datetime)
            else None
        | _, _, _ => None
        end
    | _ => None
    end.

(** [_confirm_add] *)
Definition _confirm_add (data : option string) : M state :=
  u <- get_ud ;;
  match data, _CURRENT_JOB u with
  | Some data, Some (JobName job_name) =>
      if data =? "" then
        emit send_bug_message ;;
        return_ _STOPPING
      else
        match Py.split ", starting from " job_name with
        | [freq; start] =>
            emit (callback_answer None) ;;
            match TFMarkup_confirm E data with
            | None =>
                emit send_bug_message ;;
                return_ _STOPPING
            | Some result =>
                match strptime E start with
                | None =>
                    emit send_bug_message ;;
                    return_ _STOPPING
                | Some start_datetime =>
                    (if result then
                       match trigger_for freq start_datetime with
                       | Some t => add_job {| job_name := job_name; job_trigger := t |}
                       | None =>
                           emit send_bug_message ;;
                           return_ _STOPPING
                       end
                     else ret tt) ;;
                    modify_ud (set_CURRENT_JOB None) ;;
                    emit (edit_message_text
                            (if result then job_scheduled else job_aborted)
                            (ok_button _SET_REMINDER)) ;;
                    return_ _CANCEL
                end
            end
        | _ =>
            emit send_bug_message ;;
            return_ _STOPPING
        end
  | _, _ =>
      emit send_bug_message ;;
      return_ _STOPPING
  end.

(** *** The handlers of the other conversations

    [_process_answer] and [_process_other], the scheduler menu and the
    handlers around it also answer to plain messages, keep a [Job] in the
    session and raise errors of other kinds.  They run on a [chat]: the
    [user_data] of above, the two keys these handlers add to it, the job
    queue and what was sent, newest first. *)

(** An update carries a pressed button ([update.callback_query], with its
    [data]), a message ([update.message], with its text and the full name
    of its sender) or neither.  A callback query comes from a button under
    a message of the bot: its [message] is there. *)
Inductive update : Type :=
| callback_update (data : option string)
| message_update (message_text full_name : string)
| empty_update.

(** The result of [perform_action] on a [BaseOptionMarkup]: a keyboard to
    show next, the selection (a [str], or a [tuple] for a checkbox menu),
    or anything else. *)
Inductive option_result : Type :=
| OKeyboard (k : Keyboard E)
| OValue (v : value)
| ONeither.

(** What the markups and the questions give to these handlers only. *)
Record Menus : Type := {
  (* BaseOptionQuestion.get_other_option_label() *)
  get_other_option_label : string;
  (* BaseOptionMarkup: perform_action and get_required_warning() *)
  option_action : Markup E -> string -> option_result * Markup E;
  option_required_warning : string;
  (* DatetimeMarkup(True, from_date=...) *)
  DatetimeMarkup_from : bool -> datetime -> Markup E;
  (* FreqCustomMarkup *)
  FreqCustomMarkup : Markup E;
  is_FreqCustomMarkup : Markup E -> bool;
  get_invalid_message : string;
  (* FreqMarkup.get_markup() *)
  FreqMarkup_get_markup : Keyboard E;
  (* re.compile(pattern): [false] when it raises re.error *)
  re_compile : string -> bool
}.

Inductive notice : Type :=
| scheduler_menu
| how_often
| select_start
| select_frequency
| unchanged_text
| removal_warning
| no_reminders
| select_a_job
| job_removed
| removal_aborted
| cannot_skip
| select_from_menu
| specify_other
| confirm_skip
| confirm_answer (v : value)
| not_understood (input : string)
| unknown_command (input : string)
| thank_you
| sorry_to_stop
| literally (s : string).

Inductive buttons : Type :=
| inline (m : reply_markup)
| ReplyKeyboardRemove
| scheduler_buttons
| job_buttons (names : list string).

Inductive message_event : Type :=
| answer_query (alert : option string)
| edit_text (t : notice) (m : buttons)
| reply_text (t : notice) (m : buttons)
| bug_message
| potential_feature_message (t : notice)
| developer_message (chunk : string)
| schedule_removal (j : job).

(** [job_slot] tells a job name from anything else; [held_job] says which
    [Job] the slot holds while it holds one. *)
Record chat : Type := {
  user : user_data;
  held_job : option job;
  _GARBAGE_INPUT_COUNTER : option Z;
  jobs : list job;
  remind_handler_pattern : string;
  sent : list message_event
}.

(** How a call ends: with a state, with [ConversationHandler.END], with
    nothing, or with an exception that nothing catches. *)
Inductive failure : Type :=
| Uncaught (e : exn)
| TypeError
| ValueError
| IndexError
| re_error
| JobLookupError.

Inductive ending : Type :=
| Returns (s : state)
| ReturnsEND
| ReturnsNone
| Fails (f : failure).

(** A step goes on with a value or ends the call. *)
Definition C (A : Type) : Type := chat -> (A + ending) * chat.

Definition pure {A} (a : A) : C A := fun c => (inl a, c).

Definition and_then {A B} (m : C A) (f : A -> C B) : C B :=
  fun c =>
    match m c with
    | (inl a, c1) => f a c1
    | (inr e, c1) => (inr e, c1)
    end.

Definition stop {A} (e : ending) : C A := fun c => (inr e, c).

Definition returning {A} (s : state) : C A := stop (Returns s).

Definition failing {A} (f : failure) : C A := stop (Fails f).

(** A handler: how its body ends, and the chat then.  A body that runs to
    its end returns nothing. *)
Definition finish (m : C unit) (c : chat) : ending * chat :=
  match m c with
  | (inl _, c1) => (ReturnsNone, c1)
  | (inr e, c1) => (e, c1)
  end.

Definition chat_now : C chat := fun c => (inl c, c).

Definition change_user (f : user_data -> user_data) : C unit :=
  fun c => (inl tt,
            {| user := f (user c); held_job := held_job c;
               _GARBAGE_INPUT_COUNTER := _GARBAGE_INPUT_COUNTER c; jobs := jobs c;
               remind_handler_pattern := remind_handler_pattern c; sent := sent c |}).

(** [context.user_data[_CURRENT_JOB] = ...] and its [pop]. *)
Definition set_current_job (slot : option job_slot) (j : option job) : C unit :=
  fun c => (inl tt,
            {| user := set_CURRENT_JOB slot (user c); held_job := j;
               _GARBAGE_INPUT_COUNTER := _GARBAGE_INPUT_COUNTER c; jobs := jobs c;
               remind_handler_pattern := remind_handler_pattern c; sent := sent c |}).

Definition set_garbage_input_counter (n : Z) : C unit :=
  fun c => (inl tt,
            {| user := user c; held_job := held_job c;
               _GARBAGE_INPUT_COUNTER := Some n; jobs := jobs c;
               remind_handler_pattern := remind_handler_pattern c; sent := sent c |}).

Definition set_remind_handler_pattern (p : string) : C unit :=
  fun c => (inl tt,
            {| user := user c; held_job := held_job c;
               _GARBAGE_INPUT_COUNTER := _GARBAGE_INPUT_COUNTER c; jobs := jobs c;
               remind_handler_pattern := p; sent := sent c |}).

Definition set_jobs (queue : list job) : C unit :=
  fun c => (inl tt,
            {| user := user c; held_job := held_job c;
               _GARBAGE_INPUT_COUNTER := _GARBAGE_INPUT_COUNTER c; jobs := queue;
               remind_handler_pattern := remind_handler_pattern c; sent := sent c |}).

Definition say (e : message_event) : C unit :=
  fun c => (inl tt,
            {| user := user c; held_job := held_job c;
               _GARBAGE_INPUT_COUNTER := _GARBAGE_INPUT_COUNTER c; jobs := jobs c;
               remind_handler_pattern := remind_handler_pattern c; sent := e :: sent c |}).

(** The [except AssertionError] blocks that look for a message to report
    the bug to: [update.message], else the message of the callback query. *)
Definition report_bug (upd : update) : C unit :=
  match upd with
  | empty_update => pure tt
  | _ => say bug_message
  end.

(** The same block where only [update.message] is looked for. *)
Definition report_bug_to_message (upd : update) : C unit :=
  match upd with
  | message_update _ _ => say bug_message
  | _ => pure tt
  end.

Declare Scope chat_scope.
Notation "x <- m ;; k" := (and_then m (fun x => k))
  (at level 61, m at next level, right associativity) : chat_scope.
Notation "m ;; k" := (and_then m (fun _ => k))
  (at level 61, right associativity) : chat_scope.

Section Conversations.

Variable X : Menus.

Local Open Scope chat_scope.

(** *** [_process_answer] and [_process_other] *)

(** [BaseOptionQuestion.get_other_option_label() in result]: a substring
    of a [str], an element of a [tuple]. *)
Definition holds_other (v : value) : bool :=
  match v with
  | Str s => Py.contains (get_other_option_label X) s
  | Tuple l => existsb (String.eqb (get_other_option_label X)) l
  end.

Definition is_option_markup (slot : option markup_slot) : bool :=
  match slot with
  | Some (AMarkup m) => is_BaseOptionMarkup E m
  | _ => false
  end.

(** Region "Handling handlers": the input to act on. *)
Definition read_input (upd : update) : C option_result :=
  c <- chat_now ;;
  match upd with
  | callback_update data =>
      match data, _CURRENT_MARKUP (user c) with
      | Some data, Some (AMarkup markup) =>
          if is_BaseOptionMarkup E markup then
            let (result, markup') := option_action X markup data in
            change_user (set_CURRENT_MARKUP (Some (AMarkup markup'))) ;;
            if match result with
               | OValue (Str s) => s =? option_required_warning X
               | _ => false
               end
            then
              say (answer_query (Some (option_required_warning X))) ;;
              returning _SKIP_OR_ANSWER
            else
              say (answer_query None) ;;
              pure result
          else
            say bug_message ;;
            returning _STOPPING
      | _, _ =>
          say bug_message ;;
          returning _STOPPING
      end
  | message_update result _ =>
      match _CURRENT_QUESTION (user c) with
      | Some (AQuestion question) =>
          if (result =? "/skip") && is_required E question then
            say (reply_text cannot_skip (inline no_markup)) ;;
            returning _SKIP_OR_ANSWER
          else if is_option_markup (_CURRENT_MARKUP (user c)) then
            say (potential_feature_message select_from_menu) ;;
            returning _SKIP_OR_ANSWER
          else pure (OValue (Str result))
      | _ =>
          say bug_message ;;
          returning _STOPPING
      end
  | empty_update => returning _STOPPING
  end.

(** A text goes out as a reply to a message, or into the message of the
    pressed button. *)
Definition prompt (upd : update) (t : notice) (for_reply for_edit : buttons) : C unit :=
  match upd with
  | message_update _ _ => say (reply_text t for_reply)
  | _ => say (edit_text t for_edit)
  end.

(** "Save answer into user data" *)
Definition keep_answer (result : value) : C unit :=
  c <- chat_now ;;
  match _CURRENT_ANSWER (user c) with
  | Some (Grid m) =>
      change_user (set_CURRENT_ANSWER
                     (Some (Grid (fill_first_unanswered (get_skip E) result m))))
  | _ => change_user (set_CURRENT_ANSWER (Some (Plain result)))
  end.

Definition _process_answer_body (upd : update) : C unit :=
  result <- read_input upd ;;
  match result with
  | OKeyboard k =>
      say (edit_text unchanged_text (inline (keyboard k))) ;;
      returning _SKIP_OR_ANSWER
  | OValue result =>
      keep_answer result ;;
      if holds_other result then
        prompt upd specify_other ReplyKeyboardRemove (inline no_markup) ;;
        returning _ANSWER_OTHER
      else
        prompt upd (if is_skip (Some result) then confirm_skip else confirm_answer result)
          (inline TF_markup) (inline TF_markup) ;;
        returning _CONFIRM_SUBMIT
  | ONeither => returning _SKIP_OR_ANSWER
  end.

Definition _process_answer (upd : update) : chat -> ending * chat :=
  finish (_process_answer_body upd).

(** The loop of [_process_other] over the rows of a grid: the first row
    whose answer holds the label of the 'Other' option.  The test on a
    row without answer is a [TypeError]. *)
Inductive row_scan : Type :=
| other_row (key : string) (v : value)
| no_other_row
| unanswered_row.

Fixpoint find_other_row (m : list (string * option value)) : row_scan :=
  match m with
  | [] => no_other_row
  | (_, None) :: _ => unanswered_row
  | (key, Some v) :: rest =>
      if holds_other v then other_row key v else find_other_row rest
  end.

(** [list(context.user_data.get(_CURRENT_ANSWER))]: the parts of a tuple,
    the characters of a string, the keys of an [OrderedDict]. *)
Definition listed (a : Answer) : list string :=
  match a with
  | Plain (Tuple l) => l
  | Plain (Str s) => map (fun ch => String ch EmptyString) (list_ascii_of_string s)
  | Grid m => map fst m
  end.

(** [_process_other]: the handler of the text messages of the state
    [_ANSWER_OTHER]; [input] is [update.message.text]. *)
Definition _process_other_body (input : string) : C unit :=
  c <- chat_now ;;
  match _CURRENT_MARKUP (user c), _CURRENT_ANSWER (user c) with
  | Some _, Some current =>
      found <-
        match current with
        | Grid m =>
            match find_other_row m with
            | other_row key v => pure (Some key, Some v)
            | no_other_row => pure (None, None)
            | unanswered_row => failing TypeError
            end
        | Plain v => pure (None, Some v)
        end ;;
      result <-
        match snd found with
        | Some (Str _) => pure (Str input)
        | _ =>
            match Py.replace_first (get_other_option_label X) input (listed current) with
            | Some l => pure (Tuple l)
            | None => failing ValueError
            end
        end ;;
      match fst found, current with
      | Some curr_key, Grid m =>
          if curr_key =? "" then change_user (set_CURRENT_ANSWER (Some (Plain result)))
          else change_user (set_CURRENT_ANSWER
                              (Some (Grid (dict_set String.eqb curr_key (Some result) m))))
      | _, _ => change_user (set_CURRENT_ANSWER (Some (Plain result)))
      end ;;
      say (reply_text (confirm_answer result) (inline TF_markup)) ;;
      returning _CONFIRM_SUBMIT
  | _, _ =>
      say bug_message ;;
      returning _STOPPING
  end.

Definition _process_other (input : string) : chat -> ending * chat :=
  finish (_process_other_body input).

(** *** The scheduler menu *)

(** [_remind_menu] *)
Definition _remind_menu_body (upd : update) : C unit :=
  match upd with
  | callback_update _ =>
      say (answer_query None) ;;
      say (edit_text scheduler_menu scheduler_buttons) ;;
      returning _SELECTING_ACTION
  | _ =>
      report_bug_to_message upd ;;
      returning _STOPPING
  end.

Definition _remind_menu (upd : update) : chat -> ending * chat :=
  finish (_remind_menu_body upd).

(** [_select_frequency] *)
Definition _select_frequency_body (upd : update) : C unit :=
  match upd with
  | callback_update _ =>
      say (answer_query None) ;;
      say (edit_text how_often (inline (keyboard (FreqMarkup_get_markup X)))) ;;
      returning _CHOOSE_FREQ
  | _ =>
      report_bug_to_message upd ;;
      returning _STOPPING
  end.

Definition _select_frequency (upd : update) : chat -> ending * chat :=
  finish (_select_frequency_body upd).

(** The date picker of a new job, and the prompt that shows it. *)
Definition ask_for_start (from_date : datetime) : C unit :=
  let markup := DatetimeMarkup_from X true from_date in
  change_user (set_CURRENT_MARKUP (Some (AMarkup markup))) ;;
  say (edit_text select_start (inline (keyboard (get_markup E markup)))).

(** [_fixed_frequency]; [now] is [datetime.now()]. *)
Definition _fixed_frequency_body (now : datetime) (upd : update) : C unit :=
  c <- chat_now ;;
  match upd, _CURRENT_MARKUP (user c), _CURRENT_JOB (user c) with
  | callback_update data, None, None =>
      set_current_job
        (Some (match data with Some d => JobName d | None => NotAName end)) None ;;
      say (answer_query None) ;;
      ask_for_start now ;;
      returning _SELECT_START
  | _, _, _ =>
      report_bug upd ;;
      returning _STOPPING
  end.

Definition _fixed_frequency (now : datetime) (upd : update) : chat -> ending * chat :=
  finish (_fixed_frequency_body now upd).

(** [_custom_frequency] *)
Definition _custom_frequency_body (upd : update) : C unit :=
  c <- chat_now ;;
  match upd, _CURRENT_MARKUP (user c) with
  | callback_update _, None =>
      say (answer_query None) ;;
      change_user (set_CURRENT_MARKUP (Some (AMarkup (FreqCustomMarkup X)))) ;;
      say (edit_text select_frequency
             (inline (keyboard (get_markup E (FreqCustomMarkup X))))) ;;
      returning _CUSTOM_FREQ
  | _, _ =>
      report_bug upd ;;
      returning _STOPPING
  end.

Definition _custom_frequency (upd : update) : chat -> ending * chat :=
  finish (_custom_frequency_body upd).

(** [update.callback_query.data] of a handler that reads it before
    anything else: without a callback query the attribute is missing. *)
Definition callback_data (upd : update) : C (option string) :=
  match upd with
  | callback_update data => pure data
  | _ => failing (Uncaught AttributeError)
  end.

(** [assert update.callback_query.data] *)
Definition nonempty (data : option string) : option string :=
  match data with
  | Some d => if d =? "" then None else Some d
  | None => None
  end.

(** [_handle_custom]; [utcnow] is [datetime.utcnow()] in UTC. *)
Definition _handle_custom_body (utcnow : datetime) (upd : update) : C unit :=
  data <- callback_data upd ;;
  c <- chat_now ;;
  match nonempty data, _CURRENT_MARKUP (user c), _CURRENT_JOB (user c) with
  | Some data, Some (AMarkup markup), None =>
      if is_FreqCustomMarkup X markup then
        let (result, markup') := perform_action E markup data in
        change_user (set_CURRENT_MARKUP (Some (AMarkup markup'))) ;;
        match result with
        | AKeyboard k =>
            say (answer_query None) ;;
            say (edit_text unchanged_text (inline (keyboard k))) ;;
            returning _CUSTOM_FREQ
        | AStr result =>
            if result =? get_invalid_message X then
              say (answer_query (Some result)) ;;
              returning _CUSTOM_FREQ
            else
              say (answer_query None) ;;
              set_current_job (Some (JobName ("Submit every " ++ result))) None ;;
              ask_for_start utcnow ;;
              returning _SELECT_START
        | AOther =>
            say (answer_query None) ;;
            returning _CUSTOM_FREQ
        end
      else
        report_bug upd ;;
        returning _STOPPING
  | _, _, _ =>
      report_bug upd ;;
      returning _STOPPING
  end.

Definition _handle_custom (utcnow : datetime) (upd : update) : chat -> ending * chat :=
  finish (_handle_custom_body utcnow upd).

(** *** Removing a job *)

(** The pattern that [_select_reminder] gives to [remind_handler]: the
    job names go into it as they are. *)
Definition jobs_pattern (names : list string) : string :=
  "^(" ++ String.concat "|" names ++ ")$".

(** [_select_reminder]: the pattern is compiled before the list is
    shown, and nothing catches the [re.error] of a pattern that does not
    compile. *)
Definition _select_reminder_body (upd : update) : C unit :=
  match upd with
  | callback_update _ =>
      say (answer_query None) ;;
      c <- chat_now ;;
      match jobs c with
      | [] =>
          say (edit_text no_reminders (inline (ok_button _SET_REMINDER))) ;;
          returning _CANCEL
      | _ =>
          let pattern := jobs_pattern (map job_name (jobs c)) in
          if re_compile X pattern then
            set_remind_handler_pattern pattern ;;
            say (edit_text select_a_job (job_buttons (map job_name (jobs c)))) ;;
            returning _SELECT_JOB
          else failing re_error
      end
  | _ =>
      report_bug_to_message upd ;;
      returning _STOPPING
  end.

Definition _select_reminder (upd : update) : chat -> ending * chat :=
  finish (_select_reminder_body upd).

(** [_confirm_removal] *)
Definition _confirm_removal_body (upd : update) : C unit :=
  data <- callback_data upd ;;
  c <- chat_now ;;
  match nonempty data, _CURRENT_JOB (user c) with
  | Some result, None =>
      say (answer_query None) ;;
      match get_jobs_by_name result (jobs c) with
      | [] =>
          say bug_message ;;
          returning _STOPPING
      | first :: _ =>
          set_current_job (Some NotAName) (Some first) ;;
          say (edit_text removal_warning (inline TF_markup)) ;;
          returning _CONFIRM_REMOVE
      end
  | _, _ =>
      report_bug upd ;;
      returning _STOPPING
  end.

Definition _confirm_removal (upd : update) : chat -> ending * chat :=
  finish (_confirm_removal_body upd).

(** [queue] without its first job equal to [j]. *)
Fixpoint remove_job (j : job) (queue : list job) : list job :=
  match queue with
  | [] => []
  | j' :: rest => if job_eqb j j' then rest else j' :: remove_job j rest
  end.

(** [Job.schedule_removal()], as python-telegram-bot 13 does it: the job
    leaves the scheduler at once, and a job that is not there any more is
    a [JobLookupError] of the scheduler. *)
Definition schedule_removal_of (j : job) : C unit :=
  c <- chat_now ;;
  if existsb (job_eqb j) (jobs c) then
    set_jobs (remove_job j (jobs c)) ;;
    say (schedule_removal j)
  else failing JobLookupError.

(** [_perform_removal] *)
Definition _perform_removal_body (upd : update) : C unit :=
  data <- callback_data upd ;;
  c <- chat_now ;;
  match nonempty data, _CURRENT_JOB (user c), held_job c with
  | Some result, Some NotAName, Some j =>
      say (answer_query None) ;;
      match TFMarkup_confirm E result with
      | None =>
          say bug_message ;;
          returning _STOPPING
      | Some result =>
          (if result then schedule_removal_of j else pure tt) ;;
          set_current_job None None ;;
          say (edit_text (if result then job_removed else removal_aborted)
                 (inline (ok_button _SET_REMINDER))) ;;
          returning _CANCEL
      end
  | _, _, _ =>
      report_bug upd ;;
      returning _STOPPING
  end.

Definition _perform_removal (upd : update) : chat -> ending * chat :=
  finish (_perform_removal_body upd).

(** *** Leaving a conversation *)

(** [_clear_cache] and [_main_menu] are not part of the files at hand:
    whatever they do to the chat, and however they end. *)
Variable _clear_cache : chat -> ending * chat.
Variable _main_menu : update -> chat -> ending * chat.

(** A call of another handler whose result is dropped: only an exception
    gets through. *)
Definition call (h : chat -> ending * chat) : C unit :=
  fun c =>
    match h c with
    | (Fails f, c1) => (inr (Fails f), c1)
    | (_, c1) => (inl tt, c1)
    end.

(** [_remind_return] *)
Definition _remind_return (upd : update) : chat -> ending * chat :=
  finish (call (_main_menu upd) ;; returning _RETURN).

(** [_stop_helper] *)
Definition _stop_helper (upd : update) (message : notice) (to_return : ending)
    : chat -> ending * chat :=
  finish (match upd with
          | callback_update _ =>
              say (answer_query None) ;;
              say (edit_text message (inline no_markup))
          | message_update _ _ => say (reply_text message ReplyKeyboardRemove)
          | empty_update => pure tt
          end ;;
          call _clear_cache ;;
          stop to_return).

Definition _stop (upd : update) : chat -> ending * chat :=
  _stop_helper upd thank_you ReturnsEND.

Definition _stop_nested (upd : update) : chat -> ending * chat :=
  _stop_helper upd sorry_to_stop (Returns _STOPPING).

(** *** Unrecognised input *)

Definition LF : string := String (ascii_of_nat 10) EmptyString.
Definition TAB : string := String (ascii_of_nat 9) EmptyString.

Definition _ANTI_GARBAGE_PROMPT_AFTER : Z := 5.

Definition _standard_replies : list string :=
  ["mmhmm"; "..."; "I'm boreddd"; "zzz"; "sigh"; "😪"; "😴"; "{}"; "'{}', {} said.";
   "'{}'" ++ LF ++ TAB ++ "- {}"].

Definition _rare_replies : list string :=
  ["🥚 Wow! An egg! 🥚" ++ LF ++
   "It may or may not be Easter, but it's sure worth *something*";
   "🎂🎵 *Happy birthday to you;*" ++ LF ++
   "🎵 *Happy birthday to you;*" ++ LF ++
   "🎵 *Happy BIRTH-day to {};*" ++ LF ++
   "🎵 *Happy birthday to youuuuuuuu!*";
   "Hi, yes, you're currently talking to the developer." ++
   "Please leave your message after the tone:"].

(** [_standard_replies * 9 + _rare_replies] *)
Definition _garbage_replies : list string :=
  (concat (repeat _standard_replies 9) ++ _rare_replies)%list.

Definition _anti_garbage_replies : list string :=
  ["💡 AutoGFormBot Notification 💡" ++ LF ++
   "Sorry to disturb your fun, but I'm not a conversation bot 😰." ++ LF ++
   "Can we go back to automating Google Forms, please? 🙏";
   "💡 AutoGFormBot Notification 💡" ++ LF ++
   "Hi, I'd love to talk, but I'm not programmed to! 😔" ++ LF ++
   "Did you know, my main purpose is actually to help you automate your Google Forms!" ++ LF ++
   "How about we get started with that, hm? 😍";
   "💡 AutoGFormBot Notification 💡" ++ LF ++
   "I'm feeling so useless... 😭" ++ LF ++
   "I'm not being used for my intended purpose 😭." ++ LF ++
   "Could you... make me useful again? 😳👉👈"].

(** [table[random.randint(0, len(table)-1)]]; [pick n] is the number
    drawn from [0 .. n-1]. *)
Definition drawn (pick : nat -> nat) (table : list string) : C string :=
  match nth_error table (pick (length table)) with
  | Some t => pure t
  | None => failing IndexError
  end.

(** The fields of a garbage reply take the text of the message and the
    full name of its sender. *)
Definition fill_in (t input full_name : string) : option string :=
  if Nat.eqb (Py.count_fields t) 1 then Py.format t [input]
  else if Nat.eqb (Py.count_fields t) 2 then Py.format t [input; full_name]
  else Some t.

(** [_echo], on a message with the text [input]. *)
Definition _echo_body (pick : nat -> nat) (input full_name : string) : C unit :=
  c <- chat_now ;;
  let counter :=
    (match _GARBAGE_INPUT_COUNTER c with Some n => n | None => 0 end + 1)%Z in
  set_garbage_input_counter counter ;;
  if (counter <=? 2)%Z then
    say (potential_feature_message (not_understood input)) ;;
    stop ReturnsNone
  else
    reply <-
      (if (counter mod _ANTI_GARBAGE_PROMPT_AFTER =? 0)%Z
       then drawn pick _anti_garbage_replies
       else
         t <- drawn pick _garbage_replies ;;
         match fill_in t input full_name with
         | Some reply => pure reply
         | None => failing IndexError
         end) ;;
    say (reply_text (literally reply) ReplyKeyboardRemove).

Definition _echo (pick : nat -> nat) (input full_name : string) : chat -> ending * chat :=
  finish (_echo_body pick input full_name).

(** [_unknown] *)
Definition _unknown (input : string) : chat -> ending * chat :=
  finish (say (potential_feature_message (unknown_command input))).

(** The pieces the developer notice is sent in:
    [message[i:i + min(4096, len(message) - i)]] for [i] in
    [range(0, len(message), 4096)]. *)
Definition notice_pieces (size : nat) (message : string) : list string :=
  map (fun i => Py.slice message i (i + Nat.min size (String.length message - i)))
      (Py.range 0 (String.length message) size).

Fixpoint send_to_developer (pieces : list string) : C unit :=
  match pieces with
  | [] => pure tt
  | piece :: rest =>
      say (developer_message piece) ;;
      send_to_developer rest
  end.

(** [_error_handler]: [dev_id] is [get_developer_chat_id()] when it is
    set, [message] the notice that the handler composes from the update,
    the session and the traceback; [upd] is [None] when the error did not
    come from an update. *)
Definition _error_handler_body (dev_id : option string) (upd : option update)
    (message : string) : C unit :=
  match dev_id with
  | None => stop ReturnsNone
  | Some _ =>
      send_to_developer (notice_pieces 4096 message) ;;
      match upd with
      | Some (callback_update _) | Some (message_update _ _) => say bug_message
      | Some empty_update | None => failing (Uncaught AttributeError)
      end
  end.

Definition _error_handler (dev_id : option string) (upd : option update) (message : string)
    : chat -> ending * chat :=
  finish (_error_handler_body dev_id upd message).

Local Close Scope chat_scope.

(** *** [main]: the nested conversations *)

Inductive handler : Type :=
| h_obtain_question | h_process_answer | h_process_other | h_submit_answer
| h_save_answer | h_stop_nested
| h_remind_menu | h_select_frequency | h_select_reminder | h_remind_return
| h_custom_frequency | h_fixed_frequency | h_handle_custom | h_start_date
| h_confirm_add | h_confirm_removal | h_perform_removal.

(** A [ConversationHandler]: [None] in [map_to_parent] is
    [ConversationHandler.END]. *)
Record conversation : Type := {
  entry_points : list handler;
  states : list (state * list handler);
  fallbacks : list handler;
  map_to_parent : list (state * option state)
}.

(** [answer_handler] runs [_process_answer], [confirm_handler]
    [_submit_answer] and [remind_handler] [_confirm_removal]. *)
Definition submit_conv_handler : conversation :=
  {| entry_points := [h_obtain_question; h_process_answer; h_submit_answer];
     states :=
       [(_OBTAIN_QUESTION, [h_obtain_question]);
        (_SKIP_OR_ANSWER, [h_process_answer; h_process_answer]);
        (_ANSWER_OTHER, [h_process_other]);
        (_CONFIRM_SUBMIT, [h_submit_answer]);
        (_SAVE_ANSWER, [h_save_answer])];
     fallbacks := [h_stop_nested];
     map_to_parent := [(_RETURN, Some _OBTAINING_LINK); (_STOPPING, None)] |}.

Definition remind_conv_handler : conversation :=
  {| entry_points := [h_remind_menu];
     states :=
       [(_SELECTING_ACTION, [h_select_frequency; h_select_reminder; h_remind_return]);
        (_CHOOSE_FREQ, [h_custom_frequency; h_fixed_frequency]);
        (_CUSTOM_FREQ, [h_handle_custom]);
        (_SELECT_START, [h_start_date]);
        (_CONFIRM_ADD, [h_confirm_add]);
        (_SELECT_JOB, [h_confirm_removal]);
        (_CONFIRM_REMOVE, [h_perform_removal]);
        (_CANCEL, [h_remind_menu])];
     fallbacks := [h_stop_nested];
     map_to_parent := [(_RETURN, Some _SELECTING_ACTION); (_STOPPING, None)] |}.

(** The handlers a conversation may call, and the states it knows what to
    do with: its own and those it hands to its parent. *)
Definition handlers_of (conv : conversation) : list handler :=
  (entry_points conv ++ concat (map snd (states conv)) ++ fallbacks conv)%list.

Definition known_states (conv : conversation) : list state :=
  (map fst (states conv) ++ map fst (map_to_parent conv))%list.

(** The states a handler may return, by the name it is registered under;
    [now] and [utcnow] are the clock at the time of the call. *)
Inductive may_return : handler -> state -> Prop :=
| return_obtain_question fuel to_process w s :
    fst (_obtain_question fuel to_process w) = Return s ->
    may_return h_obtain_question s
| return_process_answer upd c s :
    fst (_process_answer upd c) = Returns s -> may_return h_process_answer s
| return_process_other input c s :
    fst (_process_other input c) = Returns s -> may_return h_process_other s
| return_submit_answer fuel data w s :
    fst (_submit_answer fuel data w) = Return s -> may_return h_submit_answer s
| return_save_answer fuel data w s :
    fst (_save_answer fuel data w) = Return s -> may_return h_save_answer s
| return_stop_nested upd c s :
    fst (_stop_nested upd c) = Returns s -> may_return h_stop_nested s
| return_remind_menu upd c s :
    fst (_remind_menu upd c) = Returns s -> may_return h_remind_menu s
| return_select_frequency upd c s :
    fst (_select_frequency upd c) = Returns s -> may_return h_select_frequency s
| return_select_reminder upd c s :
    fst (_select_reminder upd c) = Returns s -> may_return h_select_reminder s
| return_remind_return upd c s :
    fst (_remind_return upd c) = Returns s -> may_return h_remind_return s
| return_custom_frequency upd c s :
    fst (_custom_frequency upd c) = Returns s -> may_return h_custom_frequency s
| return_fixed_frequency now upd c s :
    fst (_fixed_frequency now upd c) = Returns s -> may_return h_fixed_frequency s
| return_handle_custom utcnow upd c s :
    fst (_handle_custom utcnow upd c) = Returns s -> may_return h_handle_custom s
| return_start_date data w s :
    fst (run (_start_date data) w) = Return s -> may_return h_start_date s
| return_confirm_add data w s :
    fst (run (_confirm_add data) w) = Return s -> may_return h_confirm_add s
| return_confirm_removal upd c s :
    fst (_confirm_removal upd c) = Returns s -> may_return h_confirm_removal s
| return_perform_removal upd c s :
    fst (_perform_removal upd c) = Returns s -> may_return h_perform_removal s.

(** One call of a handler of this part whose code is all at hand. *)
Inductive chat_step : chat -> chat -> Prop :=
| step_process_answer upd c : chat_step c (snd (_process_answer upd c))
| step_process_other input c : chat_step c (snd (_process_other input c))
| step_remind_menu upd c : chat_step c (snd (_remind_menu upd c))
| step_select_frequency upd c : chat_step c (snd (_select_frequency upd c))
| step_fixed_frequency now upd c : chat_step c (snd (_fixed_frequency now upd c))
| step_custom_frequency upd c : chat_step c (snd (_custom_frequency upd c))
| step_handle_custom utcnow upd c : chat_step c (snd (_handle_custom utcnow upd c))
| step_select_reminder upd c : chat_step c (snd (_select_reminder upd c))
| step_confirm_removal upd c : chat_step c (snd (_confirm_removal upd c))
| step_perform_removal upd c : chat_step c (snd (_perform_removal upd c))
| step_echo pick input full_name c : chat_step c (snd (_echo pick input full_name c))
| step_unknown input c : chat_step c (snd (_unknown input c))
| step_error_handler dev_id upd message c :
    chat_step c (snd (_error_handler dev_id upd message c)).

End Conversations.

(** *** The vocabulary of the properties *)

(** [triple P m N X]: from a world in [P], [m] continues in [N] or leaves
    the body in [X]. *)
Definition triple {A} (P : world -> Prop) (m : M A)
    (N : A -> world -> Prop) (X : exit -> world -> Prop) : Prop :=
  forall w, P w ->
    match m w with
    | (Normal a, w1) => N a w1
    | (Exit x, w1) => X x w1
    end.

(** An invariant of a body: it holds wherever the body stops. *)
Definition keeps {A} (I : world -> Prop) (m : M A) : Prop :=
  triple I m (fun _ => I) (fun _ => I).

(** A body that only leaves: it never continues normally. *)
Definition leaves {A} (m : M A) : Prop :=
  forall w, exists x w1, m w = (Exit x, w1).

(** [stable I ok_event ok_update]: [I] survives every event in [ok_event],
    every update of the session in [ok_update], and a new pattern on the
    dynamic handlers. *)
Record stable (I : world -> Prop) (ok_event : event -> bool)
    (ok_update : (user_data -> user_data) -> Prop) : Prop := {
  stable_emit : forall e, ok_event e = true -> keeps I (emit e);
  stable_modify : forall f, ok_update f -> keeps I (modify_ud f);
  stable_answer_pattern : forall p, keeps I (set_answer_handler_pattern p);
  stable_confirm_pattern : forall p, keeps I (set_confirm_handler_pattern p)
}.

(** The life of the form driver as the history tells it. *)
Inductive driver_status : Type :=
| never_started
| running
| closed
| released (link : string).

Fixpoint status (h : list event) : driver_status :=
  match h with
  | [] => never_started
  | driver (call_FormProcessor _) :: _ => running
  | driver call_close_browser :: _ => closed
  | driver (call_get_link link) :: _ => released link
  | _ :: rest => status rest
  end.

(** [_PROCESSOR] holds a live [FormProcessor] exactly while a driver is
    running, and otherwise the form link: the link the session started
    with or the link read back from the browser that was just closed. *)
Definition driver_field_inv (w : world) : Prop :=
  match _PROCESSOR (ud w) with
  | Some (Active _) => status (history w) = running
  | Some (IdleLink link) =>
      status (history w) = never_started \/ status (history w) = released link
  | _ => False
  end.

(** Never two drivers at once, as the history tells it: each driver was
    opened at a time when none was running. *)
Definition is_running (s : driver_status) : bool :=
  match s with running => true | _ => false end.

Fixpoint one_at_a_time (h : list event) : bool :=
  match h with
  | [] => true
  | driver (call_FormProcessor _) :: rest =>
      negb (is_running (status rest)) && one_at_a_time rest
  | _ :: rest => one_at_a_time rest
  end.

Definition opens_driver (e : event) : bool :=
  match e with driver (call_FormProcessor _) => true | _ => false end.

Definition single_driver (w : world) : Prop := one_at_a_time (history w) = true.

(** The events that say nothing about the life of the driver. *)
Definition neutral (e : event) : bool :=
  match e with
  | driver (call_FormProcessor _) | driver call_close_browser | driver (call_get_link _) => false
  | _ => true
  end.

(** The session keeps its driver field and opens one driver at a time. *)
Definition one_traversal (w : world) : Prop := driver_field_inv w /\ single_driver w.

Definition is_active (w : world) : Prop :=
  exists p, _PROCESSOR (ud w) = Some (Active p).

(** What can happen to a session that these handlers serve: the user
    answers a prompt, or a scheduled job fires. *)
Inductive handler_step : world -> world -> Prop :=
| step_obtain_question fuel to_process w :
    handler_step w (snd (_obtain_question fuel to_process w))
| step_submit_answer fuel data w :
    handler_step w (snd (_submit_answer fuel data w))
| step_save_answer fuel data w :
    handler_step w (snd (_save_answer fuel data w))
| step_auto_submit fuel w :
    handler_step w (snd (_auto_submit fuel w))
| step_start_date data w :
    handler_step w (snd (_start_date data w))
| step_confirm_add data w :
    handler_step w (snd (_confirm_add data w)).

Inductive reachable (w0 : world) : world -> Prop :=
| reach_start : reachable w0 w0
| reach_step w w' : reachable w0 w -> handler_step w w' -> reachable w0 w'.

(** A submission to the driver, and a message that shows a question. *)
Definition is_submission (e : event) : bool :=
  match e with driver (call_answer_question _) => true | _ => false end.

Definition is_question_prompt (e : event) : bool :=
  match e with edit_message_text (question_text _ _ _ _ _) _ => true | _ => false end.

Definition no_new_submission (w w2 : world) : Prop :=
  filter is_submission (history w2) = filter is_submission (history w).

(** The frame of [prepare_question]: it touches [_PROCESSOR] and
    [_CURRENT_QUESTION] only, submits nothing and shows no question. *)
Definition untouched (u u' : user_data) : Prop :=
  _SAVE_PREFS u' = _SAVE_PREFS u /\
  _CURRENT_ANSWER u' = _CURRENT_ANSWER u /\
  _CURRENT_MARKUP u' = _CURRENT_MARKUP u /\
  _CURRENT_JOB u' = _CURRENT_JOB u.

Definition prepare_frame (w0 w : world) : Prop :=
  untouched (ud w0) (ud w) /\
  job_queue w = job_queue w0 /\
  filter is_submission (history w) = filter is_submission (history w0) /\
  filter is_question_prompt (history w) = filter is_question_prompt (history w0).

(** What [_submit_to_google_forms] hands to the driver for an answer:
    the skip path when the first part is the skip label, all parts
    otherwise. *)
Definition submission_of (a : Answer) : option submission :=
  match submission_args a with
  | [] => None
  | first :: _ => Some (if is_skip first then Skip else Answers (submission_args a))
  end.

(** The retries of the [while result is False] loop, as the driver decides
    them: [refresh_run result q p n gave_up result' q' p'] says that from
    [result], the question [q] and the driver [p], the loop re-discovers
    the element and reads the question [n] more times and ends with
    [result'], giving up ([gave_up]) when a re-discovery finds nothing. *)
Inductive refresh_run :
    option bool -> Question E -> FormProcessor E -> nat -> bool ->
    option bool -> Question E -> FormProcessor E -> Prop :=
| run_settled r q p :
    r <> Some false -> refresh_run r q p 0 false r q p
| run_lost q p p1 :
    refresh_section E p = (None, p1) ->
    refresh_run (Some false) q p 0 true None q p1
| run_retry q p e p1 r q2 p2 n g r' q' p' :
    refresh_section E p = (Some e, p1) ->
    get_info E (set_question_element E q e) p1 = (r, q2, p2) ->
    refresh_run r q2 p2 n g r' q' p' ->
    refresh_run (Some false) q p (S n) g r' q' p'.

(** The driver calls of one retry, newest first, and of [n] retries
    followed or not by a re-discovery that finds nothing. *)
Definition one_retry (h : list event) : list event :=
  driver call_get_info :: driver call_set_question_element
  :: driver call_refresh_section :: h.

Definition retries_history (n : nat) (gave_up : bool) (h : list event) : list event :=
  (if gave_up then [driver call_refresh_section] else []) ++ Nat.iter n one_retry h.

(** The [first] argument of a trigger, when it has one. *)
Definition first_fire (t : trigger) : option datetime :=
  match t with
  | run_repeating _ first => Some first
  | run_daily _ => None
  | run_monthly _ _ => None
  end.

(** The separator between the frequency and the start of a job name. *)
Definition job_name_separator : string := ", starting from ".

(** No end of [s] (but [s] itself) is a beginning of [whole]: with
    [s = whole], an occurrence of [whole] cannot overlap the next one. *)
Fixpoint no_suffix_is_prefix (whole s : string) : bool :=
  match s with
  | EmptyString => true
  | String _ r =>
      match r with
      | EmptyString => true
      | _ => negb (String.prefix r whole) && no_suffix_is_prefix whole r
      end
  end.

(** The policy a question is answered under when it has no entry of its
    own: the global one, ask-again when there is none. *)
Definition global_policy (u : user_data) : save_pref :=
  match _SAVE_PREFS u with
  | Some sp =>
      match _GLOBAL_SAVE_PREF sp with
      | Some g => g
      | None => ask_again
      end
  | None => ask_again
  end.

(** A chat after one more event, and after a change of the session. *)
Definition told (e : message_event) (c : chat) : chat := snd (say e c).

Definition with_user (f : user_data -> user_data) (c : chat) : chat :=
  snd (change_user f c).

(** How many unrecognised messages the session has counted. *)
Definition garbage_count (c : chat) : Z :=
  match _GARBAGE_INPUT_COUNTER c with
  | Some n => n
  | None => 0
  end.

(** *** Reasoning about handler bodies *)

Lemma triple_ret {A} (P : world -> Prop) (a : A) N X :
  (forall w, P w -> N a w) -> triple P (ret a) N X.
Proof. intros H w Hw. simpl. auto. Qed.

Lemma triple_bind {A B} (P : world -> Prop) (m : M A) (f : A -> M B) R N X :
  triple P m R X -> (forall a, triple (R a) (f a) N X) -> triple P (bind m f) N X.
Proof.
  intros Hm Hf w Hw. unfold bind. specialize (Hm w Hw).
  destruct (m w) as [[a|x] w1]; auto. now apply Hf.
Qed.

Lemma triple_weaken {A} (P P' : world -> Prop) (m : M A) (N N' : A -> world -> Prop)
    (X X' : exit -> world -> Prop) :
  triple P' m N' X' ->
  (forall w, P w -> P' w) -> (forall a w, N' a w -> N a w) -> (forall x w, X' x w -> X x w) ->
  triple P m N X.
Proof.
  intros H HP HN HX w Hw. specialize (H w (HP w Hw)).
  destruct (m w) as [[a|x] w1]; auto.
Qed.

Lemma triple_exit {A} (P : world -> Prop) (x : exit) N X :
  (forall w, P w -> X x w) -> triple P (fun w => (@Exit A x, w)) N X.
Proof. intros H w Hw. simpl. auto. Qed.

Lemma triple_get_ud (P : world -> Prop) N X :
  (forall w, P w -> N (ud w) w) -> triple P get_ud N X.
Proof. intros H w Hw. simpl. auto. Qed.

Lemma triple_step {A} (P : world -> Prop) (a : A) (g : world -> world) N X :
  (forall w, P w -> N a (g w)) -> triple P (fun w => (Normal a, g w)) N X.
Proof. intros H w Hw. simpl. auto. Qed.

Lemma keeps_ret {A} I (a : A) : keeps I (ret a).
Proof. apply triple_ret. auto. Qed.

Lemma keeps_bind {A B} I (m : M A) (f : A -> M B) :
  keeps I m -> (forall a, keeps I (f a)) -> keeps I (bind m f).
Proof. intros. eapply triple_bind; eauto. Qed.

Lemma keeps_exit {A} I (x : exit) : keeps I (fun w => (@Exit A x, w)).
Proof. apply triple_exit. auto. Qed.

Lemma keeps_get_ud I : keeps I get_ud.
Proof. apply triple_get_ud. auto. Qed.

Lemma keeps_snd {A} I (m : M A) w : keeps I m -> I w -> I (snd (m w)).
Proof.
  intros H Hw. specialize (H w Hw). destruct (m w) as [[a|x] w1]; auto.
Qed.

Lemma keeps_run I (m : M state) w : keeps I m -> I w -> I (snd (run m w)).
Proof.
  intros H Hw. specialize (H w Hw). unfold run. destruct (m w) as [[a|x] w1]; auto.
Qed.

(** *** The driver field *)

Lemma status_neutral e h : neutral e = true -> status (e :: h) = status h.
Proof. destruct e as [| | |[]]; simpl; auto; discriminate. Qed.

Lemma keeps_return I (s : state) : keeps I (@return_ state s).
Proof. apply keeps_exit. Qed.

Lemma keeps_return_any {A} I (s : state) : keeps I (@return_ A s).
Proof. apply keeps_exit. Qed.

Lemma keeps_tail_call {A} I tp : keeps I (@tail_call A tp).
Proof. apply keeps_exit. Qed.

Lemma keeps_raise {A} I e : keeps I (@raise A e).
Proof. apply keeps_exit. Qed.

Lemma keeps_out_of_fuel {A} I : keeps I (@out_of_fuel A).
Proof. apply keeps_exit. Qed.

Section DriverField.

Let I := driver_field_inv.

Lemma field_transfer w w' :
  _PROCESSOR (ud w') = _PROCESSOR (ud w) ->
  status (history w') = status (history w) ->
  I w -> I w'.
Proof. unfold I, driver_field_inv. intros -> ->. auto. Qed.

Lemma field_active w p h :
  status h = status (history w) ->
  I w -> _PROCESSOR (ud w) = Some (Active p) -> status h = running.
Proof. unfold I, driver_field_inv. intros -> Hw Hp. now rewrite Hp in Hw. Qed.

Lemma field_emit e : neutral e = true -> keeps I (emit e).
Proof.
  intros He w Hw. apply (field_transfer w); auto.
  apply (status_neutral _ _ He).
Qed.

Lemma field_modify f :
  (forall u, _PROCESSOR (f u) = _PROCESSOR u) -> keeps I (modify_ud f).
Proof. intros Hf w Hw. apply (field_transfer w); auto. apply Hf. Qed.

Lemma field_answer_pattern p : keeps I (set_answer_handler_pattern p).
Proof. intros w Hw. now apply (field_transfer w). Qed.

Lemma field_confirm_pattern p : keeps I (set_confirm_handler_pattern p).
Proof. intros w Hw. now apply (field_transfer w). Qed.

Lemma field_get_job_queue : keeps I get_job_queue.
Proof. intros w Hw. exact Hw. Qed.

Lemma field_add_job j : keeps I (add_job j).
Proof. intros w Hw. now apply (field_transfer w). Qed.

Lemma field_with_processor {A} c (f : FormProcessor E -> A * FormProcessor E) :
  neutral (driver c) = true -> keeps I (with_processor c f).
Proof.
  intros Hc w Hw. unfold with_processor, bind, get_ud.
  destruct (_PROCESSOR (ud w)) as [[l|p|]|] eqn:Hp; try exact Hw.
  destruct (f p) as [a p']. unfold I, driver_field_inv.
  cbn [modify_ud emit ret ud history set_PROCESSOR _PROCESSOR].
  rewrite (status_neutral _ _ Hc). eapply field_active; eauto.
Qed.

Lemma field_question_get_info : keeps I question_get_info.
Proof.
  intros w Hw. unfold question_get_info, bind, get_ud.
  destruct (_CURRENT_QUESTION (ud w)) as [[q|]|]; try exact Hw.
  destruct (_PROCESSOR (ud w)) as [[l|p|]|] eqn:Hp; try exact Hw.
  destruct (get_info E q p) as [[r q'] p']. unfold I, driver_field_inv.
  cbn [modify_ud emit ret ud history set_PROCESSOR set_CURRENT_QUESTION _PROCESSOR].
  rewrite status_neutral by reflexivity. eapply field_active; eauto.
Qed.

Lemma field_question_set_element e : keeps I (question_set_element e).
Proof.
  intros w Hw. unfold question_set_element, bind, get_ud.
  destruct (_CURRENT_QUESTION (ud w)) as [[q|]|]; exact Hw.
Qed.

Lemma field_release p : keeps I (release_processor p).
Proof. intros w Hw. unfold I, driver_field_inv. cbn. now right. Qed.

Lemma field_obtain_processor slot : keeps I (obtain_processor slot).
Proof.
  intros w Hw. destruct slot; try exact Hw.
  unfold I, driver_field_inv. cbn. reflexivity.
Qed.

End DriverField.

Lemma PROCESSOR_set_local_prefs d u : _PROCESSOR (set_local_prefs d u) = _PROCESSOR u.
Proof. unfold set_local_prefs. destruct (_SAVE_PREFS u); reflexivity. Qed.

Lemma PROCESSOR_ensure_question_pref k u :
  _PROCESSOR (ensure_question_pref k u) = _PROCESSOR u.
Proof.
  unfold ensure_question_pref. destruct (_SAVE_PREFS u) as [sp|]; auto.
  destruct (_LOCAL_SAVE_PREF sp) as [prefs|]; auto.
  destruct (dict_mem dict_key_eqb k prefs); auto.
Qed.

Lemma PROCESSOR_save_answer_for k a u : _PROCESSOR (save_answer_for k a u) = _PROCESSOR u.
Proof.
  unfold save_answer_for. destruct (dict_get _ _ _); auto using PROCESSOR_set_local_prefs.
Qed.

(** One step of a proof that a body keeps the driver field. *)
Ltac field_step :=
  lazymatch goal with
  | |- keeps _ (ret _) => apply keeps_ret
  | |- keeps _ (return_ _) => apply keeps_return_any
  | |- keeps _ (tail_call _) => apply keeps_tail_call
  | |- keeps _ (raise _) => apply keeps_raise
  | |- keeps _ out_of_fuel => apply keeps_out_of_fuel
  | |- keeps _ get_ud => apply keeps_get_ud
  | |- keeps _ (emit _) => apply field_emit; reflexivity
  | |- keeps _ (modify_ud _) =>
      apply field_modify; intros;
      first [ reflexivity
            | apply PROCESSOR_set_local_prefs
            | apply PROCESSOR_ensure_question_pref
            | apply PROCESSOR_save_answer_for ]
  | |- keeps _ (set_answer_handler_pattern _) => apply field_answer_pattern
  | |- keeps _ (set_confirm_handler_pattern _) => apply field_confirm_pattern
  | |- keeps _ get_job_queue => apply field_get_job_queue
  | |- keeps _ (add_job _) => apply field_add_job
  | |- keeps _ (with_processor _ _) => apply field_with_processor; reflexivity
  | |- keeps _ question_get_info => apply field_question_get_info
  | |- keeps _ (question_set_element _) => apply field_question_set_element
  | |- keeps _ (release_processor _) => apply field_release
  | |- keeps _ (obtain_processor _) => apply field_obtain_processor
  | |- keeps _ (bind _ _) => apply keeps_bind; [ | intros ]
  | |- keeps _ (match ?x with _ => _ end) => destruct x
  end.

Lemma field_refresh_loop fuel result : keeps driver_field_inv (refresh_loop fuel result).
Proof.
  revert result. induction fuel as [|fuel IH]; intros [[|]|]; simpl;
    repeat first [ apply IH | field_step ].
Qed.

Lemma field_submit answers : keeps driver_field_inv (_submit_to_google_forms answers).
Proof. unfold _submit_to_google_forms. repeat field_step. Qed.

Lemma field_prepare_question fuel : keeps driver_field_inv (prepare_question fuel).
Proof.
  unfold prepare_question, obtain_next_question, _show_loading_screen.
  repeat first [ apply field_refresh_loop | field_step ].
Qed.

Lemma field_stored_answer tp q : keeps driver_field_inv (stored_answer tp q).
Proof.
  unfold stored_answer, _remove_current_pointers.
  repeat first [ apply field_submit | field_step ].
Qed.

Lemma field_display_question tp q a p : keeps driver_field_inv (display_question tp q a p).
Proof.
  unfold display_question, grid_sub_question, offer_saved_answer, prompt_for_input.
  repeat field_step.
Qed.

Lemma field_obtain_question_body fuel tp :
  keeps driver_field_inv (_obtain_question_body fuel tp).
Proof.
  unfold _obtain_question_body.
  repeat first [ apply field_prepare_question | apply field_stored_answer
               | apply field_display_question | field_step ].
Qed.

Lemma field_obtain_question fuel : forall tp w,
  driver_field_inv w -> driver_field_inv (snd (_obtain_question fuel tp w)).
Proof.
  induction fuel as [|fuel IH]; intros tp w Hw; simpl.
  - pose proof (keeps_run _ _ w (field_obtain_question_body 0 tp) Hw) as H.
    destruct (run (_obtain_question_body 0 tp) w) as [[s|tp'|e|] w1]; auto.
  - pose proof (keeps_run _ _ w (field_obtain_question_body (S fuel) tp) Hw) as H.
    destruct (run (_obtain_question_body (S fuel) tp) w) as [[s|tp'|e|] w1]; auto.
Qed.

Lemma field_continue_with fuel (m : M state) w :
  keeps driver_field_inv m -> driver_field_inv w ->
  driver_field_inv (snd (continue_with fuel (run m w))).
Proof.
  intros Hm Hw. pose proof (keeps_run _ _ w Hm Hw) as H. unfold continue_with.
  destruct (run m w) as [[s|tp'|e|] w1]; auto. now apply field_obtain_question.
Qed.

Lemma field_submit_answer_body data : keeps driver_field_inv (_submit_answer_body data).
Proof.
  unfold _submit_answer_body, save_region, _show_loading_screen, _remove_current_pointers.
  repeat first [ apply field_submit | field_step ].
Qed.

Lemma field_save_answer_body data : keeps driver_field_inv (_save_answer_body data).
Proof.
  unfold _save_answer_body, _remove_current_pointers.
  repeat field_step.
Qed.

Lemma field_job_failed : keeps driver_field_inv job_failed.
Proof. unfold job_failed, _remove_current_pointers. repeat field_step. Qed.

Lemma field_start_date data : keeps driver_field_inv (_start_date data).
Proof. unfold _start_date. repeat field_step. Qed.

Lemma field_confirm_add data : keeps driver_field_inv (_confirm_add data).
Proof. unfold _confirm_add. repeat field_step. Qed.

Lemma field_auto_submit fuel w :
  driver_field_inv w -> driver_field_inv (snd (_auto_submit fuel w)).
Proof.
  intros Hw. unfold _auto_submit.
  pose proof (field_obtain_question fuel true w Hw) as H.
  destruct (_PROCESSOR (ud w)) as [[l|p|]|]; auto;
    destruct (_obtain_question fuel true w) as [[[]|tp'|e|] w1]; auto;
    apply keeps_snd; auto using field_job_failed.
Qed.

Lemma field_handler_step w w' :
  handler_step w w' -> driver_field_inv w -> driver_field_inv w'.
Proof.
  intros Hs Hw. destruct Hs.
  - now apply field_obtain_question.
  - apply field_continue_with; auto using field_submit_answer_body.
  - apply field_continue_with; auto using field_save_answer_body.
  - now apply field_auto_submit.
  - apply keeps_snd; auto using field_start_date.
  - apply keeps_snd; auto using field_confirm_add.
Qed.

(** C1. Once a session holds a form link in [_PROCESSOR], at every point
    the handlers can bring it to, the field holds either a form link or a
    live [FormProcessor], and never anything else.  It holds the
    [FormProcessor] exactly while a driver is running; after a driver was
    closed it holds the link read back from that driver's browser. *)
Theorem driver_field_link_xor_handle (w0 w : world) (link : string) :
  _PROCESSOR (ud w0) = Some (IdleLink link) ->
  status (history w0) = never_started ->
  reachable w0 w ->
  (exists l, _PROCESSOR (ud w) = Some (IdleLink l) /\
             (status (history w) = never_started \/ status (history w) = released l)) \/
  (exists p, _PROCESSOR (ud w) = Some (Active p) /\ status (history w) = running).
Proof.
  intros Hlink Hstart Hreach.
  assert (Hinv : driver_field_inv w).
  { induction Hreach as [|w w' _ IH Hs].
    - unfold driver_field_inv. rewrite Hlink. now left.
    - eapply field_handler_step; eauto. }
  unfold driver_field_inv in Hinv.
  destruct (_PROCESSOR (ud w)) as [[l|p|]|]; try contradiction; eauto.
Qed.

(** *** The close-match scan *)

Lemma identity_eqb_eq a b : identity_eqb a b = true <-> a = b.
Proof.
  destruct a as [[h1 d1] r1], b as [[h2 d2] r2]. unfold identity_eqb.
  rewrite !andb_true_iff, !String.eqb_eq, Bool.eqb_true_iff.
  split.
  - intros [[-> ->] ->]. reflexivity.
  - intros H. inversion H. auto.
Qed.

Lemma dict_key_eqb_eq a b : dict_key_eqb a b = true <-> a = b.
Proof.
  destruct a as [x|x], b as [y|y]; simpl.
  - rewrite identity_eqb_eq. split; [intros ->; reflexivity | intros H; now inversion H].
  - split; discriminate.
  - split; discriminate.
  - rewrite String.eqb_eq. split; [intros ->; reflexivity | intros H; now inversion H].
Qed.

Lemma dict_get_None_not_in {V} k (d : list (dict_key * V)) :
  dict_get dict_key_eqb k d = None -> ~ In k (map fst d).
Proof.
  induction d as [|[k' v] d IH]; simpl; auto.
  destruct (dict_key_eqb k k') eqn:Hk; try discriminate.
  intros Hnone [Heq|Hin].
  - subst k'. assert (dict_key_eqb k k = true) by now apply dict_key_eqb_eq. congruence.
  - now apply IH.
Qed.

Lemma close_match_matched q_key keys k :
  close_match q_key keys = Matched k ->
  exists before stored after,
    keys = (map KIdentity before ++ KIdentity stored :: after)%list /\
    k = KIdentity stored /\
    is_close_match q_key stored = true /\
    Forall (fun s => is_close_match q_key s = false) before.
Proof.
  induction keys as [|[s|s] keys IH]; simpl; try discriminate.
  destruct (is_close_match q_key s) eqn:Hs.
  - intros H; inversion H; subst. exists [], s, keys. repeat split; auto.
  - intros H. destruct (IH H) as (before & stored & after & -> & -> & Hc & Hb).
    exists (s :: before), stored, after. repeat split; auto.
Qed.

Lemma close_match_first q_key before stored after :
  Forall (fun s => is_close_match q_key s = false) before ->
  is_close_match q_key stored = true ->
  close_match q_key ((map KIdentity before ++ KIdentity stored :: after)%list)
    = Matched (KIdentity stored).
Proof.
  intros Hb Hs. induction Hb as [|s before Hx _ IH]; simpl.
  - now rewrite Hs.
  - now rewrite Hx.
Qed.

(** C4. With no exact entry for the question's identity, the key that the
    close-match scan selects has the question's header and agrees with it
    on the description or on the required flag, but not on both; every key
    stored before it is an identity that fails that test.  Conversely the
    first stored identity that passes the test is the one selected. *)
Theorem close_match_selects_first_candidate
    (header description : string) (required : bool)
    (prefs : list (dict_key * question_pref)) :
  dict_get dict_key_eqb (KIdentity (header, description, required)) prefs = None ->
  (forall k,
     close_match (header, description, required) (map fst prefs) = Matched k ->
     exists before h d r after,
       map fst prefs = (map KIdentity before ++ k :: after)%list /\
       k = KIdentity (h, d, r) /\
       h = header /\
       (d = description \/ r = required) /\
       ~ (d = description /\ r = required) /\
       Forall (fun s => is_close_match (header, description, required) s = false) before) /\
  (forall before h d r after,
     map fst prefs = (map KIdentity before ++ KIdentity (h, d, r) :: after)%list ->
     Forall (fun s => is_close_match (header, description, required) s = false) before ->
     h = header -> d = description \/ r = required ->
     close_match (header, description, required) (map fst prefs) = Matched (KIdentity (h, d, r))).
Proof.
  intros Hexact. split.
  - intros k Hk.
    destruct (close_match_matched _ _ _ Hk)
      as (before & [[h d] r] & after & Hkeys & -> & Hclose & Hbefore).
    exists before, h, d, r, after.
    unfold is_close_match in Hclose.
    apply andb_true_iff in Hclose. destruct Hclose as [Hh Hdr].
    apply String.eqb_eq in Hh. subst h.
    apply orb_true_iff in Hdr.
    repeat split; auto.
    + destruct Hdr as [Hd|Hr].
      * left. symmetry. now apply String.eqb_eq.
      * right. symmetry. now apply Bool.eqb_true_iff.
    + intros [-> ->].
      apply (dict_get_None_not_in _ _ Hexact).
      rewrite Hkeys. apply in_or_app. right. now left.
  - intros before h d r after Hkeys Hbefore -> Hdr.
    rewrite Hkeys. apply close_match_first; auto.
    unfold is_close_match. rewrite String.eqb_refl. simpl.
    destruct Hdr as [->| ->].
    + now rewrite String.eqb_refl.
    + rewrite Bool.eqb_reflx. apply orb_true_r.
Qed.

(** *** Invariants that the primitive steps keep *)
Section Stable.

Variable I : world -> Prop.
Variable ok_event : event -> bool.
Variable ok_update : (user_data -> user_data) -> Prop.
Variable S : stable I ok_event ok_update.

Lemma stable_with_processor {A} c (f : FormProcessor E -> A * FormProcessor E) :
  ok_event (driver c) = true ->
  (forall v, ok_update (set_PROCESSOR v)) ->
  keeps I (with_processor c f).
Proof.
  intros Hc Hu. unfold with_processor.
  apply keeps_bind; [apply keeps_get_ud|]. intros u.
  destruct (_PROCESSOR u) as [[l|p|]|]; try apply keeps_raise.
  destruct (f p) as [a p'].
  apply keeps_bind; [apply (stable_modify _ _ _ S), Hu|]. intros _.
  apply keeps_bind; [apply (stable_emit _ _ _ S), Hc|]. intros _.
  apply keeps_ret.
Qed.

Lemma stable_question_get_info :
  ok_event (driver call_get_info) = true ->
  (forall v v', ok_update (fun u => set_CURRENT_QUESTION v (set_PROCESSOR v' u))) ->
  keeps I question_get_info.
Proof.
  intros Hc Hu. unfold question_get_info.
  apply keeps_bind; [apply keeps_get_ud|]. intros u.
  destruct (_CURRENT_QUESTION u) as [[q|]|]; try apply keeps_raise.
  destruct (_PROCESSOR u) as [[l|p|]|]; try apply keeps_raise.
  destruct (get_info E q p) as [[r q'] p'].
  apply keeps_bind; [apply (stable_modify _ _ _ S), Hu|]. intros _.
  apply keeps_bind; [apply (stable_emit _ _ _ S), Hc|]. intros _.
  apply keeps_ret.
Qed.

Lemma stable_question_set_element e :
  ok_event (driver call_set_question_element) = true ->
  (forall v, ok_update (set_CURRENT_QUESTION v)) ->
  keeps I (question_set_element e).
Proof.
  intros Hc Hu. unfold question_set_element.
  apply keeps_bind; [apply keeps_get_ud|]. intros u.
  destruct (_CURRENT_QUESTION u) as [[q|]|]; try apply keeps_raise.
  apply keeps_bind; [apply (stable_modify _ _ _ S), Hu|]. intros _.
  apply (stable_emit _ _ _ S), Hc.
Qed.

Lemma stable_release p :
  ok_event (driver call_close_browser) = true ->
  (forall l, ok_event (driver (call_get_link l)) = true) ->
  (forall v, ok_update (set_PROCESSOR v)) ->
  keeps I (release_processor p).
Proof.
  intros Hc Hl Hu. unfold release_processor.
  apply keeps_bind; [apply (stable_emit _ _ _ S), Hc|]. intros _.
  apply keeps_bind; [apply (stable_emit _ _ _ S), Hl|]. intros _.
  apply (stable_modify _ _ _ S), Hu.
Qed.

End Stable.

(** Side conditions on updates: a field that the update leaves alone. *)
Lemma CURRENT_MARKUP_set_local_prefs d u :
  _CURRENT_MARKUP (set_local_prefs d u) = _CURRENT_MARKUP u.
Proof. unfold set_local_prefs. destruct (_SAVE_PREFS u); reflexivity. Qed.

Lemma CURRENT_QUESTION_set_local_prefs d u :
  _CURRENT_QUESTION (set_local_prefs d u) = _CURRENT_QUESTION u.
Proof. unfold set_local_prefs. destruct (_SAVE_PREFS u); reflexivity. Qed.

Lemma CURRENT_ANSWER_set_local_prefs d u :
  _CURRENT_ANSWER (set_local_prefs d u) = _CURRENT_ANSWER u.
Proof. unfold set_local_prefs. destruct (_SAVE_PREFS u); reflexivity. Qed.

Ltac side_condition :=
  cbv beta; intros; repeat split;
  first [ reflexivity
        | apply PROCESSOR_set_local_prefs
        | apply CURRENT_MARKUP_set_local_prefs
        | apply CURRENT_QUESTION_set_local_prefs
        | apply CURRENT_ANSWER_set_local_prefs ].

(** One step of a proof that a body keeps a stable invariant; [S] is the
    proof that it is stable. *)
Ltac stable_step S :=
  lazymatch goal with
  | |- keeps _ (ret _) => apply keeps_ret
  | |- keeps _ (return_ _) => apply keeps_return_any
  | |- keeps _ (tail_call _) => apply keeps_tail_call
  | |- keeps _ (raise _) => apply keeps_raise
  | |- keeps _ out_of_fuel => apply keeps_out_of_fuel
  | |- keeps _ get_ud => apply keeps_get_ud
  | |- keeps _ (emit _) => apply (stable_emit _ _ _ S); reflexivity
  | |- keeps _ (modify_ud _) => apply (stable_modify _ _ _ S); side_condition
  | |- keeps _ (set_answer_handler_pattern _) => apply (stable_answer_pattern _ _ _ S)
  | |- keeps _ (set_confirm_handler_pattern _) => apply (stable_confirm_pattern _ _ _ S)
  | |- keeps _ (with_processor _ _) =>
      apply (stable_with_processor _ _ _ S); [ reflexivity | side_condition ]
  | |- keeps _ question_get_info =>
      apply (stable_question_get_info _ _ _ S); [ reflexivity | side_condition ]
  | |- keeps _ (question_set_element _) =>
      apply (stable_question_set_element _ _ _ S); [ reflexivity | side_condition ]
  | |- keeps _ (release_processor _) =>
      apply (stable_release _ _ _ S); [ reflexivity | reflexivity | side_condition ]
  | |- keeps _ (bind _ _) => apply keeps_bind; [ | intros ]
  | |- keeps _ (match ?x with _ => _ end) => destruct x
  end.

Lemma prepare_frame_stable w0 :
  stable (prepare_frame w0)
    (fun e => negb (is_submission e) && negb (is_question_prompt e))
    (fun f => forall u, untouched u (f u)).
Proof.
  split.
  - intros e He w (Hu & Hq & Hs & Hp).
    apply andb_true_iff in He. destruct He as [He1 He2].
    apply negb_true_iff in He1, He2.
    unfold prepare_frame. cbn [emit ud job_queue history filter].
    rewrite He1, He2. auto.
  - intros f Hf w ((H1 & H2 & H3 & H4) & Hq & Hs & Hp).
    unfold prepare_frame. cbn [modify_ud ud job_queue history].
    destruct (Hf (ud w)) as (F1 & F2 & F3 & F4).
    repeat split; auto; congruence.
  - intros p w H. exact H.
  - intros p w H. exact H.
Qed.

Lemma frame_refresh_loop w0 fuel result :
  keeps (prepare_frame w0) (refresh_loop fuel result).
Proof.
  revert result. induction fuel as [|fuel IH]; intros [[|]|]; simpl;
    repeat first [ apply IH | stable_step (prepare_frame_stable w0) ].
Qed.

Lemma frame_prepare_question w0 fuel :
  keeps (prepare_frame w0) (prepare_question fuel).
Proof.
  unfold prepare_question, obtain_next_question, obtain_processor, _show_loading_screen.
  repeat first [ apply frame_refresh_loop | stable_step (prepare_frame_stable w0) ].
Qed.

Lemma prepare_frame_refl w : prepare_frame w w.
Proof. repeat split. Qed.

(** What a call of [prepare_question] that hands on a question leaves
    behind: everything but [_PROCESSOR] and [_CURRENT_QUESTION] is as
    before, nothing was submitted and no question was shown. *)
Lemma prepare_question_frame fuel w q w1 :
  prepare_question fuel w = (Normal q, w1) -> prepare_frame w w1.
Proof.
  intros H. pose proof (frame_prepare_question w fuel w (prepare_frame_refl w)) as F.
  now rewrite H in F.
Qed.

(** *** The question that [prepare_question] hands on *)

Lemma leaves_bind {A B} (m : M A) (f : A -> M B) :
  (forall a, leaves (f a)) -> leaves (bind m f).
Proof.
  intros Hf w. unfold bind. destruct (m w) as [[a|x] w1]; [apply Hf | eauto].
Qed.

Lemma leaves_return {A} s : leaves (@return_ A s).
Proof. intros w. unfold return_. eauto. Qed.

Lemma leaves_raise {A} e : leaves (@raise A e).
Proof. intros w. unfold raise. eauto. Qed.

Lemma leaves_triple {A} (P : world -> Prop) (m : M A) N :
  leaves m -> triple P m N (fun _ _ => True).
Proof. intros H w _. destruct (H w) as (x & w1 & ->). exact I. Qed.

Lemma keeps_triple {A} (I0 : world -> Prop) (m : M A) :
  keeps I0 m -> triple I0 m (fun _ => I0) (fun _ _ => True).
Proof.
  intros H. eapply triple_weaken; [exact H| | |]; auto.
Qed.

Lemma active_emit e : keeps is_active (emit e).
Proof. intros w Hw. exact Hw. Qed.

Lemma active_modify f :
  (forall u, _PROCESSOR (f u) = _PROCESSOR u) -> keeps is_active (modify_ud f).
Proof.
  intros Hf w [p Hp]. exists p. cbn [modify_ud ud]. now rewrite Hf.
Qed.

Lemma active_with_processor {A} c (f : FormProcessor E -> A * FormProcessor E) :
  keeps is_active (with_processor c f).
Proof.
  intros w [p Hp]. unfold with_processor, bind, get_ud. rewrite Hp.
  destruct (f p) as [a p']. cbn. now exists p'.
Qed.

Lemma active_question_get_info : keeps is_active question_get_info.
Proof.
  intros w [p Hp]. unfold question_get_info, bind, get_ud. rewrite Hp.
  destruct (_CURRENT_QUESTION (ud w)) as [[q|]|]; try (now exists p).
  destruct (get_info E q p) as [[r q'] p']. cbn. now exists p'.
Qed.

Lemma active_question_set_element e : keeps is_active (question_set_element e).
Proof.
  intros w [p Hp]. unfold question_set_element, bind, get_ud.
  destruct (_CURRENT_QUESTION (ud w)) as [[q|]|]; cbn; now exists p.
Qed.

Lemma active_refresh_loop fuel result : keeps is_active (refresh_loop fuel result).
Proof.
  revert result. induction fuel as [|fuel IH]; intros [[|]|]; simpl;
    try apply keeps_ret; try apply keeps_out_of_fuel.
  apply keeps_bind; [apply active_with_processor|]. intros [e|]; [|apply keeps_ret].
  apply keeps_bind; [apply active_question_set_element|]. intros _.
  apply keeps_bind; [apply active_question_get_info|]. intros r. apply IH.
Qed.

Lemma read_current_question :
  triple is_active
    (u2 <- get_ud ;;
     match _CURRENT_QUESTION u2 with
     | Some (AQuestion q') => ret q'
     | _ => raise AttributeError
     end)
    (fun q w => is_active w /\ _CURRENT_QUESTION (ud w) = Some (AQuestion q))
    (fun _ _ => True).
Proof.
  intros w Hw. unfold bind, get_ud.
  destruct (_CURRENT_QUESTION (ud w)) as [[q|]|] eqn:Hq; simpl; auto.
Qed.

Lemma obtain_next_question_post fuel start :
  triple is_active (obtain_next_question fuel start)
    (fun q w => is_active w /\ _CURRENT_QUESTION (ud w) = Some (AQuestion q))
    (fun _ _ => True).
Proof.
  intros w Hw. unfold obtain_next_question. unfold bind at 1. unfold get_ud at 1.
  destruct (_CURRENT_QUESTION (ud w)) as [[q|]|] eqn:Hq.
  - simpl. auto.
  - apply leaves_triple with (P := is_active); auto.
    apply leaves_bind. intros _. apply leaves_return.
  - revert w Hw Hq. 
    match goal with |- forall w, is_active w -> _ -> match ?m w with _ => _ end =>
      assert (Hm : triple is_active m
                (fun q w => is_active w /\ _CURRENT_QUESTION (ud w) = Some (AQuestion q))
                (fun _ _ => True)) end.
    { eapply triple_bind; [apply keeps_triple, active_with_processor|].
      intros [| | |q].
      - apply leaves_triple. apply leaves_bind. intros _. apply leaves_bind. intros u1.
        destruct (_PROCESSOR u1) as [[l|p|]|]; try apply leaves_raise.
        apply leaves_bind. intros _. apply leaves_bind. intros _. apply leaves_return.
      - apply leaves_triple. apply leaves_bind. intros _. apply leaves_return.
      - apply leaves_triple. apply leaves_bind. intros _. apply leaves_return.
      - eapply triple_bind;
          [apply keeps_triple, active_modify; intros; reflexivity|]. intros ?.
        eapply triple_bind; [apply keeps_triple, active_question_get_info|]. intros r.
        eapply triple_bind; [apply keeps_triple, active_refresh_loop|]. intros r'.
        destruct (truthy r').
        + apply read_current_question.
        + apply leaves_triple. apply leaves_bind. intros _. apply leaves_return. }
    intros w Hw _. apply Hm, Hw.
Qed.

Lemma prepare_question_post fuel w q w1 :
  prepare_question fuel w = (Normal q, w1) ->
  is_active w1 /\ _CURRENT_QUESTION (ud w1) = Some (AQuestion q).
Proof.
  unfold prepare_question, _show_loading_screen. unfold bind at 1. unfold get_ud at 1.
  destruct (_PROCESSOR (ud w)) as [slot|] eqn:Hs; [|discriminate].
  unfold bind at 1. unfold emit at 1. unfold bind at 1.
  destruct slot as [l|p|]; unfold obtain_processor.
  - cbn [bind modify_ud emit ret ud history job_queue answer_handler_pattern
         confirm_handler_pattern].
    match goal with |- obtain_next_question _ _ ?W = _ -> _ =>
      pose proof (obtain_next_question_post fuel true W) as H end.
    intros Hq. rewrite Hq in H. apply H. eexists. reflexivity.
  - cbn [ret].
    match goal with |- obtain_next_question _ _ ?W = _ -> _ =>
      pose proof (obtain_next_question_post fuel false W) as H end.
    intros Hq. rewrite Hq in H. apply H. exists p. exact Hs.
  - discriminate.
Qed.

(** *** One traversal at a time *)

Lemma one_at_a_time_other e h :
  opens_driver e = false -> one_at_a_time (e :: h) = one_at_a_time h.
Proof. destruct e as [| | |[]]; simpl; auto; discriminate. Qed.

Lemma single_driver_stable :
  stable single_driver (fun e => negb (opens_driver e)) (fun _ => True).
Proof.
  split.
  - intros e He w Hw. apply negb_true_iff in He.
    unfold single_driver. cbn [emit history]. now rewrite one_at_a_time_other.
  - intros f _ w Hw. exact Hw.
  - intros p w Hw. exact Hw.
  - intros p w Hw. exact Hw.
Qed.

Ltac single_step :=
  lazymatch goal with
  | |- keeps _ get_job_queue => intros ? ?; assumption
  | |- keeps _ (add_job _) => intros ? ?; assumption
  | |- keeps _ (modify_ud _) => apply (stable_modify _ _ _ single_driver_stable); exact I
  | |- keeps _ (with_processor _ _) =>
      apply (stable_with_processor _ _ _ single_driver_stable); [ reflexivity | intros; exact I ]
  | |- keeps _ question_get_info =>
      apply (stable_question_get_info _ _ _ single_driver_stable);
      [ reflexivity | intros; exact I ]
  | |- keeps _ (question_set_element _) =>
      apply (stable_question_set_element _ _ _ single_driver_stable);
      [ reflexivity | intros; exact I ]
  | |- keeps _ (release_processor _) =>
      apply (stable_release _ _ _ single_driver_stable);
      [ reflexivity | reflexivity | intros; exact I ]
  | |- _ => stable_step single_driver_stable
  end.

Lemma single_refresh_loop fuel result : keeps single_driver (refresh_loop fuel result).
Proof.
  revert result. induction fuel as [|fuel IH]; intros [[|]|]; simpl;
    repeat first [ apply IH | single_step ].
Qed.

Lemma single_obtain_next_question fuel start :
  keeps single_driver (obtain_next_question fuel start).
Proof.
  unfold obtain_next_question.
  repeat first [ apply single_refresh_loop | single_step ].
Qed.

Lemma field_obtain_next_question fuel start :
  keeps driver_field_inv (obtain_next_question fuel start).
Proof.
  unfold obtain_next_question.
  repeat first [ apply field_refresh_loop | field_step ].
Qed.

Lemma keeps_both {A} (m : M A) :
  keeps driver_field_inv m -> keeps single_driver m -> keeps one_traversal m.
Proof.
  intros Hf Hs w [Hw1 Hw2]. specialize (Hf w Hw1). specialize (Hs w Hw2).
  unfold one_traversal. destruct (m w) as [[a|x] w1]; auto.
Qed.

(** The one place that opens a driver: [prepare_question] does it only
    when [_PROCESSOR] holds a link, and then no driver is running. *)
Lemma traversal_prepare_question fuel : keeps one_traversal (prepare_question fuel).
Proof.
  intros w [Hf Hs]. unfold prepare_question. unfold bind at 1. unfold get_ud at 1.
  destruct (_PROCESSOR (ud w)) as [slot|] eqn:Hp.
  - unfold _show_loading_screen. unfold bind at 1. unfold emit at 1.
    unfold bind at 1. destruct slot as [l|p|]; unfold obtain_processor.
    + cbn [bind modify_ud emit ret ud history job_queue answer_handler_pattern
           confirm_handler_pattern].
      apply (keeps_both _ (field_obtain_next_question fuel true)
               (single_obtain_next_question fuel true)).
      split.
      * unfold driver_field_inv. cbn. reflexivity.
      * unfold single_driver. cbn [history one_at_a_time status].
        unfold driver_field_inv in Hf. rewrite Hp in Hf.
        unfold single_driver in Hs. rewrite Hs.
        destruct Hf as [-> | ->]; reflexivity.
    + cbn [ret].
      apply (keeps_both _ (field_obtain_next_question fuel false)
               (single_obtain_next_question fuel false)).
      split; [exact Hf | exact Hs].
    + cbn [raise]. split; [exact Hf | exact Hs].
  - cbn. split; [exact Hf | exact Hs].
Qed.

Lemma single_submit answers : keeps single_driver (_submit_to_google_forms answers).
Proof. unfold _submit_to_google_forms. repeat single_step. Qed.

Lemma single_stored_answer tp q : keeps single_driver (stored_answer tp q).
Proof.
  unfold stored_answer, _remove_current_pointers.
  repeat first [ apply single_submit | single_step ].
Qed.

Lemma single_display_question tp q a p : keeps single_driver (display_question tp q a p).
Proof.
  unfold display_question, grid_sub_question, offer_saved_answer, prompt_for_input.
  repeat single_step.
Qed.

Lemma traversal_obtain_question_body fuel tp :
  keeps one_traversal (_obtain_question_body fuel tp).
Proof.
  unfold _obtain_question_body.
  apply keeps_bind; [apply traversal_prepare_question|]. intros q.
  apply keeps_bind;
    [apply keeps_both; [apply field_stored_answer | apply single_stored_answer]|].
  intros ap.
  apply keeps_both; [apply field_display_question | apply single_display_question].
Qed.

Lemma traversal_obtain_question fuel : forall tp w,
  one_traversal w -> one_traversal (snd (_obtain_question fuel tp w)).
Proof.
  induction fuel as [|fuel IH]; intros tp w Hw; simpl.
  - pose proof (keeps_run _ _ w (traversal_obtain_question_body 0 tp) Hw) as H.
    destruct (run (_obtain_question_body 0 tp) w) as [[s|tp'|e|] w1]; auto.
  - pose proof (keeps_run _ _ w (traversal_obtain_question_body (S fuel) tp) Hw) as H.
    destruct (run (_obtain_question_body (S fuel) tp) w) as [[s|tp'|e|] w1]; auto.
Qed.

Lemma traversal_continue_with fuel (m : M state) w :
  keeps one_traversal m -> one_traversal w ->
  one_traversal (snd (continue_with fuel (run m w))).
Proof.
  intros Hm Hw. pose proof (keeps_run _ _ w Hm Hw) as H. unfold continue_with.
  destruct (run m w) as [[s|tp'|e|] w1]; auto. now apply traversal_obtain_question.
Qed.

Lemma single_submit_answer_body data : keeps single_driver (_submit_answer_body data).
Proof.
  unfold _submit_answer_body, save_region, _show_loading_screen, _remove_current_pointers.
  repeat first [ apply single_submit | single_step ].
Qed.

Lemma single_save_answer_body data : keeps single_driver (_save_answer_body data).
Proof.
  unfold _save_answer_body, _remove_current_pointers.
  repeat single_step.
Qed.

Lemma single_job_failed : keeps single_driver job_failed.
Proof. unfold job_failed, _remove_current_pointers. repeat single_step. Qed.

Lemma single_start_date data : keeps single_driver (_start_date data).
Proof. unfold _start_date. repeat single_step. Qed.

Lemma single_confirm_add data : keeps single_driver (_confirm_add data).
Proof. unfold _confirm_add. repeat single_step. Qed.

Lemma traversal_auto_submit fuel w :
  one_traversal w -> one_traversal (snd (_auto_submit fuel w)).
Proof.
  intros Hw. unfold _auto_submit.
  pose proof (traversal_obtain_question fuel true w Hw) as H.
  destruct (_PROCESSOR (ud w)) as [[l|p|]|]; auto;
    destruct (_obtain_question fuel true w) as [[[]|tp'|e|] w1]; auto;
    apply keeps_snd; auto using keeps_both, field_job_failed, single_job_failed.
Qed.

Lemma traversal_handler_step w w' :
  handler_step w w' -> one_traversal w -> one_traversal w'.
Proof.
  intros Hs Hw. destruct Hs.
  - now apply traversal_obtain_question.
  - apply traversal_continue_with;
      auto using keeps_both, field_submit_answer_body, single_submit_answer_body.
  - apply traversal_continue_with;
      auto using keeps_both, field_save_answer_body, single_save_answer_body.
  - now apply traversal_auto_submit.
  - apply keeps_snd; auto using keeps_both, field_start_date, single_start_date.
  - apply keeps_snd; auto using keeps_both, field_confirm_add, single_confirm_add.
Qed.


(** *** Saved answers *)

Lemma submission_of_truthy a :
  answer_truthy a = true -> exists s, submission_of a = Some s.
Proof.
  unfold submission_of. destruct a as [[s|[|x l]]|[|kv m]]; simpl; try discriminate; eauto.
Qed.

Lemma submit_active a s p w r p' :
  submission_of a = Some s ->
  _PROCESSOR (ud w) = Some (Active p) ->
  answer_question E p s = (r, p') ->
  _submit_to_google_forms (submission_args a) w =
    (Normal r,
     {| ud := set_PROCESSOR (Some (Active p')) (ud w);
        job_queue := job_queue w;
        answer_handler_pattern := answer_handler_pattern w;
        confirm_handler_pattern := confirm_handler_pattern w;
        history := driver (call_answer_question s) :: history w |}).
Proof.
  unfold submission_of, _submit_to_google_forms.
  destruct (submission_args a) as [|first rest]; [discriminate|].
  intros Hs Hp Hr. inversion Hs; subst s; clear Hs.
  destruct (is_skip first); unfold with_processor, bind, get_ud; rewrite Hp, Hr; reflexivity.
Qed.

Lemma is_skip_spelled (first : option value) :
  is_skip first = true <->
  first = Some (Str (get_skip E)) \/ first = Some (Str "/skip").
Proof.
  destruct first as [[text|parts]|]; cbn [is_skip].
  - rewrite orb_true_iff, !String.eqb_eq. split.
    + intros [->| ->]; auto.
    + intros [H|H]; inversion H; auto.
  - split; [discriminate | intros [H|H]; discriminate].
  - split; [discriminate | intros [H|H]; discriminate].
Qed.

(** What [submission_of] stands for, spelled out: the values of a grid in
    the order of its rows, the parts of a tuple in their order, a text
    alone; the skip path when the first of them is a skip. *)
Lemma submission_of_spelled (a : Answer) (s : submission) :
  submission_of a = Some s ->
  exists first rest,
    (forall m, a = Grid m -> map snd m = first :: rest) /\
    (forall parts, a = Plain (Tuple parts) ->
       map (fun part => Some (Str part)) parts = first :: rest) /\
    (forall text, a = Plain (Str text) -> [Some (Str text)] = first :: rest) /\
    (first = Some (Str (get_skip E)) \/ first = Some (Str "/skip") -> s = Skip) /\
    (first <> Some (Str (get_skip E)) -> first <> Some (Str "/skip") ->
     s = Answers (first :: rest)).
Proof.
  unfold submission_of. destruct (submission_args a) as [|first rest] eqn:Hargs;
    [discriminate|].
  intros Hs. inversion Hs; subst s; clear Hs. exists first, rest.
  split; [|split; [|split; [|split]]].
  - intros m ->. exact Hargs.
  - intros parts ->. exact Hargs.
  - intros text ->. exact Hargs.
  - intros H. apply is_skip_spelled in H. now rewrite H.
  - intros H1 H2. destruct (is_skip first) eqn:Hskip; [|reflexivity].
    apply is_skip_spelled in Hskip. destruct Hskip; contradiction.
Qed.

(** C3. When the question a call of [_obtain_question] works on has an
    exact entry in the local preferences with policy save-always and a
    non-empty saved answer, the call submits that answer to the driver
    without showing any question: the driver gets the values of a saved
    grid in the order of its rows, the parts of a saved tuple in their
    order, a saved text alone (and a skip when the first of them is the
    skip label or "/skip").  When the driver accepts, the call drops the
    current question and answer and goes on with
    [_obtain_question(update, context)], the next question; when the
    driver refuses, it returns [_STOPPING]. *)
Theorem saved_answer_submitted_without_prompt
    (fuel : nat) (w w1 : world) (q : Question E)
    (sp : save_prefs) (prefs : list (dict_key * question_pref))
    (entry : question_pref) (a : Answer) :
  prepare_question fuel w = (Normal q, w1) ->
  _SAVE_PREFS (ud w) = Some sp ->
  _LOCAL_SAVE_PREF sp = Some prefs ->
  dict_get dict_key_eqb (KIdentity (get_pref_key E q)) prefs = Some entry ->
  _PREF_KEY entry = Some save_always ->
  _ANSWER_KEY entry = Some a ->
  answer_truthy a = true ->
  exists p first rest s r p' w2,
    _PROCESSOR (ud w1) = Some (Active p) /\
    (forall m, a = Grid m -> map snd m = first :: rest) /\
    (forall parts, a = Plain (Tuple parts) ->
       map (fun part => Some (Str part)) parts = first :: rest) /\
    (forall text, a = Plain (Str text) -> [Some (Str text)] = first :: rest) /\
    (first = Some (Str (get_skip E)) \/ first = Some (Str "/skip") -> s = Skip) /\
    (first <> Some (Str (get_skip E)) -> first <> Some (Str "/skip") ->
     s = Answers (first :: rest)) /\
    answer_question E p s = (r, p') /\
    run (_obtain_question_body fuel true) w =
      (if truthy r then TailCall true else Return _STOPPING, w2) /\
    history w2 = driver (call_answer_question s) :: history w1 /\
    filter is_question_prompt (history w2) = filter is_question_prompt (history w) /\
    _PROCESSOR (ud w2) = Some (Active p') /\
    _SAVE_PREFS (ud w2) = _SAVE_PREFS (ud w) /\
    (truthy r = true ->
       _CURRENT_QUESTION (ud w2) = None /\ _CURRENT_ANSWER (ud w2) = None /\
       forall n, fuel = S n -> _obtain_question fuel true w = _obtain_question n true w2).
Proof.
  intros Hprep Hsp Hlocal Hget Hpref Hans Htruthy.
  destruct (prepare_question_post _ _ _ _ Hprep) as [[p Hp] Hq].
  destruct (prepare_question_frame _ _ _ _ Hprep) as ((F1 & F2 & F3 & F4) & Fq & Fs & Fp).
  destruct (submission_of_truthy _ Htruthy) as [s Hs].
  destruct (submission_of_spelled _ _ Hs) as (first & rest & Hgrid & Htuple & Htext & Hskip & Hall).
  destruct (answer_question E p s) as [r p'] eqn:Hr.
  pose proof (submit_active a s p w1 r p' Hs Hp Hr) as Hsubmit.
  assert (Hbody : run (_obtain_question_body fuel true) w =
            (if truthy r then TailCall true else Return _STOPPING,
             if truthy r
             then snd (_remove_current_pointers
                         (snd (_submit_to_google_forms (submission_args a) w1)))
             else snd (_submit_to_google_forms (submission_args a) w1))).
  { unfold run, _obtain_question_body. unfold bind at 1. rewrite Hprep.
    unfold bind at 1. unfold stored_answer. unfold bind at 1. unfold get_ud at 1.
    rewrite F1, Hsp, Hlocal, Hget, Hpref, Hans, Htruthy. cbn [is_option negb save_pref_eqb].
    unfold bind at 1. rewrite Hsubmit. cbn [snd].
    destruct (truthy r); reflexivity. }
  rewrite Hsubmit in Hbody. cbn [snd] in Hbody.
  eexists p, first, rest, s, r, p', _.
  split; [exact Hp|]. split; [exact Hgrid|]. split; [exact Htuple|]. split; [exact Htext|].
  split; [exact Hskip|]. split; [exact Hall|]. split; [exact Hr|].
  split; [exact Hbody|].
  destruct (truthy r) eqn:Ht; cbn; rewrite ?Fp, ?F1; repeat split; auto; try discriminate.
  intros n ->. cbn [_obtain_question]. rewrite Hbody. reflexivity.
Qed.

(** *** The rows of a new grid *)

Lemma dict_set_new {V} (k : string) (v : V) (d : list (string * V)) :
  ~ In k (map fst d) -> dict_set String.eqb k v d = (d ++ [(k, v)])%list.
Proof.
  induction d as [|[k' v'] d IH]; cbn [dict_set map fst In app]; intros Hn; [reflexivity|].
  destruct (String.eqb_spec k k') as [->|Hne]; [exfalso; apply Hn; now left|].
  rewrite IH; [reflexivity|]. intros Hin. apply Hn. now right.
Qed.

Lemma empty_grid_from (sub_questions : list string) :
  forall d : list (string * option value),
    NoDup (map fst d ++ sub_questions) ->
    fold_left (fun d q => dict_set String.eqb q None d) sub_questions d
      = (d ++ map (fun q => (q, None)) sub_questions)%list.
Proof.
  induction sub_questions as [|q sub_questions IH]; intros d Hnd; cbn [fold_left map].
  - now rewrite app_nil_r.
  - assert (Hq : ~ In q (map fst d)).
    { apply NoDup_remove_2 in Hnd. intros Hin. apply Hnd. apply in_or_app. now left. }
    rewrite (dict_set_new q None d Hq), IH.
    + now rewrite <- app_assoc.
    + rewrite map_app. cbn [map fst]. rewrite <- app_assoc. exact Hnd.
Qed.

Lemma empty_grid_rows (sub_questions : list string) :
  NoDup sub_questions ->
  empty_grid sub_questions = map (fun q => (q, None)) sub_questions.
Proof. intros Hnd. unfold empty_grid. now rewrite empty_grid_from. Qed.

(** *** What the display region and the close-match path can do *)

(** Evaluate a body on a world, splitting on whatever it tests. *)
Ltac evaluate :=
  unfold bind, get_ud, modify_ud, emit, ret, return_, raise, tail_call, out_of_fuel,
    set_answer_handler_pattern, set_confirm_handler_pattern;
  repeat first
    [ progress cbn beta iota zeta delta
        [ud history job_queue answer_handler_pattern confirm_handler_pattern
         fst snd
         set_SAVE_PREFS set_PROCESSOR set_CURRENT_QUESTION set_CURRENT_ANSWER
         set_CURRENT_MARKUP set_CURRENT_JOB
         _SAVE_PREFS _PROCESSOR _CURRENT_QUESTION _CURRENT_ANSWER
         _CURRENT_MARKUP _CURRENT_JOB]
    | match goal with
      | |- context [match ?x with _ => _ end] =>
          lazymatch x with
          | context [match _ with _ => _ end] => fail
          | _ => destruct x eqn:?
          end
      end ].

Lemma display_question_exits tp q ans pref w x w2 :
  run (display_question tp q ans pref) w = (x, w2) ->
  filter is_submission (history w2) = filter is_submission (history w) /\
  (forall tp', x <> TailCall tp') /\
  (x = Return _CONFIRM_SUBMIT ->
     exists sub text,
       history w2 =
         edit_message_text
           (question_prompt q sub
              (if save_pref_eqb pref ask_again
               then saved_answer_detected text
               else answer_recommendation text))
           TF_markup :: history w).
Proof.
  unfold run, display_question, grid_sub_question, offer_saved_answer, prompt_for_input.
  evaluate.
  all: intros H; inversion H; subst; clear H.
  all: cbn [history filter is_submission].
  all: repeat split; try discriminate; try reflexivity.
  all: intros _; eauto.
Qed.

Lemma stored_answer_close_match q w sp prefs :
  _SAVE_PREFS (ud w) = Some sp ->
  _LOCAL_SAVE_PREF sp = Some prefs ->
  dict_get dict_key_eqb (KIdentity (get_pref_key E q)) prefs = None ->
  stored_answer true q w =
    match close_match (get_pref_key E q) (map fst prefs) with
    | NoMatch => (Normal (None, None), w)
    | Matched k =>
        (Normal (match dict_get dict_key_eqb k prefs with
                 | Some entry => _ANSWER_KEY entry
                 | None => None
                 end, None), w)
    | BadKey => (emit send_bug_message ;; return_ _STOPPING) w
    end.
Proof.
  intros Hsp Hlocal Hget. unfold stored_answer. unfold bind at 1. unfold get_ud at 1.
  rewrite Hsp, Hlocal, Hget.
  destruct (close_match (get_pref_key E q) (map fst prefs)); reflexivity.
Qed.

Lemma stored_answer_not_processed q w :
  stored_answer false q w = (Normal (None, None), w).
Proof. reflexivity. Qed.

(** [prepare_question] never ends in a call of [_obtain_question]. *)
Lemma refresh_loop_no_tail_call fuel : forall result w tp,
  fst (refresh_loop fuel result w) <> Exit (TailCall tp).
Proof.
  induction fuel as [|fuel IH]; intros [[|]|] w tp; cbn [refresh_loop];
    try (unfold ret, out_of_fuel; cbn; discriminate).
  unfold with_processor, question_set_element, question_get_info.
  evaluate; try discriminate; apply IH.
Qed.

Lemma leaves_prepare_exit fuel w :
  forall tp, fst (prepare_question fuel w) <> Exit (TailCall tp).
Proof.
  intros tp. unfold prepare_question, obtain_next_question, obtain_processor,
    _show_loading_screen, with_processor, release_processor, question_get_info.
  evaluate; try discriminate.
  all: match goal with
       | H : refresh_loop ?f ?r ?w = _ |- _ =>
           pose proof (refresh_loop_no_tail_call f r w tp) as Hn; rewrite H in Hn;
           cbn [fst] in Hn
       end; try congruence; try discriminate.
Qed.

Lemma run_obtain_question_body fuel tp w :
  run (_obtain_question_body fuel tp) w =
    match prepare_question fuel w with
    | (Normal q, w1) =>
        match stored_answer tp q w1 with
        | (Normal ap, w2) => run (display_question tp q (fst ap) (snd ap)) w2
        | (Exit x, w2) => (x, w2)
        end
    | (Exit x, w1) => (x, w1)
    end.
Proof.
  unfold run, _obtain_question_body, bind.
  destruct (prepare_question fuel w) as [[q|x] w1]; auto.
  destruct (stored_answer tp q w1) as [[ap|x] w2]; auto.
Qed.

Lemma obtain_question_no_tail_call fuel tp w :
  (forall tp', fst (run (_obtain_question_body fuel tp) w) <> TailCall tp') ->
  _obtain_question fuel tp w = run (_obtain_question_body fuel tp) w.
Proof.
  intros H. destruct fuel; cbn [_obtain_question];
    destruct (run _ w) as [[s|tp'|e|] w2]; auto; exfalso; now apply (H tp').
Qed.

Lemma obtain_question_not_processed fuel w :
  _obtain_question fuel false w = run (_obtain_question_body fuel false) w /\
  no_new_submission w (snd (_obtain_question fuel false w)) /\
  forall tp, fst (_obtain_question fuel false w) <> TailCall tp.
Proof.
  assert (H : no_new_submission w (snd (run (_obtain_question_body fuel false) w)) /\
              forall tp, fst (run (_obtain_question_body fuel false) w) <> TailCall tp).
  { rewrite run_obtain_question_body.
    pose proof (frame_prepare_question w fuel w (prepare_frame_refl w)) as F.
    pose proof (leaves_prepare_exit fuel w) as L.
    destruct (prepare_question fuel w) as [[q|x] w1] eqn:Hprep;
      destruct F as (_ & _ & Fs & _).
    - rewrite stored_answer_not_processed. cbn [fst snd].
      pose proof (display_question_exits false q None None w1) as D.
      destruct (run (display_question false q None None) w1) as [x w2].
      destruct (D _ _ eq_refl) as (D1 & D2 & _). cbn [fst snd].
      split; [unfold no_new_submission in *; congruence|]. exact D2.
    - cbn [fst snd]. split; [exact Fs|].
      intros tp Hx. subst x. now apply (L tp). }
  destruct H as [H1 H2].
  rewrite (obtain_question_no_tail_call _ _ _ H2). auto.
Qed.

Lemma submit_answer_body_unconfirmed data w x w2 :
  (forall d, data = Some d -> TFMarkup_confirm E d <> Some true) ->
  run (_submit_answer_body data) w = (x, w2) ->
  no_new_submission w w2 /\ x <> TailCall true.
Proof.
  intros Hd. unfold run, _submit_answer_body.
  evaluate.
  all: try (exfalso; eapply Hd; [reflexivity | eassumption]).
  all: intros H; inversion H; subst; clear H.
  all: split; [reflexivity | discriminate].
Qed.

Lemma submit_answer_unconfirmed fuel data w :
  (forall d, data = Some d -> TFMarkup_confirm E d <> Some true) ->
  no_new_submission w (snd (_submit_answer fuel data w)).
Proof.
  intros Hd. unfold _submit_answer, continue_with.
  pose proof (submit_answer_body_unconfirmed data w) as H.
  destruct (run (_submit_answer_body data) w) as [x w2].
  destruct (H x w2 Hd eq_refl) as [Hn Hx].
  destruct x as [s|[|]|e|]; auto; try congruence.
  destruct (obtain_question_not_processed fuel w2) as (_ & Hs & _).
  unfold no_new_submission in *. congruence.
Qed.

Lemma offer_answer_to_plain_question q a pref w :
  is_BaseOptionGridQuestion E q = false ->
  answer_truthy a = true ->
  exists w2,
    run (display_question true q (Some a) pref) w = (Return _CONFIRM_SUBMIT, w2) /\
    history w2 =
      edit_message_text
        (question_prompt q None
           (if save_pref_eqb pref ask_again
            then saved_answer_detected (format_answer a)
            else answer_recommendation (format_answer a)))
        TF_markup :: history w /\
    _CURRENT_ANSWER (ud w2) =
      match _CURRENT_ANSWER (ud w) with Some c => Some c | None => Some a end /\
    _PROCESSOR (ud w2) = _PROCESSOR (ud w) /\
    _CURRENT_QUESTION (ud w2) = _CURRENT_QUESTION (ud w).
Proof.
  intros Hgrid Htruthy.
  unfold run, display_question, grid_sub_question, offer_saved_answer.
  rewrite Hgrid. unfold bind, ret. cbn beta iota. rewrite Htruthy. cbn [andb].
  evaluate; eexists; (split; [reflexivity|]); cbn; auto.
Qed.

(** The answer of a row in a saved grid, [answer.get(sub_question)]. *)
Lemma offer_answer_to_grid_question q saved first_row others w :
  is_BaseOptionGridQuestion E q = true ->
  saved <> [] ->
  _CURRENT_ANSWER (ud w) = None ->
  get_sub_questions E q = first_row :: others ->
  NoDup (first_row :: others) ->
  exists w2,
    run (display_question true q (Some (Grid saved)) None) w = (Return _CONFIRM_SUBMIT, w2) /\
    history w2 =
      edit_message_text
        (question_prompt q (Some first_row)
           (answer_recommendation
              (format_value (match dict_get String.eqb first_row saved with
                             | Some v => v
                             | None => None
                             end))))
        TF_markup :: history w /\
    _CURRENT_ANSWER (ud w2) =
      Some (Grid ((first_row,
                   match dict_get String.eqb first_row saved with
                   | Some v => v
                   | None => None
                   end) :: map (fun row => (row, None)) others)).
Proof.
  intros Hgrid Hsaved Ha Hrows Hnd.
  unfold run, display_question, grid_sub_question. rewrite Hgrid.
  unfold bind at 1. unfold bind at 1. unfold bind at 1. unfold get_ud at 1. rewrite Ha.
  unfold modify_ud at 1. unfold bind at 1. unfold get_ud at 1.
  cbn [ud _CURRENT_ANSWER set_CURRENT_ANSWER].
  rewrite Hrows, (empty_grid_rows _ Hnd). cbn [map first_unanswered].
  unfold ret at 1. cbn beta iota.
  assert (Htruthy : answer_truthy (Grid saved) = true)
    by (destruct saved; [now elim Hsaved | reflexivity]).
  rewrite Htruthy. cbn [andb].
  unfold offer_saved_answer. rewrite Hgrid.
  unfold bind, get_ud, modify_ud, ret, emit, set_confirm_handler_pattern, return_.
  cbn [ud _CURRENT_ANSWER set_CURRENT_ANSWER history dict_set].
  rewrite String.eqb_refl. cbn [save_pref_eqb].
  eexists. split; [reflexivity|]. split; reflexivity.
Qed.

Lemma all_answered_spelled (m : list (string * option value)) :
  ~ In None (map snd m) -> has_unanswered m = false.
Proof.
  unfold has_unanswered. induction m as [|[row [v|]] m IH]; cbn [existsb map snd In orb].
  - reflexivity.
  - intros H. apply IH. intros Hin. apply H. now right.
  - intros H. exfalso. apply H. now left.
Qed.

(** What a confirmed answer hands to the driver. *)
Lemma submit_answer_body_confirmed d w a q p s :
  TFMarkup_confirm E d = Some true ->
  _CURRENT_ANSWER (ud w) = Some a ->
  (forall m, a = Grid m -> has_unanswered m = false) ->
  _CURRENT_QUESTION (ud w) = Some (AQuestion q) ->
  _PROCESSOR (ud w) = Some (Active p) ->
  submission_of a = Some s ->
  filter is_submission (history (snd (run (_submit_answer_body (Some d)) w)))
    = driver (call_answer_question s) :: filter is_submission (history w).
Proof.
  intros Hd Ha Hfull Hq Hp Hs.
  destruct (answer_question E p s) as [r p'] eqn:Hr.
  pose proof (submit_active a s p) as Hsubmit.
  unfold run, _submit_answer_body. unfold bind at 1. unfold get_ud at 1.
  rewrite Ha, Hq, Hp.
  unfold bind at 1. unfold emit at 1. unfold bind at 1. unfold modify_ud at 1.
  unfold bind at 1. unfold set_confirm_handler_pattern at 1. rewrite Hd.
  assert (Hgo : forall w0,
            _PROCESSOR (ud w0) = Some (Active p) ->
            filter is_submission
              (history
                 (snd (match (_show_loading_screen ;;
                              result <- _submit_to_google_forms (submission_args a) ;;
                              (if truthy result then save_region q else return_ _STOPPING)) w0
                       with
                       | (Normal st, w3) => (Return st, w3)
                       | (Exit x, w3) => (x, w3)
                       end)))
            = driver (call_answer_question s) :: filter is_submission (history w0)).
  { intros w0 Hp0. unfold _show_loading_screen. unfold bind at 1. unfold emit at 1.
    unfold bind at 1.
    rewrite (Hsubmit _ r p' Hs); [|exact Hp0|exact Hr].
    destruct (truthy r).
    - unfold save_region, _remove_current_pointers.
      evaluate; cbn [history filter is_submission]; reflexivity.
    - reflexivity. }
  destruct a as [v|m].
  - etransitivity; [apply Hgo; exact Hp | reflexivity].
  - rewrite (Hfull m eq_refl).
    etransitivity; [apply Hgo; exact Hp | reflexivity].
Qed.

(** C5. When the question has no exact entry in the local preferences,
    a call of [_obtain_question] submits nothing to the driver and does
    not go on to another question, whatever the question and the policy of
    the entry that the close-match scan finds.  A non-empty answer found
    by the scan is shown as a recommendation with the yes/no markup, in
    state [_CONFIRM_SUBMIT]: for a question that is not a grid the answer
    itself, which becomes the answer in progress when there is none, and
    which the driver gets when the user confirms (the values of a grid in
    the order of its rows, the parts of a tuple in their order, a text
    alone); for a new grid question and a saved grid, the saved answer of
    the first row.  [_submit_answer] submits nothing unless the user
    confirms. *)
Theorem close_match_is_only_recommended
    (fuel : nat) (w w1 : world) (q : Question E)
    (sp : save_prefs) (prefs : list (dict_key * question_pref)) :
  prepare_question fuel w = (Normal q, w1) ->
  _SAVE_PREFS (ud w) = Some sp ->
  _LOCAL_SAVE_PREF sp = Some prefs ->
  dict_get dict_key_eqb (KIdentity (get_pref_key E q)) prefs = None ->
  (forall x w2,
     _obtain_question fuel true w = (x, w2) ->
     run (_obtain_question_body fuel true) w = (x, w2) /\
     filter is_submission (history w2) = filter is_submission (history w) /\
     (forall tp, x <> TailCall tp) /\
     (x = Return _CONFIRM_SUBMIT ->
        exists sub text,
          history w2 =
            edit_message_text (question_prompt q sub (answer_recommendation text))
              TF_markup :: history w1)) /\
  (forall k matched a,
     close_match (get_pref_key E q) (map fst prefs) = Matched k ->
     dict_get dict_key_eqb k prefs = Some matched ->
     _ANSWER_KEY matched = Some a ->
     answer_truthy a = true ->
     is_BaseOptionGridQuestion E q = false ->
     exists w2,
       _obtain_question fuel true w = (Return _CONFIRM_SUBMIT, w2) /\
       history w2 =
         edit_message_text
           (question_prompt q None (answer_recommendation (format_answer a)))
           TF_markup :: history w1 /\
       (_CURRENT_ANSWER (ud w) = None ->
        _CURRENT_ANSWER (ud w2) = Some a /\
        forall d,
          TFMarkup_confirm E d = Some true ->
          (forall m, a = Grid m -> ~ In None (map snd m)) ->
          exists first rest s,
            (forall m, a = Grid m -> map snd m = first :: rest) /\
            (forall parts, a = Plain (Tuple parts) ->
               map (fun part => Some (Str part)) parts = first :: rest) /\
            (forall text, a = Plain (Str text) -> [Some (Str text)] = first :: rest) /\
            (first = Some (Str (get_skip E)) \/ first = Some (Str "/skip") -> s = Skip) /\
            (first <> Some (Str (get_skip E)) -> first <> Some (Str "/skip") ->
             s = Answers (first :: rest)) /\
            filter is_submission (history (snd (run (_submit_answer_body (Some d)) w2)))
              = driver (call_answer_question s) :: filter is_submission (history w))) /\
  (forall k matched saved first_row others,
     close_match (get_pref_key E q) (map fst prefs) = Matched k ->
     dict_get dict_key_eqb k prefs = Some matched ->
     _ANSWER_KEY matched = Some (Grid saved) ->
     saved <> [] ->
     is_BaseOptionGridQuestion E q = true ->
     _CURRENT_ANSWER (ud w) = None ->
     get_sub_questions E q = first_row :: others ->
     NoDup (first_row :: others) ->
     exists w2,
       _obtain_question fuel true w = (Return _CONFIRM_SUBMIT, w2) /\
       history w2 =
         edit_message_text
           (question_prompt q (Some first_row)
              (answer_recommendation
                 (format_value (match dict_get String.eqb first_row saved with
                                | Some v => v
                                | None => None
                                end))))
           TF_markup :: history w1 /\
       _CURRENT_ANSWER (ud w2) =
         Some (Grid ((first_row,
                      match dict_get String.eqb first_row saved with
                      | Some v => v
                      | None => None
                      end) :: map (fun row => (row, None)) others))) /\
  (forall fuel' data w',
     (forall d, data = Some d -> TFMarkup_confirm E d <> Some true) ->
     filter is_submission (history (snd (_submit_answer fuel' data w')))
       = filter is_submission (history w')).
Proof.
  intros Hprep Hsp Hlocal Hexact.
  destruct (prepare_question_post _ _ _ _ Hprep) as [[p Hp] Hq].
  destruct (prepare_question_frame _ _ _ _ Hprep) as ((F1 & F2 & _) & _ & Fs & _).
  assert (Hsp1 : _SAVE_PREFS (ud w1) = Some sp) by congruence.
  pose proof (stored_answer_close_match q w1 sp prefs Hsp1 Hlocal Hexact) as Hstored.
  assert (Hbody : forall x w2,
            run (_obtain_question_body fuel true) w = (x, w2) ->
            no_new_submission w w2 /\
            (forall tp, x <> TailCall tp) /\
            (x = Return _CONFIRM_SUBMIT ->
               exists sub text,
                 history w2 =
                   edit_message_text (question_prompt q sub (answer_recommendation text))
                     TF_markup :: history w1)).
  { intros x w2. rewrite run_obtain_question_body, Hprep, Hstored.
    destruct (close_match (get_pref_key E q) (map fst prefs)) as [|k|].
    - cbn [fst snd]. intros H.
      destruct (display_question_exits _ _ _ _ _ _ _ H) as (D1 & D2 & D3).
      unfold no_new_submission. repeat split; auto; congruence.
    - cbn [fst snd]. intros H.
      destruct (display_question_exits _ _ _ _ _ _ _ H) as (D1 & D2 & D3).
      unfold no_new_submission. repeat split; auto; congruence.
    - cbn. intros H; inversion H; subst; clear H.
      unfold no_new_submission. cbn. repeat split; auto; discriminate. }
  assert (Hsame : _obtain_question fuel true w = run (_obtain_question_body fuel true) w).
  { apply obtain_question_no_tail_call. intros tp.
    destruct (run (_obtain_question_body fuel true) w) as [x w2] eqn:Hrun.
    destruct (Hbody x w2 eq_refl) as (_ & H & _). apply H. }
  split; [|split; [|split]].
  - intros x w2 Hx. rewrite Hsame in Hx. split; auto. exact (Hbody x w2 Hx).
  - intros k matched a Hk Hget Ha Htruthy Hgrid.
    destruct (offer_answer_to_plain_question q a None w1 Hgrid Htruthy)
      as (w2 & Hrun & Hhist & Hanswer & Hproc & Hquestion).
    exists w2. split; [|split; [exact Hhist|]].
    { rewrite Hsame, run_obtain_question_body, Hprep, Hstored, Hk, Hget, Ha.
      exact Hrun. }
    intros Hnone. rewrite F2, Hnone in Hanswer. split; [exact Hanswer|].
    intros d Hd Hfull.
    destruct (submission_of_truthy _ Htruthy) as [s Hs].
    destruct (submission_of_spelled _ _ Hs)
      as (first & rest & Hg & Ht & Htext & Hskip & Hall).
    exists first, rest, s.
    split; [exact Hg|]. split; [exact Ht|]. split; [exact Htext|].
    split; [exact Hskip|]. split; [exact Hall|].
    rewrite (submit_answer_body_confirmed d w2 a q p s Hd Hanswer); auto.
    + rewrite Hhist. cbn [filter is_submission]. now rewrite Fs.
    + intros m ->. apply all_answered_spelled. now apply Hfull.
    + congruence.
    + congruence.
  - intros k matched saved first_row others Hk Hget Ha Hsaved Hgrid Hnone Hrows Hnd.
    assert (Hnone1 : _CURRENT_ANSWER (ud w1) = None) by congruence.
    destruct (offer_answer_to_grid_question q saved first_row others w1
                Hgrid Hsaved Hnone1 Hrows Hnd) as (w2 & Hrun & Hhist & Hanswer).
    exists w2. split; [|split; [exact Hhist | exact Hanswer]].
    rewrite Hsame, run_obtain_question_body, Hprep, Hstored, Hk, Hget, Ha.
    exact Hrun.
  - intros fuel' data w'. apply submit_answer_unconfirmed.
Qed.

(** *** Rejecting a grid sub-answer *)

Lemma dict_get_app_notin {V} (k : string) (before rest : list (string * V)) :
  ~ In k (map fst before) ->
  dict_get String.eqb k (before ++ rest)%list = dict_get String.eqb k rest.
Proof.
  induction before as [|[k' v'] before IH]; simpl; auto.
  intros Hn. destruct (String.eqb_spec k k') as [->|Hne].
  - exfalso. apply Hn. now left.
  - apply IH. intros Hin. apply Hn. now right.
Qed.

Lemma dict_set_app_notin {V} (k : string) (v v0 : V) (before after : list (string * V)) :
  ~ In k (map fst before) ->
  dict_set String.eqb k v (before ++ (k, v0) :: after)%list
    = (before ++ (k, v) :: after)%list.
Proof.
  induction before as [|[k' v'] before IH]; simpl.
  - intros _. now rewrite String.eqb_refl.
  - intros Hn. destruct (String.eqb_spec k k') as [->|Hne].
    + exfalso. apply Hn. now left.
    + f_equal. apply IH. intros Hin. apply Hn. now right.
Qed.

Lemma find_skip {A} (f : A -> bool) (l rest : list A) :
  Forall (fun x => f x = false) l -> find f (l ++ rest)%list = find f rest.
Proof.
  induction 1 as [|x l Hx _ IH]; simpl; auto. now rewrite Hx.
Qed.

Lemma NoDup_app_head {A} (l1 l2 : list A) (x : A) :
  NoDup (l1 ++ x :: l2)%list -> ~ In x l1 /\ ~ In x l2 /\ NoDup l2 /\
  forall y, In y l2 -> ~ In y l1.
Proof.
  intros H. pose proof (NoDup_remove _ _ _ H) as [Hnd Hni].
  split; [|split; [|split]].
  - intros Hin. apply Hni. apply in_or_app. now left.
  - intros Hin. apply Hni. apply in_or_app. now right.
  - now apply NoDup_app_remove_l in Hnd.
  - clear Hni Hnd. induction l1 as [|z l1 IH]; simpl in *; auto.
    inversion H as [|? ? Hz Hrest]; subst. intros y Hy [->|Hy1].
    + apply Hz. apply in_or_app. right. now right.
    + now apply (IH Hrest y).
Qed.

Lemma unanswered_not_answered (m after : list (string * option value)) before k v :
  m = (before ++ (k, v) :: after)%list ->
  NoDup (map fst m) ->
  Forall (fun kv => snd kv = None) after ->
  Forall (fun x => is_answered m x = false) (rev (map fst after)).
Proof.
  intros -> Hnd Hafter. apply Forall_rev. rewrite Forall_forall. intros x Hx.
  rewrite map_app in Hnd. cbn [map fst] in Hnd.
  destruct (NoDup_app_head _ _ _ Hnd) as (Hk1 & Hk2 & Hnd2 & Hsep).
  unfold is_answered. rewrite dict_get_app_notin by now apply Hsep.
  cbn [dict_get]. destruct (String.eqb_spec x k) as [->|Hne]; [contradiction|].
  clear - Hafter Hx. induction after as [|[k' v'] after IH]; simpl in *; [contradiction|].
  inversion Hafter as [|? ? Hv Hrest]; subst. cbn in Hv. subst v'.
  destruct (String.eqb_spec x k'); auto.
  destruct Hx as [->|Hx]; [congruence|]. now apply IH.
Qed.

(** The rejection loop resets the last answer that is filled and nothing
    else. *)
Lemma reset_last_answer_spec (before after : list (string * option value)) k v :
  NoDup (map fst (before ++ (k, Some v) :: after)%list) ->
  Forall (fun kv => snd kv = None) after ->
  reset_last_answer (before ++ (k, Some v) :: after)%list
    = (before ++ (k, None) :: after)%list.
Proof.
  intros Hnd Hafter. unfold reset_last_answer.
  pose proof (unanswered_not_answered _ after before k (Some v) eq_refl Hnd Hafter) as Hskip.
  rewrite map_app in Hnd. cbn [map fst] in Hnd.
  destruct (NoDup_app_head _ _ _ Hnd) as (Hk1 & _).
  rewrite map_app. cbn [map fst].
  rewrite rev_app_distr. cbn [rev]. rewrite <- app_assoc. cbn [app].
  rewrite (find_skip _ _ _ Hskip). cbn [find].
  unfold is_answered at 1. rewrite dict_get_app_notin by assumption.
  cbn [dict_get]. rewrite String.eqb_refl.
  now apply dict_set_app_notin.
Qed.

Lemma first_unanswered_after_reset (before after : list (string * option value)) k :
  exists sub,
    first_unanswered (before ++ (k, None) :: after)%list = Some sub /\
    (Forall (fun kv => snd kv <> None) before -> sub = k).
Proof.
  induction before as [|[k' [v'|]] before IH]; simpl.
  - exists k. auto.
  - destruct IH as (sub & Hsub & Hk). exists sub. split; auto.
    intros H. inversion H; auto.
  - exists k'. split; auto. intros H. inversion H as [|? ? Hv _]. now elim Hv.
Qed.

(** C6. When the user rejects the confirmation for a grid question whose
    mapping has a filled entry, [_submit_answer] resets exactly the last
    filled sub-answer to [None], leaves every other entry as it is, calls
    the driver for nothing and asks for input on the same question again
    (on the sub-question just cleared when all earlier ones are
    answered). *)
Theorem rejecting_clears_last_sub_answer
    (fuel : nat) (w : world) (d : string) (q : Question E) (p : FormProcessor E)
    (before after : list (string * option value)) (k : string) (v : value) :
  TFMarkup_confirm E d = Some false ->
  _CURRENT_QUESTION (ud w) = Some (AQuestion q) ->
  is_BaseOptionGridQuestion E q = true ->
  _PROCESSOR (ud w) = Some (Active p) ->
  _CURRENT_ANSWER (ud w) = Some (Grid (before ++ (k, Some v) :: after)%list) ->
  Forall (fun kv => snd kv = None) after ->
  NoDup (map fst (before ++ (k, Some v) :: after)%list) ->
  exists w2 sub,
    _submit_answer fuel (Some d) w = (Return _SKIP_OR_ANSWER, w2) /\
    _CURRENT_ANSWER (ud w2) = Some (Grid (before ++ (k, None) :: after)%list) /\
    _CURRENT_QUESTION (ud w2) = Some (AQuestion q) /\
    _PROCESSOR (ud w2) = Some (Active p) /\
    first_unanswered (before ++ (k, None) :: after)%list = Some sub /\
    (Forall (fun kv => snd kv <> None) before -> sub = k) /\
    history w2 =
      edit_message_text
        (question_prompt q (Some sub)
           (please_answer (is_BaseOptionQuestion E q) (negb (is_required E q))))
        (match new_markup q with
         | Some m => keyboard (get_markup E m)
         | None => no_markup
         end)
      :: edit_message_text please_wait no_markup
      :: callback_answer None
      :: history w.
Proof.
  intros Hconfirm Hq Hgrid Hp Ha Hafter Hnd.
  destruct (first_unanswered_after_reset before after k) as (sub & Hsub & Hk).
  destruct w as [[sp pr cq ca cm cj] jq ap cp h]. cbn in Hq, Hp, Ha. subst pr cq ca.
  assert (Hbody : run (_submit_answer_body (Some d))
                    {| ud := {| _SAVE_PREFS := sp; _PROCESSOR := Some (Active p);
                                _CURRENT_QUESTION := Some (AQuestion q);
                                _CURRENT_ANSWER :=
                                  Some (Grid (before ++ (k, Some v) :: after)%list);
                                _CURRENT_MARKUP := cm; _CURRENT_JOB := cj |};
                       job_queue := jq; answer_handler_pattern := ap;
                       confirm_handler_pattern := cp; history := h |}
                  = (TailCall false,
                     {| ud := {| _SAVE_PREFS := sp; _PROCESSOR := Some (Active p);
                                 _CURRENT_QUESTION := Some (AQuestion q);
                                 _CURRENT_ANSWER :=
                                   Some (Grid (before ++ (k, None) :: after)%list);
                                 _CURRENT_MARKUP := None; _CURRENT_JOB := cj |};
                        job_queue := jq; answer_handler_pattern := ap;
                        confirm_handler_pattern := "^$";
                        history := callback_answer None :: h |})).
  { unfold run, _submit_answer_body. unfold bind, get_ud, emit, modify_ud,
      set_confirm_handler_pattern, tail_call, ret. cbn. rewrite Hconfirm. cbn.
    now rewrite (reset_last_answer_spec _ _ _ _ Hnd Hafter). }
  unfold _submit_answer. rewrite Hbody. cbn [continue_with].
  destruct (obtain_question_not_processed fuel
              {| ud := {| _SAVE_PREFS := sp; _PROCESSOR := Some (Active p);
                          _CURRENT_QUESTION := Some (AQuestion q);
                          _CURRENT_ANSWER :=
                            Some (Grid (before ++ (k, None) :: after)%list);
                          _CURRENT_MARKUP := None; _CURRENT_JOB := cj |};
                 job_queue := jq; answer_handler_pattern := ap;
                 confirm_handler_pattern := "^$";
                 history := callback_answer None :: h |}) as (-> & _).
  unfold run, _obtain_question_body, prepare_question, obtain_processor,
    obtain_next_question, _show_loading_screen, stored_answer, display_question,
    grid_sub_question, prompt_for_input.
  unfold bind, get_ud, emit, modify_ud, set_answer_handler_pattern, return_, ret.
  cbn. rewrite Hgrid. cbn. rewrite Hsub. cbn.
  destruct (new_markup q) as [m|]; cbn; eexists _, sub;
    (split; [reflexivity|]); cbn; repeat split; auto.
Qed.

(** *** Filling and clearing in order *)

Lemma fill_then_reset (skip_label : string) (result : value)
    (filled rest : list (string * option value)) (k : string) :
  Forall (fun kv => snd kv <> None) filled ->
  Forall (fun kv => snd kv = None) rest ->
  NoDup (map fst (filled ++ (k, None) :: rest)%list) ->
  reset_last_answer
    (fill_first_unanswered skip_label result (filled ++ (k, None) :: rest)%list)
  = (filled ++ (k, None) :: rest)%list.
Proof.
  intros Hfilled Hrest Hnd. unfold fill_first_unanswered.
  destruct (first_unanswered_after_reset filled rest k) as (sub & -> & Hk).
  rewrite (Hk Hfilled).
  assert (Hnotin : ~ In k (map fst filled)).
  { rewrite map_app in Hnd. cbn [map fst] in Hnd.
    now destruct (NoDup_app_head _ _ _ Hnd). }
  rewrite dict_set_app_notin by assumption.
  apply reset_last_answer_spec; auto.
  rewrite map_app in *. exact Hnd.
Qed.

(** *** Stale questions *)

Lemma iter_one_retry n h : Nat.iter n one_retry (one_retry h) = one_retry (Nat.iter n one_retry h).
Proof. induction n; simpl; congruence. Qed.

Lemma refresh_loop_follows_driver result q p n g r' q' p' :
  refresh_run result q p n g r' q' p' ->
  forall fuel w,
    n + (if g then 1 else 0) <= fuel ->
    _CURRENT_QUESTION (ud w) = Some (AQuestion q) ->
    _PROCESSOR (ud w) = Some (Active p) ->
    exists w',
      refresh_loop fuel result w = (Normal r', w') /\
      r' <> Some false /\
      _CURRENT_QUESTION (ud w') = Some (AQuestion q') /\
      _PROCESSOR (ud w') = Some (Active p') /\
      history w' = retries_history n g (history w).
Proof.
  induction 1 as [r q p Hr | q p p1 Hrefresh
                 | q p e p1 r q2 p2 n g r' q' p' Hrefresh Hinfo _ IH];
    intros fuel w Hfuel Hq Hp.
  - exists w. destruct fuel; destruct r as [[|]|]; try congruence; cbn; auto.
  - destruct fuel as [|fuel]; [cbn in Hfuel; lia|].
    cbn [refresh_loop]. unfold with_processor, bind, get_ud.
    rewrite Hp, Hrefresh. cbn.
    eexists. split; [reflexivity|]. cbn. repeat split; auto. discriminate.
  - destruct fuel as [|fuel]; [cbn in Hfuel; lia|].
    cbn [refresh_loop]. unfold with_processor, question_set_element, question_get_info.
    unfold bind, get_ud, modify_ud, emit, ret. rewrite Hp, Hrefresh. cbn. rewrite Hq. cbn.
    rewrite Hinfo. cbn.
    match goal with |- exists w', refresh_loop fuel r ?W = _ /\ _ =>
      destruct (IH fuel W) as (w' & Hrun & Hne & Hq' & Hp' & Hh) end;
      try reflexivity; [cbn in Hfuel |- *; lia|].
    exists w'. rewrite Hrun. repeat split; auto.
    rewrite Hh. unfold retries_history. cbn [ud history Nat.iter].
    f_equal. change (driver call_get_info :: driver call_set_question_element
                     :: driver call_refresh_section :: history w)
      with (one_retry (history w)).
    apply iter_one_retry.
Qed.

(** C7, as the code has it.  When the first retrieval of the metadata of a
    new question reports a stale element, [_obtain_question] asks the
    driver to re-discover the element and retrieves again, as many times
    as the retrieval reports stale and the driver finds the element: the
    number [n] of retries is the driver's.  It gives up, with a bug
    message and [_STOPPING], when a re-discovery finds nothing or a
    retrieval ends with a failure that is not stale.  The question itself
    is fetched once. *)
Theorem stale_question_retried_while_rediscovered
    (fuel : nat) (start : bool) (w : world)
    (p0 p1 p p' : FormProcessor E) (q0 q q' : Question E)
    (r0 r' : option bool) (n : nat) (gave_up : bool) :
  _CURRENT_QUESTION (ud w) = None ->
  _PROCESSOR (ud w) = Some (Active p0) ->
  get_question E p0 start = (QQuestion q0, p1) ->
  get_info E q0 p1 = (r0, q, p) ->
  refresh_run r0 q p n gave_up r' q' p' ->
  n + (if gave_up then 1 else 0) <= fuel ->
  exists w',
    obtain_next_question fuel start w =
      (if truthy r' then Normal q' else Exit (Return _STOPPING), w') /\
    r' <> Some false /\
    history w' =
      ((if truthy r' then [] else [send_bug_message]) ++
       retries_history n gave_up
         (driver call_get_info :: driver (call_get_question start) :: history w))%list.
Proof.
  intros Hnone Hp Hget Hinfo Hrun Hfuel.
  unfold obtain_next_question. unfold bind at 1. unfold get_ud at 1. rewrite Hnone.
  unfold bind at 1. unfold with_processor. unfold bind at 1. unfold get_ud at 1.
  rewrite Hp, Hget. unfold bind at 1. unfold modify_ud at 1. unfold bind at 1.
  unfold emit at 1. unfold ret at 1. unfold bind at 1. unfold modify_ud at 1.
  unfold bind at 1. unfold question_get_info. unfold bind at 1. unfold get_ud at 1.
  cbn [ud _CURRENT_QUESTION _PROCESSOR set_CURRENT_QUESTION set_PROCESSOR].
  rewrite Hinfo. unfold bind at 1. unfold modify_ud at 1. unfold bind at 1.
  unfold emit at 1. unfold ret at 1. unfold bind at 1.
  match goal with |- exists w', match refresh_loop fuel r0 ?W with _ => _ end = _ /\ _ =>
    destruct (refresh_loop_follows_driver _ _ _ _ _ _ _ _ Hrun fuel W Hfuel)
      as (w1 & Hloop & Hne & Hq' & Hp' & Hh) end; try reflexivity.
  rewrite Hloop. cbn [ud history] in Hh.
  destruct (truthy r') eqn:Ht.
  - unfold bind, get_ud. rewrite Hq'. exists w1. repeat split; auto.
  - unfold bind, emit, return_. eexists. split; [reflexivity|]. split; [exact Hne|].
    cbn [history app]. now rewrite Hh.
Qed.

(** *** What a failed call leaves in the markup field *)

Lemma display_question_markup tp q ans pref w x w2 :
  run (display_question tp q ans pref) w = (x, w2) ->
  x = Return _STOPPING ->
  _CURRENT_MARKUP (ud w2) = _CURRENT_MARKUP (ud w).
Proof.
  unfold run, display_question, grid_sub_question, offer_saved_answer, prompt_for_input.
  evaluate.
  all: intros H; inversion H; subst; clear H.
  all: intros Hx; try discriminate Hx.
  all: cbn; rewrite ?CURRENT_MARKUP_set_local_prefs; auto.
Qed.

Lemma stored_answer_markup tp q w o w2 :
  stored_answer tp q w = (o, w2) ->
  _CURRENT_MARKUP (ud w2) = _CURRENT_MARKUP (ud w).
Proof.
  unfold stored_answer, _submit_to_google_forms, with_processor, _remove_current_pointers.
  evaluate.
  all: intros H; inversion H; subst; clear H; reflexivity.
Qed.

Lemma obtain_question_body_markup fuel tp w x w2 :
  run (_obtain_question_body fuel tp) w = (x, w2) ->
  (x = Return _STOPPING \/ exists tp', x = TailCall tp') ->
  _CURRENT_MARKUP (ud w2) = _CURRENT_MARKUP (ud w).
Proof.
  rewrite run_obtain_question_body.
  pose proof (frame_prepare_question w fuel w (prepare_frame_refl w)) as F.
  destruct (prepare_question fuel w) as [[q|x1] w1];
    destruct F as ((_ & _ & F3 & _) & _).
  - destruct (stored_answer tp q w1) as [[ap|x2] w3] eqn:Hs;
      pose proof (stored_answer_markup _ _ _ _ _ Hs) as S3.
    + intros Hd [Hx|[tp' Hx]].
      * rewrite (display_question_markup _ _ _ _ _ _ _ Hd Hx). congruence.
      * destruct (display_question_exits _ _ _ _ _ _ _ Hd) as (_ & Hn & _).
        exfalso. now apply (Hn tp').
    + intros H _. inversion H; subst. congruence.
  - intros H _. inversion H; subst. congruence.
Qed.

Lemma obtain_question_stopping_markup fuel : forall tp w w2,
  _obtain_question fuel tp w = (Return _STOPPING, w2) ->
  _CURRENT_MARKUP (ud w2) = _CURRENT_MARKUP (ud w).
Proof.
  induction fuel as [|fuel IH]; intros tp w w2; cbn [_obtain_question].
  - destruct (run (_obtain_question_body 0 tp) w) as [[s|tp'|e|] w1] eqn:Hb;
      intros H; inversion H; subst.
    apply (obtain_question_body_markup _ _ _ _ _ Hb). now left.
  - destruct (run (_obtain_question_body (S fuel) tp) w) as [[s|tp'|e|] w1] eqn:Hb;
      intros H.
    + inversion H; subst.
      apply (obtain_question_body_markup _ _ _ _ _ Hb). now left.
    + rewrite (IH _ _ _ H).
      apply (obtain_question_body_markup _ _ _ _ _ Hb). right. eauto.
    + discriminate H.
    + discriminate H.
Qed.

(** *** Failures of a scheduled run *)

(** C8, as the code has it.  When a scheduled job fires on an idle
    session and its traversal fails ([_obtain_question] returns
    [_STOPPING], whatever the failure: no form, an unreadable question, a
    refused submission, a save policy that is not an option), the job
    leaves the session released: [_PROCESSOR] holds a form link again (the
    one read back from the browser it closed, when a driver was running),
    no driver is running, [_CURRENT_QUESTION] and [_CURRENT_ANSWER] are
    gone.  [_CURRENT_MARKUP] is left as the job found it. *)
Theorem failed_job_releases_driver (fuel : nat) (w w1 : world) (link : string) :
  _PROCESSOR (ud w) = Some (IdleLink link) ->
  status (history w) = never_started \/ status (history w) = released link ->
  _obtain_question fuel true w = (Return _STOPPING, w1) ->
  exists w2 l,
    _auto_submit fuel w = (job_done, w2) /\
    _PROCESSOR (ud w2) = Some (IdleLink l) /\
    (status (history w2) = never_started \/ status (history w2) = released l) /\
    _CURRENT_QUESTION (ud w2) = None /\
    _CURRENT_ANSWER (ud w2) = None /\
    _CURRENT_MARKUP (ud w2) = _CURRENT_MARKUP (ud w) /\
    (forall p, _PROCESSOR (ud w1) = Some (Active p) ->
       l = get_link E (close_browser E p) /\
       history w2 =
         edit_message_text job_error (ok_button _SET_REMINDER)
         :: driver (call_get_link l) :: driver call_close_browser :: history w1).
Proof.
  intros Hslot Hstatus Hrun.
  assert (Hinv : driver_field_inv w).
  { unfold driver_field_inv. now rewrite Hslot. }
  pose proof (field_obtain_question fuel true w Hinv) as Hinv1.
  rewrite Hrun in Hinv1. cbn [snd] in Hinv1.
  pose proof (obtain_question_stopping_markup _ _ _ _ Hrun) as Hmarkup.
  unfold _auto_submit. rewrite Hslot, Hrun.
  unfold driver_field_inv in Hinv1.
  unfold job_failed, _remove_current_pointers, release_processor.
  unfold bind, get_ud, modify_ud, emit, set_answer_handler_pattern, ret.
  cbn [ud _PROCESSOR set_CURRENT_ANSWER set_CURRENT_QUESTION].
  destruct (_PROCESSOR (ud w1)) as [[l|p|]|] eqn:Hp1; try contradiction.
  - eexists _, l. split; [reflexivity|]. cbn. repeat split; auto; discriminate.
  - eexists _, (get_link E (close_browser E p)). split; [reflexivity|]. cbn.
    repeat split; auto;
      match goal with H : Some (Active _) = Some (Active _) |- _ =>
        inversion H; subst; reflexivity end.
Qed.

(** *** Scheduling *)

(** X2. A start date whose derived job name is already in the queue is turned
    down with an alert; the queue and the pending job stay as they are. *)
Lemma duplicate_job_name_rejected (w : world) (d : string) (markup markup' : Markup E)
    (current_job result : string) (existing : job) :
  d <> "" ->
  _CURRENT_MARKUP (ud w) = Some (AMarkup markup) ->
  is_DatetimeMarkup E markup = true ->
  _CURRENT_JOB (ud w) = Some (JobName current_job) ->
  perform_action E markup d = (AStr result, markup') ->
  result <> get_required_warning E ->
  In existing (job_queue w) ->
  job_name existing = current_job ++ ", starting from " ++ result ->
  exists w2,
    _start_date (Some d) w = (Exit (Return _SELECT_START), w2) /\
    job_queue w2 = job_queue w /\
    _CURRENT_JOB (ud w2) = Some (JobName current_job) /\
    history w2 =
      callback_answer (Some "ALERT: An identical job already exists!") :: history w.
Proof.
  intros Hd Hm Hdt Hj Hact Hwarn Hin Hname.
  unfold _start_date. unfold bind at 1. unfold get_ud at 1. rewrite Hm, Hj.
  apply String.eqb_neq in Hd, Hwarn. rewrite Hd, Hdt. cbn [negb andb].
  rewrite Hact. unfold bind at 1. unfold modify_ud at 1. rewrite Hwarn.
  unfold bind at 1. unfold get_job_queue at 1. cbn [job_queue].
  destruct (get_jobs_by_name (current_job ++ ", starting from " ++ result) (job_queue w))
    as [|j js] eqn:Hjobs.
  - exfalso. assert (Hf : In existing (get_jobs_by_name
                                        (current_job ++ ", starting from " ++ result)
                                        (job_queue w))).
    { unfold get_jobs_by_name. apply filter_In. split; auto.
      rewrite Hname. apply String.eqb_refl. }
    rewrite Hjobs in Hf. contradiction.
  - unfold bind, emit, return_. eexists. split; [reflexivity|]. cbn. auto.
Qed.

(** X3. A confirmed job is added to the queue once, under its name, with the
    trigger of its frequency. *)
Lemma confirmed_job_registered_once (w : world) (d name freq start : string)
    (start_datetime : datetime) (t : trigger) :
  d <> "" ->
  _CURRENT_JOB (ud w) = Some (JobName name) ->
  Py.split ", starting from " name = [freq; start] ->
  TFMarkup_confirm E d = Some true ->
  strptime E start = Some start_datetime ->
  trigger_for freq start_datetime = Some t ->
  exists w2,
    _confirm_add (Some d) w = (Exit (Return _CANCEL), w2) /\
    job_queue w2 = (job_queue w ++ [{| job_name := name; job_trigger := t |}])%list /\
    _CURRENT_JOB (ud w2) = None.
Proof.
  intros Hd Hj Hsplit Hconfirm Hparse Htrigger.
  unfold _confirm_add. unfold bind at 1. unfold get_ud at 1. rewrite Hj.
  apply String.eqb_neq in Hd. rewrite Hd, Hsplit.
  unfold bind at 1. unfold emit at 1. rewrite Hconfirm, Hparse, Htrigger.
  unfold bind, add_job, modify_ud, emit, return_. eexists. split; [reflexivity|].
  cbn. auto.
Qed.

(** The trigger of each frequency: the hourly, weekly and custom ones
    start at the chosen date and time; the daily one keeps the time of
    day only, the monthly one the day of the month and the time. *)
Lemma trigger_for_hourly (start_datetime : datetime) :
  trigger_for (get_hourly E) start_datetime = Some (run_repeating 3600 start_datetime).
Proof. unfold trigger_for. now rewrite String.eqb_refl. Qed.

Lemma trigger_for_daily (freq : string) (start_datetime : datetime) :
  freq = get_daily E -> freq <> get_hourly E ->
  trigger_for freq start_datetime = Some (run_daily (time_of start_datetime)).
Proof.
  intros -> Hh. unfold trigger_for. apply String.eqb_neq in Hh.
  now rewrite Hh, String.eqb_refl.
Qed.

Lemma trigger_for_weekly (freq : string) (start_datetime : datetime) :
  freq = get_weekly E -> freq <> get_hourly E -> freq <> get_daily E ->
  trigger_for freq start_datetime = Some (run_repeating 604800 start_datetime).
Proof.
  intros -> Hh Hd. unfold trigger_for. apply String.eqb_neq in Hh, Hd.
  now rewrite Hh, Hd, String.eqb_refl.
Qed.

Lemma trigger_for_monthly (freq : string) (start_datetime : datetime) :
  freq = get_monthly E -> freq <> get_hourly E -> freq <> get_daily E ->
  freq <> get_weekly E ->
  trigger_for freq start_datetime
    = Some (run_monthly (time_of start_datetime) (day start_datetime)).
Proof.
  intros -> Hh Hd Hw. unfold trigger_for. apply String.eqb_neq in Hh, Hd, Hw.
  now rewrite Hh, Hd, Hw, String.eqb_refl.
Qed.


(** *** Job names: written by [_start_date], read by [_confirm_add] *)

Lemma prefix_app_cases (s x y : string) :
  String.prefix s (x ++ y) = true ->
  String.prefix s x = true \/ exists r, s = x ++ r /\ r <> "" /\ String.prefix r y = true.
Proof.
  revert x. induction s as [|c s IH]; intros x H.
  - left. destruct x; reflexivity.
  - destruct x as [|d x]; cbn [String.append] in *.
    + right. exists (String c s). repeat split; auto. discriminate.
    + cbn [String.prefix] in *. destruct (Ascii.ascii_dec c d) as [->|]; try discriminate.
      destruct (IH _ H) as [Hp|(r & -> & Hr & Hp)]; [now left|].
      right. exists r. auto.
Qed.

Lemma prefix_app_short (r x y : string) :
  String.prefix r (x ++ y) = true -> String.length r <= String.length x ->
  String.prefix r x = true.
Proof.
  revert x. induction r as [|c r IH]; intros x H Hl; [destruct x; reflexivity|].
  destruct x as [|d x]; cbn [String.length] in Hl; [lia|].
  cbn [String.append String.prefix] in *.
  destruct (Ascii.ascii_dec c d); try discriminate. apply IH; auto. lia.
Qed.

Lemma prefix_refl_app (s y : string) : String.prefix s (s ++ y) = true.
Proof.
  induction s as [|c s IH]; cbn [String.append String.prefix]; [destruct y; reflexivity|].
  destruct (Ascii.ascii_dec c c); [exact IH|congruence].
Qed.

Lemma length_append (x y : string) :
  String.length (x ++ y) = String.length x + String.length y.
Proof. induction x; simpl; congruence. Qed.

Lemma append_empty_r (x : string) : x ++ "" = x.
Proof. induction x; cbn [String.append]; congruence. Qed.

Lemma append_assoc (x y z : string) : (x ++ y) ++ z = x ++ y ++ z.
Proof. induction x; cbn [String.append]; congruence. Qed.

Lemma no_suffix_is_prefix_spec (whole t r : string) :
  no_suffix_is_prefix whole (t ++ r) = true -> t <> "" -> r <> "" ->
  String.prefix r whole = false.
Proof.
  induction t as [|c t IH]; intros H Ht Hr; [congruence|].
  cbn [String.append no_suffix_is_prefix] in H.
  destruct t as [|d t].
  - cbn [String.append] in *. destruct r; [congruence|].
    apply andb_prop in H. destruct H as [H _]. now apply negb_true_iff in H.
  - cbn [String.append] in H. apply andb_prop in H. destruct H as [_ H].
    apply IH; auto. discriminate.
Qed.

(** An occurrence of the separator that starts inside [t] lies inside
    [t]: the separator does not overlap itself. *)
Lemma separator_starts_inside (sep t b : string) :
  no_suffix_is_prefix sep sep = true -> t <> "" ->
  String.prefix sep (t ++ sep ++ b) = true -> String.prefix sep t = true.
Proof.
  intros Hu Ht H. destruct (prefix_app_cases _ _ _ H) as [Hp|(r & Hs & Hr & Hp)]; auto.
  exfalso.
  assert (Hl : String.length r <= String.length sep).
  { rewrite Hs, length_append. lia. }
  pose proof (prefix_app_short _ _ _ Hp Hl) as Hb.
  assert (Hu' : no_suffix_is_prefix sep (t ++ r) = true) by (rewrite <- Hs; exact Hu).
  pose proof (no_suffix_is_prefix_spec sep t r Hu' Ht Hr). congruence.
Qed.

Lemma split_scan_before (sep b : string) :
  no_suffix_is_prefix sep sep = true ->
  forall a cur, Py.contains sep a = false ->
    Py.split_from sep (a ++ sep ++ b) 0 cur = Py.split_from sep (sep ++ b) 0 (cur ++ a).
Proof.
  intros Hu. induction a as [|c a IH]; intros cur Ha.
  - now rewrite append_empty_r.
  - cbn [Py.contains] in Ha. apply orb_false_elim in Ha. destruct Ha as [Hp Ha].
    cbn [String.append Py.split_from].
    destruct (String.prefix sep (String c (a ++ sep ++ b))) eqn:Hq.
    + exfalso. change (String c (a ++ sep ++ b)) with (String c a ++ sep ++ b) in Hq.
      rewrite (separator_starts_inside sep (String c a) b Hu) in Hp; auto; discriminate.
    + rewrite IH by exact Ha. rewrite append_assoc. reflexivity.
Qed.

Lemma split_skip (sep x b cur : string) :
  Py.split_from sep (x ++ b) (String.length x) cur = Py.split_from sep b 0 cur.
Proof.
  induction x as [|c x IH]; cbn [String.append String.length]; [reflexivity|].
  cbn [Py.split_from]. exact IH.
Qed.

Lemma split_scan_after (sep : string) :
  sep <> "" ->
  forall b cur, Py.contains sep b = false -> Py.split_from sep b 0 cur = [cur ++ b].
Proof.
  intros Hs. induction b as [|c b IH]; intros cur Hb.
  - cbn [Py.split_from]. now rewrite append_empty_r.
  - cbn [Py.contains] in Hb. apply orb_false_elim in Hb. destruct Hb as [Hp Hb].
    cbn [Py.split_from]. rewrite Hp, IH by exact Hb. now rewrite append_assoc.
Qed.

(** [(a + sep + b).split(sep)] gives [a] and [b] back when neither holds
    the separator and the separator does not overlap itself. *)
Lemma split_of_joined (sep a b : string) :
  sep <> "" -> no_suffix_is_prefix sep sep = true ->
  Py.contains sep a = false -> Py.contains sep b = false ->
  Py.split sep (a ++ sep ++ b) = [a; b].
Proof.
  intros Hs Hu Ha Hb. unfold Py.split.
  rewrite (split_scan_before sep b Hu a "" Ha). cbn [String.append].
  destruct sep as [|c sep]; [congruence|].
  cbn [String.append Py.split_from].
  change (String c (sep ++ b)) with (String c sep ++ b).
  rewrite prefix_refl_app.
  replace (String.length (String c sep) - 1) with (String.length sep)
    by (cbn [String.length]; lia).
  rewrite split_skip. now rewrite (split_scan_after (String c sep) Hs b "" Hb).
Qed.

Lemma job_name_separator_alone : no_suffix_is_prefix job_name_separator job_name_separator = true.
Proof. reflexivity. Qed.

(** X1. A job name is read back as it was written.  When [_start_date]
    accepts the start [result] for the pending frequency [freq], and
    neither holds the text ", starting from ", [_confirm_add] splits the
    job name into exactly [freq] and [result]: the job it registers on
    confirmation has the trigger of [freq] at the start parsed from
    [result], and the two session keys of the dialogue are gone. *)
Theorem job_name_is_read_back (w : world) (d d2 : string) (markup markup' : Markup E)
    (freq result : string) (start_datetime : datetime) (t : trigger) :
  d <> "" ->
  d2 <> "" ->
  _CURRENT_MARKUP (ud w) = Some (AMarkup markup) ->
  is_DatetimeMarkup E markup = true ->
  _CURRENT_JOB (ud w) = Some (JobName freq) ->
  perform_action E markup d = (AStr result, markup') ->
  result <> get_required_warning E ->
  get_jobs_by_name (freq ++ ", starting from " ++ result) (job_queue w) = [] ->
  Py.contains ", starting from " freq = false ->
  Py.contains ", starting from " result = false ->
  TFMarkup_confirm E d2 = Some true ->
  strptime E result = Some start_datetime ->
  trigger_for freq start_datetime = Some t ->
  exists w1 w2,
    _start_date (Some d) w = (Exit (Return _CONFIRM_ADD), w1) /\
    _CURRENT_JOB (ud w1) = Some (JobName (freq ++ ", starting from " ++ result)) /\
    _confirm_add (Some d2) w1 = (Exit (Return _CANCEL), w2) /\
    job_queue w2 =
      (job_queue w ++ [{| job_name := freq ++ ", starting from " ++ result;
                          job_trigger := t |}])%list /\
    _CURRENT_JOB (ud w2) = None /\
    _CURRENT_MARKUP (ud w2) = None.
Proof.
  intros Hd Hd2 Hm Hdt Hj Hact Hwarn Hnew Hfreq Hres Hconfirm Hparse Htrigger.
  apply String.eqb_neq in Hd, Hd2, Hwarn.
  assert (Hsplit : Py.split ", starting from " (freq ++ ", starting from " ++ result)
                   = [freq; result]).
  { apply split_of_joined;
      [discriminate | exact job_name_separator_alone | exact Hfreq | exact Hres]. }
  eexists. eexists. split; [|split; [|split]].
  - unfold _start_date. unfold bind at 1. unfold get_ud at 1. rewrite Hm, Hj.
    rewrite Hd, Hdt. cbn [negb andb]. rewrite Hact.
    unfold bind at 1. unfold modify_ud at 1. rewrite Hwarn.
    unfold bind at 1. unfold get_job_queue at 1. cbn [job_queue]. rewrite Hnew.
    unfold bind, emit, modify_ud, return_.
    cbn beta iota zeta delta
      [ud history job_queue answer_handler_pattern confirm_handler_pattern fst snd
       set_CURRENT_MARKUP set_CURRENT_JOB _SAVE_PREFS _PROCESSOR _CURRENT_QUESTION
       _CURRENT_ANSWER _CURRENT_MARKUP _CURRENT_JOB].
    reflexivity.
  - reflexivity.
  - unfold _confirm_add. unfold bind at 1. unfold get_ud at 1.
    cbn [ud _CURRENT_JOB set_CURRENT_JOB]. rewrite Hd2, Hsplit.
    unfold bind at 1. unfold emit at 1. rewrite Hconfirm, Hparse, Htrigger.
    unfold bind, add_job, modify_ud, emit, return_.
    cbn beta iota zeta delta
      [ud history job_queue answer_handler_pattern confirm_handler_pattern fst snd
       set_CURRENT_MARKUP set_CURRENT_JOB _SAVE_PREFS _PROCESSOR _CURRENT_QUESTION
       _CURRENT_ANSWER _CURRENT_MARKUP _CURRENT_JOB].
    reflexivity.
  - cbn. auto.
Qed.

(** *** What the handlers of a traversal do besides *)

(** X4. A call of [_confirm_add] leaves the job queue as it is or adds
    exactly one job at its end.  It adds one only when the pressed button
    is the yes of the yes/no markup and the pending job name splits into a
    frequency and a start that [strptime] reads and that give a trigger;
    the job has the pending name, the pending job is dropped and the call
    returns [_CANCEL]. *)
Theorem confirm_add_adds_at_most_one_job (data : option string) (w : world) :
  job_queue (snd (_confirm_add data w)) = job_queue w \/
  exists d name freq start start_datetime t,
    data = Some d /\
    TFMarkup_confirm E d = Some true /\
    _CURRENT_JOB (ud w) = Some (JobName name) /\
    Py.split ", starting from " name = [freq; start] /\
    strptime E start = Some start_datetime /\
    trigger_for freq start_datetime = Some t /\
    fst (_confirm_add data w) = Exit (Return _CANCEL) /\
    job_queue (snd (_confirm_add data w)) =
      (job_queue w ++ [{| job_name := name; job_trigger := t |}])%list /\
    _CURRENT_JOB (ud (snd (_confirm_add data w))) = None.
Proof.
  unfold _confirm_add, add_job, get_job_queue.
  evaluate.
  all: try (left; reflexivity).
  right. subst. do 6 eexists. repeat split; eauto.
Qed.

(** X5. When the driver reports that the form is complete ([get_question]
    gives [True]), [_obtain_question] tells the user that the form was
    submitted, closes the browser, puts the form link read from it back in
    [_PROCESSOR], resets the pattern of the answer handler and returns
    [_RETURN].  Nothing else of the session changes and no job is added or
    removed. *)
Theorem completed_form_releases_driver (fuel : nat) (to_process : bool) (w : world)
    (p p' : FormProcessor E) :
  _PROCESSOR (ud w) = Some (Active p) ->
  _CURRENT_QUESTION (ud w) = None ->
  get_question E p false = (QTrue, p') ->
  exists w2,
    _obtain_question fuel to_process w = (Return _RETURN, w2) /\
    _PROCESSOR (ud w2) = Some (IdleLink (get_link E (close_browser E p'))) /\
    answer_handler_pattern w2 = "^$" /\
    history w2 =
      (driver (call_get_link (get_link E (close_browser E p')))
       :: driver call_close_browser
       :: edit_message_text form_submitted return_button
       :: driver (call_get_question false)
       :: edit_message_text please_wait no_markup
       :: history w) /\
    untouched (ud w) (ud w2) /\
    _CURRENT_QUESTION (ud w2) = None /\
    job_queue w2 = job_queue w.
Proof.
  intros Hp Hq Hget.
  assert (Hbody : run (_obtain_question_body fuel to_process) w =
            (Return _RETURN,
             {| ud := set_PROCESSOR (Some (IdleLink (get_link E (close_browser E p')))) (ud w);
                job_queue := job_queue w;
                answer_handler_pattern := "^$";
                confirm_handler_pattern := confirm_handler_pattern w;
                history :=
                  driver (call_get_link (get_link E (close_browser E p')))
                  :: driver call_close_browser
                  :: edit_message_text form_submitted return_button
                  :: driver (call_get_question false)
                  :: edit_message_text please_wait no_markup
                  :: history w |})).
  { unfold run, _obtain_question_body, prepare_question, _show_loading_screen,
      obtain_processor, obtain_next_question, with_processor, release_processor.
    unfold bind, get_ud, emit, ret, modify_ud, return_, set_answer_handler_pattern.
    cbn. rewrite Hp. cbn. rewrite Hq. cbn. rewrite Hp. rewrite Hget. cbn. reflexivity. }
  eexists. split.
  - rewrite obtain_question_no_tail_call; [exact Hbody|].
    rewrite Hbody. cbn [fst]. discriminate.
  - cbn. rewrite Hq. repeat split; reflexivity.
Qed.

(** *** The first row of a grid question *)

(** X6. For a grid question met without an answer in progress and without
    a plain saved answer, the answer is started with one open entry per
    row, in the order of the rows, and the first row is the one to ask
    for; nothing is sent yet.  A grid without rows is reported as a bug
    and ends the call with [_STOPPING]. *)
Theorem grid_starts_with_every_row_open (question : Question E) (answer : option Answer)
    (w : world) :
  is_BaseOptionGridQuestion E question = true ->
  _CURRENT_ANSWER (ud w) = None ->
  NoDup (get_sub_questions E question) ->
  (forall v, answer <> Some (Plain v)) ->
  (get_sub_questions E question = [] ->
   exists w2,
     grid_sub_question question answer w = (Exit (Return _STOPPING), w2) /\
     history w2 = send_bug_message :: history w) /\
  (forall first others,
     get_sub_questions E question = first :: others ->
     exists w2,
       grid_sub_question question answer w = (Normal (Some first, answer), w2) /\
       _CURRENT_ANSWER (ud w2)
         = Some (Grid (map (fun q => (q, None)) (first :: others))) /\
       history w2 = history w).
Proof.
  intros Hgrid Ha Hnd Hplain.
  unfold grid_sub_question. rewrite Hgrid.
  unfold bind, get_ud, modify_ud, ret, emit, return_. rewrite Ha.
  cbn [ud _CURRENT_ANSWER set_CURRENT_ANSWER]. rewrite (empty_grid_rows _ Hnd).
  split.
  - intros ->. cbn [map first_unanswered]. eexists. split; reflexivity.
  - intros first others ->. cbn [map first_unanswered].
    destruct answer as [[v|m]|]; [now elim (Hplain v)| |];
      eexists; (split; [reflexivity|]); split; reflexivity.
Qed.

(** *** Saving answers *)

Lemma dict_get_set_same {V} (k : dict_key) (v : V) (d : list (dict_key * V)) :
  dict_get dict_key_eqb k (dict_set dict_key_eqb k v d) = Some v.
Proof.
  assert (Hk : dict_key_eqb k k = true) by now apply dict_key_eqb_eq.
  induction d as [|[k' v'] d IH]; cbn [dict_set dict_get]; [now rewrite Hk|].
  destruct (dict_key_eqb k k') eqn:Hkk'; cbn [dict_get]; rewrite Hkk'; auto.
Qed.

Lemma dict_get_set_other {V} (k k' : dict_key) (v : V) (d : list (dict_key * V)) :
  k' <> k ->
  dict_get dict_key_eqb k' (dict_set dict_key_eqb k v d) = dict_get dict_key_eqb k' d.
Proof.
  intros Hne.
  assert (Hk : dict_key_eqb k' k = false).
  { destruct (dict_key_eqb k' k) eqn:H; auto. apply dict_key_eqb_eq in H. congruence. }
  induction d as [|[k0 v0] d IH]; cbn [dict_set dict_get]; [now rewrite Hk|].
  destruct (dict_key_eqb k k0) eqn:Hk0; cbn [dict_get].
  - apply dict_key_eqb_eq in Hk0. subst k0. now rewrite Hk.
  - destruct (dict_key_eqb k' k0); auto.
Qed.

Lemma local_prefs_found (u : user_data) k entry :
  dict_get dict_key_eqb k (local_prefs u) = Some entry ->
  exists sp prefs, _SAVE_PREFS u = Some sp /\ _LOCAL_SAVE_PREF sp = Some prefs /\
                   local_prefs u = prefs.
Proof.
  unfold local_prefs. destruct (_SAVE_PREFS u) as [sp|]; [|discriminate].
  destruct (_LOCAL_SAVE_PREF sp) as [prefs|] eqn:Hl; [|discriminate].
  intros _. exists sp, prefs. auto.
Qed.

Lemma save_answer_for_found (u : user_data) key a entry sp prefs :
  _SAVE_PREFS u = Some sp -> _LOCAL_SAVE_PREF sp = Some prefs ->
  dict_get dict_key_eqb key prefs = Some entry ->
  _SAVE_PREFS (save_answer_for key a u) =
    Some {| _GLOBAL_SAVE_PREF := _GLOBAL_SAVE_PREF sp;
            _LOCAL_SAVE_PREF :=
              Some (dict_set dict_key_eqb key
                      {| _PREF_KEY := _PREF_KEY entry; _ANSWER_KEY := a |} prefs) |}.
Proof.
  intros Hsp Hlocal Hget. unfold save_answer_for, local_prefs, set_local_prefs.
  rewrite Hsp, Hlocal, Hget. reflexivity.
Qed.

(** X7. The user is asked whether to save the answer of a question whose
    policy is ask-again.  On yes [_save_answer] stores the answer, and the
    next lookup of a question with the same identity finds this answer
    with the policy ask-again; on no the saved preferences stay as they
    are.  Either way the current question and answer are dropped and the
    traversal goes on with the next question. *)
Theorem saved_answer_is_found_again (d : string) (w : world) (q : Question E)
    (a : Answer) (entry : question_pref) :
  _CURRENT_ANSWER (ud w) = Some a ->
  _CURRENT_QUESTION (ud w) = Some (AQuestion q) ->
  dict_get dict_key_eqb (KIdentity (get_pref_key E q)) (local_prefs (ud w)) = Some entry ->
  _PREF_KEY entry = Some ask_again ->
  (TFMarkup_confirm E d = Some true ->
   exists w1,
     _save_answer_body (Some d) w = (Exit (TailCall true), w1) /\
     _CURRENT_ANSWER (ud w1) = None /\
     _CURRENT_QUESTION (ud w1) = None /\
     forall q' w2,
       get_pref_key E q' = get_pref_key E q -> ud w2 = ud w1 ->
       stored_answer true q' w2 = (Normal (Some a, Some ask_again), w2)) /\
  (TFMarkup_confirm E d = Some false ->
   exists w1,
     _save_answer_body (Some d) w = (Exit (TailCall true), w1) /\
     _CURRENT_ANSWER (ud w1) = None /\
     _CURRENT_QUESTION (ud w1) = None /\
     _SAVE_PREFS (ud w1) = _SAVE_PREFS (ud w)).
Proof.
  intros Ha Hq Hentry Hpref.
  destruct (local_prefs_found _ _ _ Hentry) as (sp & prefs & Hsp & Hlocal & Hprefs).
  rewrite Hprefs in Hentry.
  assert (Hrun : forall b, TFMarkup_confirm E d = Some b ->
            _save_answer_body (Some d) w =
              (Exit (TailCall true),
               {| ud := set_CURRENT_ANSWER None
                          (set_CURRENT_QUESTION None
                             (if b then save_answer_for (KIdentity (get_pref_key E q))
                                         (Some a) (ud w)
                              else ud w));
                  job_queue := job_queue w;
                  answer_handler_pattern := answer_handler_pattern w;
                  confirm_handler_pattern := confirm_handler_pattern w;
                  history := callback_answer None :: history w |})).
  { intros b Hconfirm. unfold _save_answer_body. unfold bind at 1. unfold get_ud at 1.
    rewrite Ha, Hq, Hprefs, Hentry, Hpref. cbn [save_pref_eqb].
    unfold bind at 1. unfold emit at 1. rewrite Hconfirm.
    unfold _remove_current_pointers, bind, modify_ud, tail_call, ret.
    destruct b; reflexivity. }
  split; intros Hconfirm; rewrite (Hrun _ Hconfirm); eexists; (split; [reflexivity|]);
    cbn [ud _CURRENT_ANSWER _CURRENT_QUESTION set_CURRENT_ANSWER set_CURRENT_QUESTION
         _SAVE_PREFS]; repeat split.
  intros q' w2 Hkey Hud. unfold stored_answer. unfold bind at 1. unfold get_ud at 1.
  rewrite Hud. cbn [ud _SAVE_PREFS set_CURRENT_ANSWER set_CURRENT_QUESTION].
  rewrite (save_answer_for_found _ _ (Some a) _ _ _ Hsp Hlocal Hentry).
  cbn [_LOCAL_SAVE_PREF]. rewrite Hkey, dict_get_set_same.
  cbn [_PREF_KEY _ANSWER_KEY]. rewrite Hpref. cbn [is_option negb save_pref_eqb].
  destruct (answer_truthy a); reflexivity.
Qed.

Lemma submit_answer_body_grid (data : option string) (w : world)
    (m : list (string * option value)) x w2 :
  _CURRENT_ANSWER (ud w) = Some (Grid m) ->
  run (_submit_answer_body data) w = (x, w2) ->
  filter is_submission (history w2) = filter is_submission (history w) \/
  (has_unanswered m = false /\
   exists s,
     submission_of (Grid m) = Some s /\
     filter is_submission (history w2)
       = driver (call_answer_question s) :: filter is_submission (history w)).
Proof.
  intros Ha.
  unfold run, _submit_answer_body. unfold bind at 1. unfold get_ud at 1. rewrite Ha.
  unfold save_region, _submit_to_google_forms, with_processor,
    _show_loading_screen, _remove_current_pointers.
  evaluate.
  all: intros H; inversion H; subst; clear H.
  all: cbn [history filter is_submission].
  all: try (left; reflexivity).
  all: right; (split; [reflexivity|]); eexists;
    (split; [unfold submission_of;
             match goal with H : submission_args _ = _ |- _ => rewrite H end;
             match goal with H : is_skip _ = _ |- _ => rewrite H end; reflexivity
            | reflexivity]).
Qed.

Lemma no_unanswered_spelled (m : list (string * option value)) :
  has_unanswered m = false -> ~ In None (map snd m).
Proof.
  unfold has_unanswered. induction m as [|[row [v|]] m IH]; cbn [existsb map snd In orb].
  - intros _ [].
  - intros H [Hin|Hin]; [discriminate | now apply IH].
  - discriminate.
Qed.

(** X8. While the answer in progress is a grid, one call of [_submit_answer]
    hands at most one submission to the driver, and hands one only when
    no row of the grid is without answer: the driver then gets the answers
    of the rows, in the order of the rows (or a skip, when the answer of
    the first row is the skip label or "/skip"). *)
Theorem grid_is_submitted_when_complete (data : option string) (w : world)
    (m : list (string * option value)) :
  _CURRENT_ANSWER (ud w) = Some (Grid m) ->
  filter is_submission (history (snd (run (_submit_answer_body data) w)))
    = filter is_submission (history w) \/
  (~ In None (map snd m) /\
   exists first rest s,
     map snd m = first :: rest /\
     (first = Some (Str (get_skip E)) \/ first = Some (Str "/skip") -> s = Skip) /\
     (first <> Some (Str (get_skip E)) -> first <> Some (Str "/skip") ->
      s = Answers (map snd m)) /\
     filter is_submission (history (snd (run (_submit_answer_body data) w)))
       = driver (call_answer_question s) :: filter is_submission (history w)).
Proof.
  intros Ha. destruct (run (_submit_answer_body data) w) as [x w2] eqn:Hrun.
  destruct (submit_answer_body_grid data w m x w2 Ha Hrun)
    as [Hsame | (Hfull & s & Hs & Hsent)]; [left; exact Hsame|].
  right. split; [now apply no_unanswered_spelled|].
  destruct (submission_of_spelled _ _ Hs) as (first & rest & Hgrid & _ & _ & Hskip & Hall).
  specialize (Hgrid m eq_refl).
  exists first, rest, s. split; [exact Hgrid|]. split; [exact Hskip|].
  split; [rewrite Hgrid; exact Hall | exact Hsent].
Qed.

Lemma default_question_pref_policy (u : user_data) :
  default_question_pref u = {| _PREF_KEY := Some (global_policy u); _ANSWER_KEY := None |}.
Proof. reflexivity. Qed.

Lemma local_prefs_ensure_new (key : dict_key) (u : user_data) :
  dict_get dict_key_eqb key (local_prefs u) = None ->
  local_prefs (ensure_question_pref key u)
    = dict_set dict_key_eqb key (default_question_pref u) (local_prefs u).
Proof.
  unfold ensure_question_pref, local_prefs, dict_mem.
  destruct (_SAVE_PREFS u) as [sp|] eqn:Hsp; [|reflexivity].
  destruct (_LOCAL_SAVE_PREF sp) as [prefs|] eqn:Hl; [|reflexivity].
  intros Hget. rewrite Hget. reflexivity.
Qed.

Lemma ensure_question_pref_fields (key : dict_key) (u : user_data) :
  _PROCESSOR (ensure_question_pref key u) = _PROCESSOR u /\
  _CURRENT_QUESTION (ensure_question_pref key u) = _CURRENT_QUESTION u /\
  _CURRENT_ANSWER (ensure_question_pref key u) = _CURRENT_ANSWER u.
Proof.
  unfold ensure_question_pref.
  destruct (_SAVE_PREFS u) as [sp|]; [|repeat split].
  destruct (_LOCAL_SAVE_PREF sp) as [prefs|]; [|repeat split].
  destruct (dict_mem dict_key_eqb key prefs); repeat split.
Qed.

Lemma local_prefs_save_answer_for (key : dict_key) (a : option Answer) (u : user_data) entry :
  dict_get dict_key_eqb key (local_prefs u) = Some entry ->
  local_prefs (save_answer_for key a u)
    = dict_set dict_key_eqb key {| _PREF_KEY := _PREF_KEY entry; _ANSWER_KEY := a |}
        (local_prefs u).
Proof.
  intros Hget. destruct (local_prefs_found _ _ _ Hget) as (sp & prefs & Hsp & Hl & Hp).
  unfold save_answer_for. rewrite Hget. unfold set_local_prefs, local_prefs.
  rewrite Hsp. cbn [_SAVE_PREFS set_SAVE_PREFS _LOCAL_SAVE_PREF]. now rewrite Hl.
Qed.

(** X9. When an answer is confirmed and the driver accepts it for a question
    that has no entry among the saved preferences, the question gets an
    entry with the global policy (ask-again when there is none), which
    holds the answer only under save-always; every other entry is as
    before.  The call then asks whether to save (ask-again), goes on with
    the next question (save-always, never-save) or stops on a policy it
    does not know. *)
Theorem unknown_question_gets_the_global_policy (d : string) (w : world) (q : Question E)
    (v : value) (p p' : FormProcessor E) (s : submission) :
  TFMarkup_confirm E d = Some true ->
  _CURRENT_ANSWER (ud w) = Some (Plain v) ->
  _CURRENT_QUESTION (ud w) = Some (AQuestion q) ->
  _PROCESSOR (ud w) = Some (Active p) ->
  submission_of (Plain v) = Some s ->
  answer_question E p s = (Some true, p') ->
  dict_get dict_key_eqb (KIdentity (get_pref_key E q)) (local_prefs (ud w)) = None ->
  exists x w2,
    run (_submit_answer_body (Some d)) w = (x, w2) /\
    dict_get dict_key_eqb (KIdentity (get_pref_key E q)) (local_prefs (ud w2))
      = Some {| _PREF_KEY := Some (global_policy (ud w));
                _ANSWER_KEY := match global_policy (ud w) with
                               | save_always => Some (Plain v)
                               | _ => None
                               end |} /\
    (forall k, k <> KIdentity (get_pref_key E q) ->
       dict_get dict_key_eqb k (local_prefs (ud w2))
         = dict_get dict_key_eqb k (local_prefs (ud w))) /\
    x = match global_policy (ud w) with
        | ask_again => Return _SAVE_ANSWER
        | save_always | never_save => TailCall true
        | not_an_option _ => Return _STOPPING
        end.
Proof.
  intros Hconfirm Ha Hq Hp Hs Hacc Hnew.
  set (key := KIdentity (get_pref_key E q)) in *.
  set (w1 := {| ud := set_PROCESSOR (Some (Active p')) (set_CURRENT_MARKUP None (ud w));
                job_queue := job_queue w;
                answer_handler_pattern := answer_handler_pattern w;
                confirm_handler_pattern := "^$";
                history := driver (call_answer_question s)
                           :: edit_message_text please_wait no_markup
                           :: callback_answer None :: history w |}).
  assert (Hrun : run (_submit_answer_body (Some d)) w = run (save_region q) w1).
  { unfold run at 1, _submit_answer_body. unfold bind at 1. unfold get_ud at 1.
    rewrite Ha, Hq, Hp.
    unfold bind at 1. unfold emit at 1.
    unfold bind at 1. unfold modify_ud at 1.
    unfold bind at 1. unfold set_confirm_handler_pattern at 1.
    rewrite Hconfirm.
    unfold bind at 1. unfold _show_loading_screen, emit at 1.
    unfold bind at 1.
    erewrite (submit_active (Plain v) s p _ (Some true) p' Hs); [| exact Hp | exact Hacc].
    cbn [truthy]. reflexivity. }
  rewrite Hrun.
  assert (Hl1 : local_prefs (ud w1) = local_prefs (ud w)) by reflexivity.
  assert (Hg1 : global_policy (ud w1) = global_policy (ud w)) by reflexivity.
  assert (Hnew1 : dict_get dict_key_eqb key (local_prefs (ud w1)) = None)
    by (rewrite Hl1; exact Hnew).
  pose proof (local_prefs_ensure_new key (ud w1) Hnew1) as Hens.
  rewrite default_question_pref_policy, Hg1, Hl1 in Hens.
  destruct (ensure_question_pref_fields key (ud w1)) as (_ & _ & Hans).
  assert (Hget : dict_get dict_key_eqb key (local_prefs (ensure_question_pref key (ud w1)))
                 = Some {| _PREF_KEY := Some (global_policy (ud w)); _ANSWER_KEY := None |})
    by (rewrite Hens; apply dict_get_set_same).
  unfold run, save_region. fold key.
  unfold bind at 1. unfold modify_ud at 1. unfold bind at 1. unfold get_ud at 1.
  cbn [ud]. rewrite Hget. cbn [_PREF_KEY].
  assert (Hans' : _CURRENT_ANSWER (ensure_question_pref key (ud w1)) = Some (Plain v))
    by (rewrite Hans; exact Ha).
  assert (Hdrop : forall u, local_prefs (set_CURRENT_ANSWER None (set_CURRENT_QUESTION None u))
                            = local_prefs u) by reflexivity.
  destruct (global_policy (ud w)) eqn:Hg; cbn [is_option negb save_pref_eqb];
    unfold bind, modify_ud, emit, _remove_current_pointers, tail_call, return_;
    do 2 eexists; (split; [reflexivity|]); cbn [ud]; rewrite ?Hdrop.
  - rewrite Hans', (local_prefs_save_answer_for key _ _ _ Hget), Hens. cbn [_PREF_KEY].
    split; [apply dict_get_set_same|]. split; [|reflexivity].
    intros k Hk. now rewrite !dict_get_set_other.
  - rewrite Hens. split; [apply dict_get_set_same|]. split; [|reflexivity].
    intros k Hk. now rewrite dict_get_set_other.
  - rewrite Hens. split; [apply dict_get_set_same|]. split; [|reflexivity].
    intros k Hk. now rewrite dict_get_set_other.
  - rewrite Hens. split; [apply dict_get_set_same|]. split; [|reflexivity].
    intros k Hk. now rewrite dict_get_set_other.
Qed.

(** *** The states the handlers return *)

Lemma refresh_loop_no_return fuel : forall result w s,
  fst (refresh_loop fuel result w) <> Exit (Return s).
Proof.
  induction fuel as [|fuel IH]; intros [[|]|] w s; cbn [refresh_loop];
    try (unfold ret, out_of_fuel; cbn; discriminate).
  unfold with_processor, question_set_element, question_get_info.
  evaluate; try discriminate; apply IH.
Qed.

Lemma obtain_question_body_returns fuel to_process w s :
  fst (run (_obtain_question_body fuel to_process) w) = Return s ->
  In s [_STOPPING; _RETURN; _CONFIRM_SUBMIT; _SKIP_OR_ANSWER].
Proof.
  unfold run, _obtain_question_body, prepare_question, obtain_next_question,
    obtain_processor, _show_loading_screen, with_processor, release_processor,
    question_get_info, stored_answer, _submit_to_google_forms, with_processor,
    _remove_current_pointers, display_question, grid_sub_question, offer_saved_answer,
    prompt_for_input.
  evaluate.
  all: cbn [fst]; intros H; try discriminate H.
  all: try (inversion H; subst; cbn [In]; tauto).
  all: match goal with
       | Hr : refresh_loop ?f ?r ?w0 = (Exit _, _) |- _ =>
           pose proof (refresh_loop_no_return f r w0 s) as Hn; rewrite Hr in Hn;
           cbn [fst] in Hn; subst; congruence
       end.
Qed.

Lemma obtain_question_returns fuel : forall to_process w s,
  fst (_obtain_question fuel to_process w) = Return s ->
  In s [_STOPPING; _RETURN; _CONFIRM_SUBMIT; _SKIP_OR_ANSWER].
Proof.
  induction fuel as [|fuel IH]; intros to_process w s; cbn [_obtain_question].
  - pose proof (obtain_question_body_returns 0 to_process w s) as Hb.
    destruct (run (_obtain_question_body 0 to_process) w) as [[s'|tp|e|] w1];
      cbn [fst] in *; auto; discriminate.
  - pose proof (obtain_question_body_returns (S fuel) to_process w s) as Hb.
    destruct (run (_obtain_question_body (S fuel) to_process) w) as [[s'|tp|e|] w1];
      cbn [fst] in *; auto; try discriminate. apply IH.
Qed.

Lemma continue_with_returns fuel (r : exit * world) s (known : list state) :
  (forall s', fst r = Return s' -> In s' known) ->
  (forall s', In s' [_STOPPING; _RETURN; _CONFIRM_SUBMIT; _SKIP_OR_ANSWER] -> In s' known) ->
  fst (continue_with fuel r) = Return s -> In s known.
Proof.
  intros Hr Hk. destruct r as [[s'|tp|e|] w1]; cbn [continue_with fst] in *; auto;
    try discriminate.
  intros H. apply Hk. now apply (obtain_question_returns fuel tp w1).
Qed.

Lemma submit_answer_body_returns data w s :
  fst (run (_submit_answer_body data) w) = Return s -> In s [_STOPPING; _SAVE_ANSWER].
Proof.
  unfold run, _submit_answer_body, save_region, _submit_to_google_forms, with_processor,
    _show_loading_screen, _remove_current_pointers.
  evaluate.
  all: cbn [fst]; intros H; try discriminate H.
  all: inversion H; subst; cbn [In]; tauto.
Qed.

Lemma save_answer_body_returns data w s :
  fst (run (_save_answer_body data) w) = Return s -> s = _STOPPING.
Proof.
  unfold run, _save_answer_body, _remove_current_pointers.
  evaluate.
  all: cbn [fst]; intros H; try discriminate H.
  all: inversion H; subst; reflexivity.
Qed.

Lemma start_date_returns data w s :
  fst (run (_start_date data) w) = Return s ->
  In s [_STOPPING; _SELECT_START; _CONFIRM_ADD].
Proof.
  unfold run, _start_date, get_job_queue.
  evaluate.
  all: cbn [fst]; intros H; try discriminate H.
  all: inversion H; subst; cbn [In]; tauto.
Qed.

Lemma confirm_add_returns data w s :
  fst (run (_confirm_add data) w) = Return s -> In s [_STOPPING; _CANCEL].
Proof.
  unfold run, _confirm_add, add_job.
  evaluate.
  all: cbn [fst]; intros H; try discriminate H.
  all: inversion H; subst; cbn [In]; tauto.
Qed.

(** *** The handlers of the other conversations *)

Section ConversationFacts.

Variable X : Menus.
Variable _clear_cache : chat -> ending * chat.
Variable _main_menu : update -> chat -> ending * chat.

(** Evaluate a body on a chat, splitting on whatever it tests. *)
Ltac chat_evaluate :=
  unfold schedule_removal_of;
  unfold finish, call, prompt, callback_data, report_bug, report_bug_to_message,
    returning, failing;
  unfold and_then, pure, stop, say, chat_now, change_user, set_current_job,
    set_garbage_input_counter, set_remind_handler_pattern, set_jobs;
  repeat first
    [ progress cbn beta iota zeta delta
        [user held_job _GARBAGE_INPUT_COUNTER jobs remind_handler_pattern sent
         fst snd
         set_SAVE_PREFS set_PROCESSOR set_CURRENT_QUESTION set_CURRENT_ANSWER
         set_CURRENT_MARKUP set_CURRENT_JOB
         _SAVE_PREFS _PROCESSOR _CURRENT_QUESTION _CURRENT_ANSWER
         _CURRENT_MARKUP _CURRENT_JOB]
    | match goal with
      | |- context [match ?x with _ => _ end] =>
          lazymatch x with
          | context [match _ with _ => _ end] => fail
          | _ => destruct x eqn:?
          end
      end ].

Ltac returned_state :=
  chat_evaluate;
  cbn [fst]; intros H; try discriminate H;
  inversion H; subst; cbn [In]; tauto.

Lemma process_answer_returns upd c s :
  fst (_process_answer X upd c) = Returns s ->
  In s [_STOPPING; _SKIP_OR_ANSWER; _ANSWER_OTHER; _CONFIRM_SUBMIT].
Proof.
  unfold _process_answer, _process_answer_body, read_input, keep_answer. returned_state.
Qed.

Lemma process_other_returns input c s :
  fst (_process_other X input c) = Returns s -> In s [_STOPPING; _CONFIRM_SUBMIT].
Proof. unfold _process_other, _process_other_body. returned_state. Qed.

Lemma stop_nested_returns upd c s :
  fst (_stop_nested _clear_cache upd c) = Returns s -> In s [_STOPPING].
Proof. unfold _stop_nested, _stop_helper. returned_state. Qed.

Lemma remind_menu_returns upd c s :
  fst (_remind_menu upd c) = Returns s -> In s [_SELECTING_ACTION; _STOPPING].
Proof. unfold _remind_menu, _remind_menu_body. returned_state. Qed.

Lemma select_frequency_returns upd c s :
  fst (_select_frequency X upd c) = Returns s -> In s [_CHOOSE_FREQ; _STOPPING].
Proof. unfold _select_frequency, _select_frequency_body. returned_state. Qed.

Lemma select_reminder_returns upd c s :
  fst (_select_reminder X upd c) = Returns s -> In s [_CANCEL; _SELECT_JOB; _STOPPING].
Proof. unfold _select_reminder, _select_reminder_body. returned_state. Qed.

Lemma remind_return_returns upd c s :
  fst (_remind_return _main_menu upd c) = Returns s -> In s [_RETURN].
Proof. unfold _remind_return. returned_state. Qed.

Lemma custom_frequency_returns upd c s :
  fst (_custom_frequency X upd c) = Returns s -> In s [_CUSTOM_FREQ; _STOPPING].
Proof. unfold _custom_frequency, _custom_frequency_body. returned_state. Qed.

Lemma fixed_frequency_returns now upd c s :
  fst (_fixed_frequency X now upd c) = Returns s -> In s [_SELECT_START; _STOPPING].
Proof. unfold _fixed_frequency, _fixed_frequency_body, ask_for_start. returned_state. Qed.

Lemma handle_custom_returns utcnow upd c s :
  fst (_handle_custom X utcnow upd c) = Returns s ->
  In s [_CUSTOM_FREQ; _SELECT_START; _STOPPING].
Proof. unfold _handle_custom, _handle_custom_body, ask_for_start. returned_state. Qed.

Lemma confirm_removal_returns upd c s :
  fst (_confirm_removal upd c) = Returns s -> In s [_CONFIRM_REMOVE; _STOPPING].
Proof. unfold _confirm_removal, _confirm_removal_body. returned_state. Qed.

Lemma perform_removal_returns upd c s :
  fst (_perform_removal upd c) = Returns s -> In s [_CANCEL; _STOPPING].
Proof. unfold _perform_removal, _perform_removal_body. returned_state. Qed.

Lemma submit_answer_returns fuel data w s :
  fst (_submit_answer fuel data w) = Return s ->
  In s [_STOPPING; _RETURN; _CONFIRM_SUBMIT; _SKIP_OR_ANSWER; _SAVE_ANSWER].
Proof.
  unfold _submit_answer. apply continue_with_returns.
  - intros s' H. apply submit_answer_body_returns in H. cbn [In] in *. tauto.
  - cbn [In]. tauto.
Qed.

Lemma save_answer_returns fuel data w s :
  fst (_save_answer fuel data w) = Return s ->
  In s [_STOPPING; _RETURN; _CONFIRM_SUBMIT; _SKIP_OR_ANSWER].
Proof.
  unfold _save_answer. apply continue_with_returns.
  - intros s' H. apply save_answer_body_returns in H. subst. cbn [In]. tauto.
  - cbn [In]. tauto.
Qed.

(** X10. Every state that a handler of the form traversal can return is one
    its conversation has handlers for, or one it hands to the main menu:
    a traversal is never left in a state that nothing answers to. *)
Theorem submit_conversation_knows_every_state (h : handler) (s : state) :
  In h (handlers_of submit_conv_handler) ->
  may_return X _clear_cache _main_menu h s ->
  In s (known_states submit_conv_handler).
Proof.
  intros Hin Hret. cbn in Hin |- *.
  destruct Hret as [? ? ? ? H|? ? ? H|? ? ? H|? ? ? ? H|? ? ? ? H|? ? ? H|? ? ? H|? ? ? H
                    |? ? ? H|? ? ? H|? ? ? H|? ? ? ? H|? ? ? ? H|? ? ? H|? ? ? H|? ? ? H|? ? ? H];
    try (exfalso; intuition discriminate).
  - apply obtain_question_returns in H. cbn [In] in H. tauto.
  - apply process_answer_returns in H. cbn [In] in H. tauto.
  - apply process_other_returns in H. cbn [In] in H. tauto.
  - apply submit_answer_returns in H. cbn [In] in H. tauto.
  - apply save_answer_returns in H. cbn [In] in H. tauto.
  - apply stop_nested_returns in H. cbn [In] in H. tauto.
Qed.

(** X11. Every state that a handler of the scheduler menu can return is one
    its conversation has handlers for, or one it hands to the main menu. *)
Theorem remind_conversation_knows_every_state (h : handler) (s : state) :
  In h (handlers_of remind_conv_handler) ->
  may_return X _clear_cache _main_menu h s ->
  In s (known_states remind_conv_handler).
Proof.
  intros Hin Hret. cbn in Hin |- *.
  destruct Hret as [? ? ? ? H|? ? ? H|? ? ? H|? ? ? ? H|? ? ? ? H|? ? ? H|? ? ? H|? ? ? H
                    |? ? ? H|? ? ? H|? ? ? H|? ? ? ? H|? ? ? ? H|? ? ? H|? ? ? H|? ? ? H|? ? ? H];
    try (exfalso; intuition discriminate).
  - apply stop_nested_returns in H. cbn [In] in H. tauto.
  - apply remind_menu_returns in H. cbn [In] in H. tauto.
  - apply select_frequency_returns in H. cbn [In] in H. tauto.
  - apply select_reminder_returns in H. cbn [In] in H. tauto.
  - apply remind_return_returns in H. cbn [In] in H. tauto.
  - apply custom_frequency_returns in H. cbn [In] in H. tauto.
  - apply fixed_frequency_returns in H. cbn [In] in H. tauto.
  - apply handle_custom_returns in H. cbn [In] in H. tauto.
  - apply start_date_returns in H. cbn [In] in H. tauto.
  - apply confirm_add_returns in H. cbn [In] in H. tauto.
  - apply confirm_removal_returns in H. cbn [In] in H. tauto.
  - apply perform_removal_returns in H. cbn [In] in H. tauto.
Qed.

Lemma first_unanswered_open_row (before after : list (string * option value)) (row : string) :
  Forall (fun kv => snd kv <> None) before ->
  first_unanswered (before ++ (row, None) :: after)%list = Some row.
Proof.
  induction 1 as [|[k [v|]] before Hk _ IH]; cbn [app first_unanswered]; auto.
  now elim Hk.
Qed.

Lemma fill_open_row (skip_label : string) (result : value)
    (before after : list (string * option value)) (row : string) :
  Forall (fun kv => snd kv <> None) before ->
  ~ In row (map fst before) ->
  fill_first_unanswered skip_label result (before ++ (row, None) :: after)%list
    = (before ++
       (row, Some (match result with
                   | Str s => if (s =? skip_label) || (s =? "/skip") then Str "" else result
                   | Tuple _ => result
                   end)) :: after)%list.
Proof.
  intros Hb Hn. unfold fill_first_unanswered.
  rewrite (first_unanswered_open_row before after row Hb).
  now apply dict_set_app_notin.
Qed.

(** A selection made on the menu reaches the second part of
    [_process_answer]. *)
Lemma read_input_selection (c : chat) (data : string) (markup markup' : Markup E)
    (result : value) :
  _CURRENT_MARKUP (user c) = Some (AMarkup markup) ->
  is_BaseOptionMarkup E markup = true ->
  option_action X markup data = (OValue result, markup') ->
  result <> Str (option_required_warning X) ->
  read_input X (callback_update (Some data)) c =
    (inl (OValue result),
     {| user := set_CURRENT_MARKUP (Some (AMarkup markup')) (user c);
        held_job := held_job c;
        _GARBAGE_INPUT_COUNTER := _GARBAGE_INPUT_COUNTER c;
        jobs := jobs c;
        remind_handler_pattern := remind_handler_pattern c;
        sent := answer_query None :: sent c |}).
Proof.
  intros Hm Hbase Hact Hwarn.
  unfold read_input. unfold and_then at 1. unfold chat_now at 1.
  rewrite Hm, Hbase, Hact.
  assert (Hno : match result with
                | Str s => s =? option_required_warning X
                | Tuple _ => false
                end = false).
  { destruct result as [s|l]; auto. apply String.eqb_neq. congruence. }
  unfold and_then, change_user, say, pure. cbn beta iota. rewrite Hno. reflexivity.
Qed.

Lemma answer_goes_to_the_first_open_row' (c : chat) (data : string)
    (markup markup' : Markup E) (result : value)
    (before after : list (string * option value)) (row : string) :
  _CURRENT_MARKUP (user c) = Some (AMarkup markup) ->
  is_BaseOptionMarkup E markup = true ->
  option_action X markup data = (OValue result, markup') ->
  result <> Str (option_required_warning X) ->
  holds_other X result = false ->
  _CURRENT_ANSWER (user c) = Some (Grid (before ++ (row, None) :: after)%list) ->
  Forall (fun kv => snd kv <> None) before ->
  ~ In row (map fst before) ->
  exists c2,
    _process_answer X (callback_update (Some data)) c = (Returns _CONFIRM_SUBMIT, c2) /\
    _CURRENT_ANSWER (user c2)
      = Some (Grid (fill_first_unanswered (get_skip E) result
                      (before ++ (row, None) :: after)%list)).
Proof.
  intros Hm Hbase Hact Hwarn Hother Ha Hb Hn.
  unfold _process_answer, finish, _process_answer_body. unfold and_then at 1.
  rewrite (read_input_selection c data markup markup' result Hm Hbase Hact Hwarn).
  unfold keep_answer. unfold and_then at 1. unfold and_then at 1. unfold chat_now at 1.
  cbn [user _CURRENT_ANSWER set_CURRENT_MARKUP]. rewrite Ha.
  unfold change_user at 1. rewrite Hother.
  unfold prompt, and_then, say, returning, stop. cbn [user sent].
  eexists. split; reflexivity.
Qed.

(** X12. A selection from the menu of a grid row is stored in the first row
    of the grid that has no answer yet (as the empty string when it is a
    skip); the rows before and after it stay as they are, and the user is
    asked to confirm the selection in [_CONFIRM_SUBMIT]. *)
Theorem answer_goes_to_the_first_open_row (c : chat) (data : string)
    (markup markup' : Markup E) (result : value)
    (before after : list (string * option value)) (row : string) :
  _CURRENT_MARKUP (user c) = Some (AMarkup markup) ->
  is_BaseOptionMarkup E markup = true ->
  option_action X markup data = (OValue result, markup') ->
  result <> Str (option_required_warning X) ->
  holds_other X result = false ->
  _CURRENT_ANSWER (user c) = Some (Grid (before ++ (row, None) :: after)%list) ->
  Forall (fun kv => snd kv <> None) before ->
  ~ In row (map fst before) ->
  exists c2,
    _process_answer X (callback_update (Some data)) c = (Returns _CONFIRM_SUBMIT, c2) /\
    _CURRENT_ANSWER (user c2)
      = Some (Grid (before ++
                    (row, Some (if is_skip (Some result) then Str "" else result))
                    :: after)%list) /\
    sent c2 =
      edit_text (if is_skip (Some result) then confirm_skip else confirm_answer result)
        (inline TF_markup)
      :: answer_query None :: sent c.
Proof.
  intros Hm Hbase Hact Hwarn Hother Ha Hb Hn.
  unfold _process_answer, finish, _process_answer_body. unfold and_then at 1.
  rewrite (read_input_selection c data markup markup' result Hm Hbase Hact Hwarn).
  unfold keep_answer. unfold and_then at 1. unfold and_then at 1. unfold chat_now at 1.
  cbn [user _CURRENT_ANSWER set_CURRENT_MARKUP]. rewrite Ha.
  unfold change_user at 1. rewrite Hother.
  unfold prompt, and_then, say, returning, stop. cbn [user sent].
  eexists. split; [reflexivity|]. cbn [user sent _CURRENT_ANSWER set_CURRENT_ANSWER].
  split; [|reflexivity].
  rewrite (fill_open_row _ _ _ _ _ Hb Hn).
  destruct result as [s|l]; cbn [is_skip]; [destruct ((s =? get_skip E) || (s =? "/skip"))|];
    reflexivity.
Qed.

(** X13. [_process_answer] keeps nothing of an input that it refuses and
    stays in [_SKIP_OR_ANSWER]: the skip command for a required question,
    a typed message while a menu is shown, and a selection that the menu
    answers with its required-warning send their notice and leave the
    answer in progress alone (the last one stores the new state of the
    menu). *)
Theorem refused_input_is_not_kept (c : chat) :
  (forall name question,
     _CURRENT_QUESTION (user c) = Some (AQuestion question) ->
     is_required E question = true ->
     _process_answer X (message_update "/skip" name) c
       = (Returns _SKIP_OR_ANSWER, told (reply_text cannot_skip (inline no_markup)) c)) /\
  (forall input name question,
     _CURRENT_QUESTION (user c) = Some (AQuestion question) ->
     is_option_markup (_CURRENT_MARKUP (user c)) = true ->
     input <> "/skip" \/ is_required E question = false ->
     _process_answer X (message_update input name) c
       = (Returns _SKIP_OR_ANSWER, told (potential_feature_message select_from_menu) c)) /\
  (forall data markup markup',
     _CURRENT_MARKUP (user c) = Some (AMarkup markup) ->
     is_BaseOptionMarkup E markup = true ->
     option_action X markup data = (OValue (Str (option_required_warning X)), markup') ->
     _process_answer X (callback_update (Some data)) c
       = (Returns _SKIP_OR_ANSWER,
          told (answer_query (Some (option_required_warning X)))
            (with_user (set_CURRENT_MARKUP (Some (AMarkup markup'))) c))).
Proof.
  split; [|split].
  - intros name question Hq Hr.
    unfold _process_answer, finish, _process_answer_body, read_input.
    unfold and_then at 1. unfold and_then at 1. unfold chat_now at 1.
    rewrite Hq, Hr. reflexivity.
  - intros input name question Hq Hm Hi.
    unfold _process_answer, finish, _process_answer_body, read_input.
    unfold and_then at 1. unfold and_then at 1. unfold chat_now at 1.
    rewrite Hq, Hm.
    assert (Hs : (input =? "/skip") && is_required E question = false).
    { destruct Hi as [Hi|Hi]; [apply String.eqb_neq in Hi; now rewrite Hi|].
      rewrite Hi. apply andb_false_r. }
    rewrite Hs. reflexivity.
  - intros data markup markup' Hm Hb Hact.
    unfold _process_answer, finish, _process_answer_body, read_input.
    unfold and_then at 1. unfold and_then at 1. unfold chat_now at 1.
    rewrite Hm, Hb, Hact. rewrite String.eqb_refl. reflexivity.
Qed.

Lemma replace_first_found (x y : string) (pre post : list string) :
  ~ In x pre ->
  Py.replace_first x y (pre ++ x :: post)%list = Some (pre ++ y :: post)%list.
Proof.
  induction pre as [|z pre IH]; cbn [app Py.replace_first]; intros Hn.
  - now rewrite String.eqb_refl.
  - destruct (String.eqb_spec z x) as [->|Hne]; [exfalso; apply Hn; now left|].
    rewrite IH; [reflexivity|]. intros Hin. apply Hn. now right.
Qed.

Lemma replace_first_missing (x y : string) (l : list string) :
  ~ In x l -> Py.replace_first x y l = None.
Proof.
  induction l as [|z l IH]; cbn [Py.replace_first]; intros Hn; auto.
  destruct (String.eqb_spec z x) as [->|Hne]; [exfalso; apply Hn; now left|].
  rewrite IH; [reflexivity|]. intros Hin. apply Hn. now right.
Qed.

Lemma holds_other_tuple (pre post : list string) :
  holds_other X (Tuple (pre ++ get_other_option_label X :: post)%list) = true.
Proof.
  cbn [holds_other]. apply existsb_exists. exists (get_other_option_label X).
  split; [apply in_or_app; right; now left | apply String.eqb_refl].
Qed.

(** X14. When the selection from a menu holds the label of the 'Other'
    option, [_process_answer] keeps it and asks for the text in
    [_ANSWER_OTHER].  [_process_other] then puts the typed text in the
    place of a single selection, or in the place of the first occurrence
    of the label in a multiple selection, and asks to confirm the result
    in [_CONFIRM_SUBMIT]. *)
Theorem other_option_takes_the_typed_text (c : chat) (data input : string)
    (markup markup' : Markup E) (result : value) :
  _CURRENT_MARKUP (user c) = Some (AMarkup markup) ->
  is_BaseOptionMarkup E markup = true ->
  option_action X markup data = (OValue result, markup') ->
  result <> Str (option_required_warning X) ->
  (forall m, _CURRENT_ANSWER (user c) <> Some (Grid m)) ->
  holds_other X result = true ->
  exists c1,
    _process_answer X (callback_update (Some data)) c = (Returns _ANSWER_OTHER, c1) /\
    _CURRENT_ANSWER (user c1) = Some (Plain result) /\
    sent c1 = edit_text specify_other (inline no_markup) :: answer_query None :: sent c /\
    (forall s, result = Str s ->
       exists c2,
         _process_other X input c1 = (Returns _CONFIRM_SUBMIT, c2) /\
         _CURRENT_ANSWER (user c2) = Some (Plain (Str input)) /\
         sent c2 = reply_text (confirm_answer (Str input)) (inline TF_markup) :: sent c1) /\
    (forall pre post,
       result = Tuple (pre ++ get_other_option_label X :: post)%list ->
       ~ In (get_other_option_label X) pre ->
       exists c2,
         _process_other X input c1 = (Returns _CONFIRM_SUBMIT, c2) /\
         _CURRENT_ANSWER (user c2) = Some (Plain (Tuple (pre ++ input :: post)%list)) /\
         sent c2 = reply_text (confirm_answer (Tuple (pre ++ input :: post)%list))
                     (inline TF_markup) :: sent c1).
Proof.
  intros Hm Hbase Hact Hwarn Hgrid Hother.
  eexists. split; [|split; [|split; [|split]]].
  - unfold _process_answer, finish, _process_answer_body. unfold and_then at 1.
    rewrite (read_input_selection c data markup markup' result Hm Hbase Hact Hwarn).
    unfold keep_answer. unfold and_then at 1. unfold and_then at 1. unfold chat_now at 1.
    cbn [user _CURRENT_ANSWER set_CURRENT_MARKUP].
    assert (Hkeep : forall (k : list (string * option value) -> C unit) (other : C unit),
              match _CURRENT_ANSWER (user c) with
              | Some (Grid m) => k m
              | _ => other
              end = other).
    { intros k other. destruct (_CURRENT_ANSWER (user c)) as [[v|m]|] eqn:Ha; auto.
      now elim (Hgrid m). }
    rewrite Hkeep. unfold change_user at 1. rewrite Hother.
    unfold prompt, and_then, say, returning, stop. reflexivity.
  - reflexivity.
  - reflexivity.
  - intros s ->. eexists. split.
    + unfold _process_other, finish, _process_other_body.
      unfold and_then at 1. unfold chat_now at 1.
      cbn [user _CURRENT_MARKUP _CURRENT_ANSWER set_CURRENT_ANSWER set_CURRENT_MARKUP].
      unfold and_then, pure, change_user, say, returning, stop. cbn [fst snd]. reflexivity.
    + split; reflexivity.
  - intros pre post -> Hn. eexists. split.
    + unfold _process_other, finish, _process_other_body.
      unfold and_then at 1. unfold chat_now at 1.
      cbn [user _CURRENT_MARKUP _CURRENT_ANSWER set_CURRENT_ANSWER set_CURRENT_MARKUP].
      unfold and_then at 1. unfold pure at 1. cbn [fst snd listed].
      rewrite (replace_first_found _ input pre post Hn).
      unfold and_then, pure, change_user, say, returning, stop. cbn [fst snd]. reflexivity.
    + split; reflexivity.
Qed.

(** X15. [_process_other] reports a bug and stops when no menu or no answer
    is in progress.  It fails with a [ValueError] when the multiple
    selection in progress does not hold the label of the 'Other' option,
    and with a [TypeError] when the grid in progress has a row without
    answer before any row that holds the label; in both cases nothing is
    sent and the session stays as it is. *)
Theorem other_text_without_other_option_fails (c : chat) (input : string) :
  (_CURRENT_MARKUP (user c) = None \/ _CURRENT_ANSWER (user c) = None ->
   _process_other X input c = (Returns _STOPPING, told bug_message c)) /\
  (forall slot l,
     _CURRENT_MARKUP (user c) = Some slot ->
     _CURRENT_ANSWER (user c) = Some (Plain (Tuple l)) ->
     ~ In (get_other_option_label X) l ->
     _process_other X input c = (Fails ValueError, c)) /\
  (forall slot answered row rest,
     _CURRENT_MARKUP (user c) = Some slot ->
     _CURRENT_ANSWER (user c)
       = Some (Grid (map (fun kv => (fst kv, Some (snd kv))) answered
                     ++ (row, None) :: rest)%list) ->
     Forall (fun kv => holds_other X (snd kv) = false) answered ->
     _process_other X input c = (Fails TypeError, c)).
Proof.
  split; [|split].
  - intros H. unfold _process_other, finish, _process_other_body.
    unfold and_then at 1. unfold chat_now at 1.
    destruct (_CURRENT_MARKUP (user c)) as [slot|]; destruct H as [H|H];
      try discriminate; try rewrite H; try reflexivity.
  - intros slot l Hm Ha Hn. unfold _process_other, finish, _process_other_body.
    unfold and_then at 1. unfold chat_now at 1. rewrite Hm, Ha.
    unfold and_then at 1. unfold pure at 1. cbn [fst snd listed].
    unfold and_then at 1. rewrite (replace_first_missing _ input l Hn). reflexivity.
  - intros slot answered row rest Hm Ha Hno.
    unfold _process_other, finish, _process_other_body.
    unfold and_then at 1. unfold chat_now at 1. rewrite Hm, Ha.
    assert (Hscan : find_other_row X
                      (map (fun kv => (fst kv, Some (snd kv))) answered
                       ++ (row, None) :: rest)%list = unanswered_row).
    { clear Ha. induction Hno as [|[k v] answered Hv _ IH]; [reflexivity|].
      cbn [map app find_other_row fst snd] in *. rewrite Hv. exact IH. }
    rewrite Hscan. reflexivity.
Qed.

(** X16. A row of a grid that [_process_answer] has just filled is open again
    after the user declines it in [_submit_answer]: the grid in progress
    is what it was before the selection, and the call goes on to ask the
    same question again ([_obtain_question] with [to_process=False]). *)
Theorem rejected_row_is_open_again (c : chat) (data d : string)
    (markup markup' : Markup E) (result : value)
    (filled rest : list (string * option value)) (row : string) :
  _CURRENT_MARKUP (user c) = Some (AMarkup markup) ->
  is_BaseOptionMarkup E markup = true ->
  option_action X markup data = (OValue result, markup') ->
  result <> Str (option_required_warning X) ->
  holds_other X result = false ->
  _CURRENT_ANSWER (user c) = Some (Grid (filled ++ (row, None) :: rest)%list) ->
  Forall (fun kv => snd kv <> None) filled ->
  Forall (fun kv => snd kv = None) rest ->
  NoDup (map fst (filled ++ (row, None) :: rest)%list) ->
  TFMarkup_confirm E d = Some false ->
  exists c2,
    _process_answer X (callback_update (Some data)) c = (Returns _CONFIRM_SUBMIT, c2) /\
    forall (w : world) q p,
      ud w = user c2 ->
      _CURRENT_QUESTION (ud w) = Some (AQuestion q) ->
      _PROCESSOR (ud w) = Some (Active p) ->
      exists w2,
        run (_submit_answer_body (Some d)) w = (TailCall false, w2) /\
        _CURRENT_ANSWER (ud w2) = Some (Grid (filled ++ (row, None) :: rest)%list).
Proof.
  intros Hm Hbase Hact Hwarn Hother Ha Hfilled Hrest Hnd Hconfirm.
  assert (Hn : ~ In row (map fst filled)).
  { rewrite map_app in Hnd. cbn [map fst] in Hnd. now destruct (NoDup_app_head _ _ _ Hnd). }
  destruct (answer_goes_to_the_first_open_row' c data markup markup' result filled rest row
              Hm Hbase Hact Hwarn Hother Ha Hfilled Hn) as (c2 & Hrun & Hans).
  exists c2. split; [exact Hrun|].
  intros w q p Hud Hq Hp.
  assert (Hcur : _CURRENT_ANSWER (ud w)
                 = Some (Grid (fill_first_unanswered (get_skip E) result
                                 (filled ++ (row, None) :: rest)%list))).
  { rewrite Hud. exact Hans. }
  eexists. split.
  - unfold run, _submit_answer_body. unfold bind at 1. unfold get_ud at 1.
    rewrite Hcur, Hq, Hp.
    unfold bind at 1. unfold emit at 1.
    unfold bind at 1. unfold modify_ud at 1.
    unfold bind at 1. unfold set_confirm_handler_pattern at 1.
    rewrite Hconfirm. unfold bind, modify_ud, tail_call. reflexivity.
  - cbn [ud _CURRENT_ANSWER set_CURRENT_ANSWER].
    now rewrite (fill_then_reset _ _ _ _ _ Hfilled Hrest Hnd).
Qed.

(** *** The scheduler menu *)

Lemma start_date_goes_on_with (w : world) (d : string) (markup : Markup E) (name : string)
    x w2 :
  d <> "" ->
  _CURRENT_MARKUP (ud w) = Some (AMarkup markup) ->
  is_DatetimeMarkup E markup = true ->
  _CURRENT_JOB (ud w) = Some (JobName name) ->
  run (_start_date (Some d)) w = (x, w2) ->
  x = Return _SELECT_START \/ x = Return _CONFIRM_ADD.
Proof.
  intros Hd Hm Hdt Hj. apply String.eqb_neq in Hd.
  unfold run, _start_date. unfold bind at 1. unfold get_ud at 1.
  rewrite Hm, Hj, Hd, Hdt. cbn [negb andb].
  unfold get_job_queue. evaluate; intros H; inversion H; auto.
Qed.

Lemma start_date_goes_on (w : world) (d : string) (markup : Markup E) (name : string) :
  d <> "" ->
  _CURRENT_MARKUP (ud w) = Some (AMarkup markup) ->
  is_DatetimeMarkup E markup = true ->
  _CURRENT_JOB (ud w) = Some (JobName name) ->
  fst (run (_start_date (Some d)) w) = Return _SELECT_START \/
  fst (run (_start_date (Some d)) w) = Return _CONFIRM_ADD.
Proof.
  intros Hd Hm Hdt Hj. destruct (run (_start_date (Some d)) w) as [x w2] eqn:Hrun.
  exact (start_date_goes_on_with w d markup name x w2 Hd Hm Hdt Hj Hrun).
Qed.

(** X17. [_fixed_frequency] keeps the pressed frequency as the pending job
    and shows the date picker from the current time on; the next call of
    [_start_date] with that session stays in [_SELECT_START] or goes on to
    [_CONFIRM_ADD], and does not end as a bug.  With a menu or a job
    already in progress [_fixed_frequency] reports a bug and stops. *)
Theorem frequency_is_kept_for_the_start_date (c : chat) (now : datetime) (data : string) :
  (_CURRENT_MARKUP (user c) = None ->
   _CURRENT_JOB (user c) = None ->
   exists c2,
     _fixed_frequency X now (callback_update (Some data)) c = (Returns _SELECT_START, c2) /\
     _CURRENT_JOB (user c2) = Some (JobName data) /\
     _CURRENT_MARKUP (user c2) = Some (AMarkup (DatetimeMarkup_from X true now)) /\
     sent c2 =
       edit_text select_start
         (inline (keyboard (get_markup E (DatetimeMarkup_from X true now))))
       :: answer_query None :: sent c /\
     forall (w : world) (d : string),
       ud w = user c2 -> d <> "" ->
       is_DatetimeMarkup E (DatetimeMarkup_from X true now) = true ->
       fst (run (_start_date (Some d)) w) = Return _SELECT_START \/
       fst (run (_start_date (Some d)) w) = Return _CONFIRM_ADD) /\
  (_CURRENT_MARKUP (user c) <> None \/ _CURRENT_JOB (user c) <> None ->
   _fixed_frequency X now (callback_update (Some data)) c
     = (Returns _STOPPING, told bug_message c)).
Proof.
  split.
  - intros Hm Hj. eexists. split.
    + unfold _fixed_frequency, finish, _fixed_frequency_body.
      unfold and_then at 1. unfold chat_now at 1. rewrite Hm, Hj.
      unfold ask_for_start, and_then, set_current_job, say, change_user, returning, stop.
      reflexivity.
    + cbn [user sent _CURRENT_JOB _CURRENT_MARKUP set_CURRENT_JOB set_CURRENT_MARKUP].
      repeat split.
      intros w d Hud Hd Hdt.
      apply (start_date_goes_on w d (DatetimeMarkup_from X true now) data Hd);
        [rewrite Hud; reflexivity | exact Hdt | rewrite Hud; reflexivity].
  - intros H. unfold _fixed_frequency, finish, _fixed_frequency_body.
    unfold and_then at 1. unfold chat_now at 1.
    destruct (_CURRENT_MARKUP (user c)) as [slot|]; [reflexivity|].
    destruct (_CURRENT_JOB (user c)) as [j|]; [reflexivity|].
    destruct H as [H|H]; now elim H.
Qed.

Lemma digits_after_submit_every (result : string) :
  Py.findall_digits ("Submit every " ++ result) = Py.findall_digits result.
Proof. reflexivity. Qed.

(** X18. When the menu of a custom frequency answers with the text of an
    interval, [_handle_custom] names the pending job by the words
    [Submit every] followed by that text and shows the date picker.  The
    three numbers of the text are read back from that name as days, hours
    and minutes, and the job of that name is one that repeats every
    [60 * ((d * 24 + h) * 60 + m)] seconds from its start. *)
Theorem custom_frequency_gives_the_interval (c : chat) (utcnow : datetime) (data : string)
    (markup markup' : Markup E) (result : string) :
  data <> "" ->
  _CURRENT_MARKUP (user c) = Some (AMarkup markup) ->
  is_FreqCustomMarkup X markup = true ->
  _CURRENT_JOB (user c) = None ->
  perform_action E markup data = (AStr result, markup') ->
  result <> get_invalid_message X ->
  exists c2,
    _handle_custom X utcnow (callback_update (Some data)) c = (Returns _SELECT_START, c2) /\
    _CURRENT_JOB (user c2) = Some (JobName ("Submit every " ++ result)) /\
    _CURRENT_MARKUP (user c2) = Some (AMarkup (DatetimeMarkup_from X true utcnow)) /\
    forall days hours minutes d h m start,
      Py.findall_digits result = [days; hours; minutes] ->
      Py.int days = Some d -> Py.int hours = Some h -> Py.int minutes = Some m ->
      valid_freq E d h m = true ->
      ~ In ("Submit every " ++ result)
          [get_hourly E; get_daily E; get_weekly E; get_monthly E] ->
      trigger_for ("Submit every " ++ result) start
        = Some (run_repeating (60 * ((d * 24 + h) * 60 + m)) start).
Proof.
  clear _clear_cache _main_menu.
  intros Hd Hm Hfc Hj Hact Hinv. apply String.eqb_neq in Hd, Hinv.
  eexists. split.
  - unfold _handle_custom, finish, _handle_custom_body.
    unfold and_then at 1. unfold callback_data, pure at 1.
    unfold and_then at 1. unfold chat_now at 1.
    unfold nonempty. rewrite Hd, Hm, Hj, Hfc, Hact.
    unfold and_then at 1. unfold change_user at 1. rewrite Hinv.
    unfold ask_for_start, and_then, set_current_job, say, change_user, returning, stop.
    reflexivity.
  - cbn [user _CURRENT_JOB _CURRENT_MARKUP set_CURRENT_JOB set_CURRENT_MARKUP].
    repeat split.
    intros days hours minutes d h m start Hruns Hdays Hhours Hminutes Hvalid Hfixed.
    unfold trigger_for. cbn [In] in Hfixed.
    destruct (String.eqb_spec ("Submit every " ++ result) (get_hourly E));
      [exfalso; intuition congruence|].
    destruct (String.eqb_spec ("Submit every " ++ result) (get_daily E));
      [exfalso; intuition congruence|].
    destruct (String.eqb_spec ("Submit every " ++ result) (get_weekly E));
      [exfalso; intuition congruence|].
    destruct (String.eqb_spec ("Submit every " ++ result) (get_monthly E));
      [exfalso; intuition congruence|].
    rewrite digits_after_submit_every, Hruns, Hdays, Hhours, Hminutes, Hvalid. reflexivity.
Qed.

Lemma datetime_eqb_eq (a b : datetime) : datetime_eqb a b = true -> a = b.
Proof.
  destruct a, b. unfold datetime_eqb. cbn [year month day hour minute]. intros H.
  repeat (apply andb_prop in H; destruct H as [H ?]).
  repeat match goal with H : (_ =? _)%Z = true |- _ => apply Z.eqb_eq in H end.
  now subst.
Qed.

Lemma datetime_eqb_refl (a : datetime) : datetime_eqb a a = true.
Proof. unfold datetime_eqb. now rewrite !Z.eqb_refl. Qed.

Lemma trigger_eqb_eq (a b : trigger) : trigger_eqb a b = true -> a = b.
Proof.
  destruct a as [i f|[h m]|[h m] d], b as [i' f'|[h' m']|[h' m'] d']; cbn [trigger_eqb];
    try discriminate; intros H;
    repeat (apply andb_prop in H; destruct H as [H ?]);
    repeat match goal with
           | H : (_ =? _)%Z = true |- _ => apply Z.eqb_eq in H
           | H : datetime_eqb _ _ = true |- _ => apply datetime_eqb_eq in H
           end;
    now subst.
Qed.

Lemma trigger_eqb_refl (a : trigger) : trigger_eqb a a = true.
Proof.
  destruct a as [i f|[h m]|[h m] d]; cbn [trigger_eqb];
    now rewrite ?Z.eqb_refl, ?datetime_eqb_refl.
Qed.

Lemma job_eqb_eq (a b : job) : job_eqb a b = true -> a = b.
Proof.
  destruct a, b. unfold job_eqb. cbn [job_name job_trigger]. intros H.
  apply andb_prop in H. destruct H as [Hn Ht].
  apply String.eqb_eq in Hn. apply trigger_eqb_eq in Ht. now subst.
Qed.

Lemma job_eqb_refl (a : job) : job_eqb a a = true.
Proof. unfold job_eqb. now rewrite String.eqb_refl, trigger_eqb_refl. Qed.

Lemma job_in_queue (j : job) (queue : list job) :
  In j queue -> existsb (job_eqb j) queue = true.
Proof. intros Hin. apply existsb_exists. exists j. split; [exact Hin | apply job_eqb_refl]. Qed.

Lemma first_by_name_in_queue (name : string) (queue : list job) (first : job)
    (others : list job) :
  get_jobs_by_name name queue = first :: others -> In first queue /\ job_name first = name.
Proof.
  intros H. assert (Hin : In first (get_jobs_by_name name queue)) by (rewrite H; now left).
  unfold get_jobs_by_name in Hin. apply filter_In in Hin. destruct Hin as [Hin Hn].
  split; [exact Hin | now apply String.eqb_eq].
Qed.

(** [remove_job] takes out the first occurrence of the job and nothing
    else. *)
Lemma remove_job_split (j : job) (queue : list job) :
  In j queue ->
  exists before after,
    queue = (before ++ j :: after)%list /\ ~ In j before /\
    remove_job j queue = (before ++ after)%list.
Proof.
  induction queue as [|j' rest IH]; intros Hin; [contradiction|].
  cbn [remove_job]. destruct (job_eqb j j') eqn:He.
  - apply job_eqb_eq in He. subst j'. exists [], rest. repeat split. intros [].
  - assert (Hne : j' <> j) by (intros ->; now rewrite job_eqb_refl in He).
    destruct Hin as [->|Hin]; [now elim Hne|].
    destruct (IH Hin) as (before & after & Hq & Hn & Hr).
    exists (j' :: before), after. cbn [app]. rewrite <- Hq, Hr. repeat split.
    intros [H|H]; [now apply Hne | now apply Hn].
Qed.

(** X19. [_confirm_removal] holds the first job of the queue with the pressed
    name and asks for a confirmation; it reports a bug when there is no
    such job.  [_perform_removal] then schedules the removal of exactly
    that job on yes and of no job on no, and in both cases drops the held
    job and returns [_CANCEL]; on any other button it reports a bug and
    the job is still held. *)
Theorem removal_takes_the_first_job_of_that_name (c : chat) (name d : string) :
  name <> "" ->
  d <> "" ->
  _CURRENT_JOB (user c) = None ->
  (get_jobs_by_name name (jobs c) = [] ->
   _confirm_removal (callback_update (Some name)) c
     = (Returns _STOPPING, told bug_message (told (answer_query None) c))) /\
  (forall first others,
     get_jobs_by_name name (jobs c) = first :: others ->
     exists c1,
       _confirm_removal (callback_update (Some name)) c = (Returns _CONFIRM_REMOVE, c1) /\
       sent c1 = edit_text removal_warning (inline TF_markup) :: answer_query None :: sent c /\
       jobs c1 = jobs c /\
       (TFMarkup_confirm E d = Some true ->
        exists c2,
          _perform_removal (callback_update (Some d)) c1 = (Returns _CANCEL, c2) /\
          sent c2 =
            edit_text job_removed (inline (ok_button _SET_REMINDER))
            :: schedule_removal first :: answer_query None :: sent c1 /\
          _CURRENT_JOB (user c2) = None) /\
       (TFMarkup_confirm E d = Some false ->
        exists c2,
          _perform_removal (callback_update (Some d)) c1 = (Returns _CANCEL, c2) /\
          sent c2 =
            edit_text removal_aborted (inline (ok_button _SET_REMINDER))
            :: answer_query None :: sent c1 /\
          _CURRENT_JOB (user c2) = None) /\
       (TFMarkup_confirm E d = None ->
        exists c2,
          _perform_removal (callback_update (Some d)) c1 = (Returns _STOPPING, c2) /\
          sent c2 = bug_message :: answer_query None :: sent c1 /\
          _CURRENT_JOB (user c2) = Some NotAName)).
Proof.
  intros Hname Hd Hj. apply String.eqb_neq in Hname, Hd.
  split.
  - intros Hnone. unfold _confirm_removal, finish, _confirm_removal_body.
    unfold and_then at 1. unfold callback_data, pure at 1.
    unfold and_then at 1. unfold chat_now at 1.
    unfold nonempty. rewrite Hname, Hj.
    unfold and_then at 1. unfold say at 1. cbn [jobs]. rewrite Hnone. reflexivity.
  - intros first others Hfound. eexists. split.
    + unfold _confirm_removal, finish, _confirm_removal_body.
      unfold and_then at 1. unfold callback_data, pure at 1.
      unfold and_then at 1. unfold chat_now at 1.
      unfold nonempty. rewrite Hname, Hj.
      unfold and_then at 1. unfold say at 1. cbn [jobs]. rewrite Hfound.
      unfold and_then, set_current_job, say, returning, stop.
      cbn [user held_job _GARBAGE_INPUT_COUNTER jobs remind_handler_pattern sent].
      reflexivity.
    + cbn [sent jobs]. split; [reflexivity|]. split; [reflexivity|].
      destruct (first_by_name_in_queue _ _ _ _ Hfound) as [Hin _].
      pose proof (job_in_queue _ _ Hin) as Hqueue.
      split; [|split]; intros Hconfirm; eexists;
        (split;
         [ unfold _perform_removal, finish, _perform_removal_body;
           unfold and_then at 1; unfold callback_data, pure at 1;
           unfold and_then at 1; unfold chat_now at 1;
           unfold nonempty; rewrite Hd;
           cbn [user held_job _CURRENT_JOB set_CURRENT_JOB];
           unfold and_then at 1; unfold say at 1; rewrite Hconfirm;
           unfold schedule_removal_of;
           unfold and_then, chat_now, set_jobs, set_current_job, say, pure, returning, stop;
           cbn [user held_job _GARBAGE_INPUT_COUNTER jobs remind_handler_pattern sent];
           rewrite ?Hqueue;
           cbn [user held_job _GARBAGE_INPUT_COUNTER jobs remind_handler_pattern sent];
           reflexivity
         | split; reflexivity ]).
Qed.

Lemma listed_job_is_found (name : string) (queue : list job) :
  In name (map job_name queue) -> get_jobs_by_name name queue <> [].
Proof.
  intros Hin. apply in_map_iff in Hin. destruct Hin as (j & Hj & Hin).
  assert (Hf : In j (get_jobs_by_name name queue)).
  { unfold get_jobs_by_name. apply filter_In. split; auto. rewrite Hj. apply String.eqb_refl. }
  intros Hnil. rewrite Hnil in Hf. contradiction.
Qed.

(** X20. With an empty job queue [_select_reminder] says that there is no
    reminder and returns [_CANCEL].  Otherwise it compiles the pattern of
    the job names, as they are, for the job handler: when the pattern does
    not compile the call ends with the [re.error] before anything is
    shown; when it compiles, the handler gets it, one button per job is
    shown in the order of the queue and the call returns [_SELECT_JOB].
    A call of [_confirm_removal] with the name of a listed job then holds
    a job of that name from the queue and returns [_CONFIRM_REMOVE]. *)
Theorem reminders_are_listed_for_removal (c : chat) (data : option string) :
  (jobs c = [] ->
   _select_reminder X (callback_update data) c
     = (Returns _CANCEL,
        told (edit_text no_reminders (inline (ok_button _SET_REMINDER)))
          (told (answer_query None) c))) /\
  (jobs c <> [] ->
   re_compile X ("^(" ++ String.concat "|" (map job_name (jobs c)) ++ ")$") = false ->
   _select_reminder X (callback_update data) c
     = (Fails re_error, told (answer_query None) c)) /\
  (jobs c <> [] ->
   re_compile X ("^(" ++ String.concat "|" (map job_name (jobs c)) ++ ")$") = true ->
   exists c1,
     _select_reminder X (callback_update data) c = (Returns _SELECT_JOB, c1) /\
     remind_handler_pattern c1
       = "^(" ++ String.concat "|" (map job_name (jobs c)) ++ ")$" /\
     sent c1 =
       edit_text select_a_job (job_buttons (map job_name (jobs c)))
       :: answer_query None :: sent c /\
     jobs c1 = jobs c /\
     forall name,
       In name (map job_name (jobs c)) -> name <> "" -> _CURRENT_JOB (user c) = None ->
       exists first c2,
         _confirm_removal (callback_update (Some name)) c1 = (Returns _CONFIRM_REMOVE, c2) /\
         held_job c2 = Some first /\
         In first (jobs c) /\ job_name first = name).
Proof.
  split; [|split].
  - intros Hnone. unfold _select_reminder, finish, _select_reminder_body, told.
    unfold and_then, say, chat_now, returning, stop. cbn [jobs fst snd].
    rewrite Hnone. reflexivity.
  - intros Hsome Hbad. unfold _select_reminder, finish, _select_reminder_body, told.
    unfold and_then, say, chat_now, failing, stop. cbn [jobs fst snd].
    destruct (jobs c) as [|j queue] eqn:Hq; [now elim Hsome|].
    unfold jobs_pattern. rewrite Hbad. reflexivity.
  - intros Hsome Hgood.
    exists (told (edit_text select_a_job (job_buttons (map job_name (jobs c))))
              (snd (set_remind_handler_pattern
                      ("^(" ++ String.concat "|" (map job_name (jobs c)) ++ ")$")
                      (told (answer_query None) c)))).
    split.
    + unfold _select_reminder, finish, _select_reminder_body, told.
      unfold and_then, set_remind_handler_pattern, say, chat_now, returning, stop.
      cbn [jobs fst snd]. destruct (jobs c) as [|j queue] eqn:Hq; [now elim Hsome|].
      unfold jobs_pattern. rewrite Hgood. reflexivity.
    + unfold told, set_remind_handler_pattern, say.
      cbn [remind_handler_pattern sent jobs fst snd].
      split; [reflexivity|]. split; [reflexivity|]. split; [reflexivity|].
      intros name Hin Hname Hj. apply String.eqb_neq in Hname.
      pose proof (listed_job_is_found name (jobs c) Hin) as Hfound.
      destruct (get_jobs_by_name name (jobs c)) as [|first others] eqn:Hby;
        [now elim Hfound|].
      destruct (first_by_name_in_queue _ _ _ _ Hby) as [Hfirst Hsame].
      exists first. eexists. split.
      * unfold _confirm_removal, finish, _confirm_removal_body.
        unfold and_then at 1. unfold callback_data, pure at 1.
        unfold and_then at 1. unfold chat_now at 1.
        unfold nonempty. rewrite Hname. cbn [user]. rewrite Hj.
        unfold and_then at 1. unfold say at 1. cbn [jobs]. rewrite Hby.
        unfold and_then, set_current_job, say, returning, stop. reflexivity.
      * cbn [held_job]. repeat split; assumption.
Qed.

(** *** Unrecognised input and errors *)

Lemma format_enough_arguments (n : nat) : forall (t : string) (args : list string),
  String.length t <= n ->
  Py.count_fields t <= List.length args ->
  Py.format t args <> None.
Proof.
  induction n as [|n IH]; intros t args Hlen Hcount.
  - destruct t; [discriminate | cbn [String.length] in Hlen; lia].
  - destruct t as [|ch t]; [discriminate|].
    cbn [String.length] in Hlen.
    assert (Hplain : Py.count_fields t <= List.length args ->
                     option_map (String ch) (Py.format t args) <> None).
    { intros Hc. specialize (IH t args ltac:(lia) Hc).
      destruct (Py.format t args); [discriminate | congruence]. }
    destruct ch as [[] [] [] [] [] [] [] []]; try (apply Hplain; exact Hcount).
    destruct t as [|ch2 t]; [discriminate|].
    cbn [String.length] in Hlen.
    destruct ch2 as [[] [] [] [] [] [] [] []];
      try (cbn [Py.format Py.count_fields] in *; apply Hplain; exact Hcount).
    cbn [Py.format Py.count_fields] in *.
    destruct args as [|a args]; cbn [List.length] in Hcount; [lia|].
    specialize (IH t args ltac:(lia) ltac:(lia)).
    destruct (Py.format t args); [discriminate | congruence].
Qed.

(** Filling a template in never fails: it has as many arguments as the
    template has fields. *)
Lemma fill_in_succeeds (t input full_name : string) :
  exists reply, fill_in t input full_name = Some reply.
Proof.
  unfold fill_in.
  destruct (Nat.eqb_spec (Py.count_fields t) 1) as [H1|H1].
  - pose proof (format_enough_arguments _ t [input] (le_n _)) as Hf.
    destruct (Py.format t [input]); [eauto|]. exfalso. apply Hf; auto.
    rewrite H1. cbn. lia.
  - destruct (Nat.eqb_spec (Py.count_fields t) 2) as [H2|H2]; [|eauto].
    pose proof (format_enough_arguments _ t [input; full_name] (le_n _)) as Hf.
    destruct (Py.format t [input; full_name]); [eauto|]. exfalso. apply Hf; auto.
    rewrite H2. cbn. lia.
Qed.

Lemma echo_run (pick : nat -> nat) (input full_name : string) (c : chat) :
  pick (List.length _anti_garbage_replies) < List.length _anti_garbage_replies ->
  pick (List.length _garbage_replies) < List.length _garbage_replies ->
  let n := (garbage_count c + 1)%Z in
  exists said,
    _echo pick input full_name c
    = (ReturnsNone,
       {| user := user c; held_job := held_job c;
          _GARBAGE_INPUT_COUNTER := Some n; jobs := jobs c;
          remind_handler_pattern := remind_handler_pattern c;
          sent := said :: sent c |}) /\
    ((n <= 2)%Z -> said = potential_feature_message (not_understood input)) /\
    ((2 < n)%Z -> (n mod 5 = 0)%Z ->
       exists t, nth_error _anti_garbage_replies (pick 3) = Some t /\
                 said = reply_text (literally t) ReplyKeyboardRemove) /\
    ((2 < n)%Z -> (n mod 5 <> 0)%Z ->
       exists t reply,
         nth_error _garbage_replies (pick 93) = Some t /\
         fill_in t input full_name = Some reply /\
         said = reply_text (literally reply) ReplyKeyboardRemove).
Proof.
  intros Hanti Hgarbage n.
  unfold _echo, finish, _echo_body.
  unfold and_then at 1. unfold chat_now at 1. fold (garbage_count c). fold n.
  unfold and_then at 1. unfold set_garbage_input_counter at 1.
  destruct (n <=? 2)%Z eqn:Hsmall.
  - apply Z.leb_le in Hsmall.
    unfold and_then, say, stop. cbn [fst snd sent _GARBAGE_INPUT_COUNTER].
    eexists. split; [reflexivity|].
    repeat split; intros; try lia; reflexivity.
  - apply Z.leb_gt in Hsmall. unfold _ANTI_GARBAGE_PROMPT_AFTER.
    destruct (n mod 5 =? 0)%Z eqn:Hfifth.
    + apply Z.eqb_eq in Hfifth. unfold drawn.
      destruct (nth_error _anti_garbage_replies (pick (List.length _anti_garbage_replies)))
        as [t|] eqn:Ht; [|apply nth_error_None in Ht; lia].
      unfold and_then, pure, say. cbn [fst snd sent _GARBAGE_INPUT_COUNTER].
      eexists. split; [reflexivity|].
      repeat split; intros; try lia. exists t. split; [exact Ht | reflexivity].
    + apply Z.eqb_neq in Hfifth. unfold drawn.
      destruct (nth_error _garbage_replies (pick (List.length _garbage_replies)))
        as [t|] eqn:Ht; [|apply nth_error_None in Ht; lia].
      destruct (fill_in_succeeds t input full_name) as [reply Hreply].
      unfold and_then, pure, say. rewrite Hreply.
      cbn [fst snd sent _GARBAGE_INPUT_COUNTER].
      eexists. split; [reflexivity|].
      repeat split; intros; try lia. exists t, reply. repeat split; auto.
Qed.

(** X21. [_echo] counts each message it gets and answers it with exactly one
    message: the first two with the not-understood notice; a later one
    with one of the anti-garbage replies when the count is a multiple of
    5, and otherwise with one of the garbage replies, filled in with the
    input and the name of the sender.  Filling in succeeds for each of the
    garbage replies. *)
Theorem echo_reminds_every_fifth_time (pick : nat -> nat) (input full_name : string)
    (c : chat) :
  pick (List.length _anti_garbage_replies) < List.length _anti_garbage_replies ->
  pick (List.length _garbage_replies) < List.length _garbage_replies ->
  let n := (garbage_count c + 1)%Z in
  fst (_echo pick input full_name c) = ReturnsNone /\
  _GARBAGE_INPUT_COUNTER (snd (_echo pick input full_name c)) = Some n /\
  exists said,
    sent (snd (_echo pick input full_name c)) = said :: sent c /\
    ((n <= 2)%Z -> said = potential_feature_message (not_understood input)) /\
    ((2 < n)%Z -> (n mod 5 = 0)%Z ->
       exists t, nth_error _anti_garbage_replies (pick 3) = Some t /\
                 said = reply_text (literally t) ReplyKeyboardRemove) /\
    ((2 < n)%Z -> (n mod 5 <> 0)%Z ->
       exists t reply,
         nth_error _garbage_replies (pick 93) = Some t /\
         fill_in t input full_name = Some reply /\
         said = reply_text (literally reply) ReplyKeyboardRemove).
Proof.
  intros Hanti Hgarbage n.
  destruct (echo_run pick input full_name c Hanti Hgarbage) as (said & Hrun & Hsaid).
  fold n in Hrun, Hsaid. rewrite Hrun. cbn [fst snd sent _GARBAGE_INPUT_COUNTER].
  split; [reflexivity|]. split; [reflexivity|]. exists said. split; [reflexivity|exact Hsaid].
Qed.

Lemma substring_empty (n m : nat) : String.substring n m "" = "".
Proof. destruct n, m; reflexivity. Qed.

Lemma substring_nothing (s : string) : forall n, String.substring n 0 s = "".
Proof.
  induction s as [|ch s IH]; intros [|n]; cbn [String.substring]; auto.
Qed.

Lemma substring_split (s : string) : forall n a b,
  String.substring n (a + b) s = String.substring n a s ++ String.substring (n + a) b s.
Proof.
  induction s as [|ch s IH]; intros n a b.
  - now rewrite !substring_empty.
  - destruct n as [|n]; cbn [String.substring Nat.add].
    + destruct a as [|a]; cbn [String.substring Nat.add String.append]; [reflexivity|].
      rewrite (IH 0 a b). reflexivity.
    + apply IH.
Qed.

Lemma substring_all (s : string) : String.substring 0 (String.length s) s = s.
Proof. induction s; cbn [String.substring String.length]; congruence. Qed.

Lemma substring_length (s : string) : forall n m,
  n + m <= String.length s -> String.length (String.substring n m s) = m.
Proof.
  induction s as [|ch s IH]; intros n m H; cbn [String.length] in H.
  - assert (m = 0) by lia. subst. now rewrite substring_empty.
  - destruct n as [|n]; cbn [String.substring].
    + destruct m as [|m]; [reflexivity|]. cbn [String.length]. f_equal. apply IH. lia.
    + apply IH. lia.
Qed.

Lemma range_from_done (fuel start stop step : nat) :
  stop <= start -> Py.range_from fuel start stop step = [].
Proof.
  intros H. destruct fuel; [reflexivity|]. cbn [Py.range_from].
  destruct (Nat.ltb_spec start stop); [lia|reflexivity].
Qed.

(** The pieces from [start] on make up the rest of the message. *)
Lemma pieces_from (size : nat) (message : string) :
  0 < size ->
  forall fuel start,
    String.length message - start <= fuel ->
    start <= String.length message ->
    fold_right String.append ""
      (map (fun i => Py.slice message i
                       (i + Nat.min size (String.length message - i)))
           (Py.range_from fuel start (String.length message) size))
    = String.substring start (String.length message - start) message.
Proof.
  intros Hsize. induction fuel as [|fuel IH]; intros start Hfuel Hstart.
  - replace (String.length message - start) with 0 by lia.
    cbn [Py.range_from map fold_right]. now rewrite substring_nothing.
  - cbn [Py.range_from]. destruct (Nat.ltb_spec start (String.length message)) as [Hlt|Hge].
    + cbn [map fold_right]. unfold Py.slice at 1.
      replace (start + Nat.min size (String.length message - start) - start)
        with (Nat.min size (String.length message - start)) by lia.
      destruct (Nat.le_gt_cases (start + size) (String.length message)) as [Hfit|Hlast].
      * rewrite IH by lia.
        replace (Nat.min size (String.length message - start)) with size by lia.
        replace (String.length message - start)
          with (size + (String.length message - (start + size))) by lia.
        now rewrite substring_split.
      * rewrite range_from_done by lia. cbn [map fold_right].
        replace (Nat.min size (String.length message - start))
          with (String.length message - start) by lia.
        apply append_empty_r.
    + replace (String.length message - start) with 0 by lia.
      cbn [map fold_right]. now rewrite substring_nothing.
Qed.

Lemma range_from_bounds (stop step : nat) : forall fuel start i,
  In i (Py.range_from fuel start stop step) -> start <= i < stop.
Proof.
  induction fuel as [|fuel IH]; intros start i; cbn [Py.range_from In]; [tauto|].
  destruct (Nat.ltb_spec start stop) as [Hlt|Hge]; cbn [In]; [|tauto].
  intros [<-|Hin]; [lia|]. specialize (IH _ _ Hin). lia.
Qed.

(** X22. The pieces of the notice that [_error_handler] sends to the
    developer are the notice cut after every 4096 characters: put
    together in order they give the notice again, and each piece has
    between 1 and 4096 characters. *)
Theorem developer_notice_is_sent_whole (message : string) :
  fold_right String.append "" (notice_pieces 4096 message) = message /\
  Forall (fun piece => 1 <= String.length piece <= 4096) (notice_pieces 4096 message).
Proof.
  assert (Hsize : 0 < 4096) by apply Nat.lt_0_succ.
  split.
  - unfold notice_pieces, Py.range.
    rewrite (pieces_from 4096 message Hsize) by lia.
    rewrite Nat.sub_0_r. apply substring_all.
  - unfold notice_pieces, Py.range. apply Forall_forall. intros piece Hin.
    apply in_map_iff in Hin. destruct Hin as (i & <- & Hi).
    apply range_from_bounds in Hi. unfold Py.slice.
    replace (i + Nat.min 4096 (String.length message - i) - i)
      with (Nat.min 4096 (String.length message - i)) by lia.
    rewrite substring_length by lia. lia.
Qed.

Lemma send_to_developer_run (pieces : list string) : forall c,
  send_to_developer pieces c =
    (inl tt,
     {| user := user c; held_job := held_job c;
        _GARBAGE_INPUT_COUNTER := _GARBAGE_INPUT_COUNTER c; jobs := jobs c;
        remind_handler_pattern := remind_handler_pattern c;
        sent := (rev (map developer_message pieces) ++ sent c)%list |}).
Proof.
  induction pieces as [|piece pieces IH]; intros c.
  - destruct c; reflexivity.
  - cbn [send_to_developer]. unfold and_then, say. rewrite IH.
    cbn [user held_job _GARBAGE_INPUT_COUNTER jobs remind_handler_pattern sent map rev].
    now rewrite <- app_assoc.
Qed.

(** X23. Without a developer id [_error_handler] sends nothing.  With one it
    sends every piece of the notice to the developer, in order, and only
    then the bug message to the user; when the update has no message to
    answer to, the pieces are sent all the same and the handler ends with
    an [AttributeError]. *)
Theorem error_handler_reports_to_the_developer_first (upd : option update)
    (message : string) (c : chat) :
  _error_handler None upd message c = (ReturnsNone, c) /\
  forall id,
    fst (_error_handler (Some id) upd message c) =
      match upd with
      | Some (callback_update _) | Some (message_update _ _) => ReturnsNone
      | Some empty_update | None => Fails (Uncaught AttributeError)
      end /\
    sent (snd (_error_handler (Some id) upd message c)) =
      (match upd with
       | Some (callback_update _) | Some (message_update _ _) => [bug_message]
       | Some empty_update | None => []
       end
       ++ rev (map developer_message (notice_pieces 4096 message)) ++ sent c)%list.
Proof.
  split; [reflexivity|]. intros id.
  unfold _error_handler, finish, _error_handler_body. unfold and_then.
  rewrite send_to_developer_run.
  destruct upd as [[data|text name|]|]; unfold say, failing, stop; cbn [fst snd sent app];
    split; reflexivity.
Qed.


End ConversationFacts.

End Handlers.

Arguments Normal {A} a.
Arguments Exit {A} x.
Arguments IdleLink {E} link.
Arguments Active {E} p.
Arguments NotAProcessor {E}.
Arguments AQuestion {E} q.
Arguments NotAQuestion {E}.
Arguments AMarkup {E} m.
Arguments NoneMarkup {E}.
Arguments ud {E} w.
Arguments job_queue {E} w.
Arguments answer_handler_pattern {E} w.
Arguments confirm_handler_pattern {E} w.
Arguments history {E} w.
Arguments _SAVE_PREFS {E} u.
Arguments _PROCESSOR {E} u.
Arguments _CURRENT_QUESTION {E} u.
Arguments _CURRENT_ANSWER {E} u.
Arguments _CURRENT_MARKUP {E} u.
Arguments _CURRENT_JOB {E} u.
Arguments callback_answer {E} alert.
Arguments edit_message_text {E} t m.
Arguments send_bug_message {E}.
Arguments driver {E} c.
Arguments no_markup {E}.
Arguments TF_markup {E}.
Arguments return_button {E}.
Arguments ok_button {E} to.
Arguments keyboard {E} k.
Arguments status {E} h.
Arguments OKeyboard {E} k.
Arguments OValue {E} v.
Arguments ONeither {E}.
Arguments inline {E} m.
Arguments ReplyKeyboardRemove {E}.
Arguments scheduler_buttons {E}.
Arguments job_buttons {E} names.
Arguments answer_query {E} alert.
Arguments edit_text {E} t m.
Arguments reply_text {E} t m.
Arguments bug_message {E}.
Arguments potential_feature_message {E} t.
Arguments developer_message {E} chunk.
Arguments schedule_removal {E} j.
Arguments user {E} c.
Arguments held_job {E} c.
Arguments _GARBAGE_INPUT_COUNTER {E} c.
Arguments jobs {E} c.
Arguments remind_handler_pattern {E} c.
Arguments sent {E} c.
Arguments told {E} e c.
Arguments with_user {E} f c.
Arguments garbage_count {E} c.
Arguments one_at_a_time {E} h.

(** *** A scripted driver

    A driver that answers from a script: the results of [get_question],
    of [get_info] and of [answer_question] in the order of the calls
    ([True] when a list is used up).  Re-discovery always finds the
    element.  The markups answer the chosen date back, "True" and "False"
    are the two buttons of the yes/no markup. *)
Record scripted_question : Type := {
  sq_header : string;
  sq_description : string;
  sq_required : bool;
  sq_grid : bool;
  sq_sub_questions : list string
}.

Record scripted_driver : Type := {
  sd_link : string;
  sd_questions : list (question_result scripted_question);
  sd_infos : list (option bool);
  sd_accepts : list (option bool)
}.

Inductive scripted_markup : Type :=
| SDatetime (required : bool)
| SDate (required : bool)
| STime (required : bool) (second : option Z)
| SMenu (required multi : bool) (options : list string).

Definition scripted_get_question (p : scripted_driver) (start : bool)
    : question_result scripted_question * scripted_driver :=
  match sd_questions p with
  | [] => (QTrue, p)
  | r :: rest =>
      (r, {| sd_link := sd_link p; sd_questions := rest;
             sd_infos := sd_infos p; sd_accepts := sd_accepts p |})
  end.

Definition scripted_get_info (q : scripted_question) (p : scripted_driver)
    : option bool * scripted_question * scripted_driver :=
  match sd_infos p with
  | [] => (Some true, q, p)
  | r :: rest =>
      (r, q, {| sd_link := sd_link p; sd_questions := sd_questions p;
                sd_infos := rest; sd_accepts := sd_accepts p |})
  end.

Definition scripted_answer_question (p : scripted_driver) (s : submission)
    : option bool * scripted_driver :=
  match sd_accepts p with
  | [] => (Some true, p)
  | r :: rest =>
      (r, {| sd_link := sd_link p; sd_questions := sd_questions p;
             sd_infos := sd_infos p; sd_accepts := rest |})
  end.

(** [strptime] on the two start dates the examples use. *)
Definition scripted_strptime (s : string) : option datetime :=
  if s =? "2030-01-02 10:00"
  then Some {| year := 2030; month := 1; day := 2; hour := 10; minute := 0 |}
  else if s =? "2030-03-15 10:00"
  then Some {| year := 2030; month := 3; day := 15; hour := 10; minute := 0 |}
  else None.

Definition scripted (questions : list (question_result scripted_question))
    (infos accepts : list (option bool)) : Env :=
  {| FormProcessor := scripted_driver;
     Question := scripted_question;
     WebElement := unit;
     Markup := scripted_markup;
     Keyboard := scripted_markup;
     new_FormProcessor := fun link =>
       {| sd_link := link; sd_questions := questions;
          sd_infos := infos; sd_accepts := accepts |};
     get_question := scripted_get_question;
     refresh_section := fun p => (Some tt, p);
     answer_question := scripted_answer_question;
     close_browser := fun p => p;
     get_link := sd_link;
     get_info := scripted_get_info;
     set_question_element := fun q _ => q;
     get_pref_key := fun q => (sq_header q, sq_description q, sq_required q);
     get_header := sq_header;
     get_description := sq_description;
     is_required := sq_required;
     get_sub_questions := sq_sub_questions;
     get_options := fun _ => ["A"; "B"];
     is_DatetimeQuestion := fun _ => false;
     is_DateQuestion := fun _ => false;
     is_TimeQuestion := fun _ => false;
     is_DurationQuestion := fun _ => false;
     is_BaseOptionQuestion := sq_grid;
     is_CheckboxQuestion := fun _ => false;
     is_BaseOptionGridQuestion := sq_grid;
     DatetimeMarkup := SDatetime;
     DateMarkup := SDate;
     TimeMarkup := STime;
     MenuMarkup := SMenu;
     is_BaseOptionMarkup := fun _ => true;
     is_DatetimeMarkup := fun m => match m with SDatetime _ => true | _ => false end;
     perform_action := fun m data => (AStr data, m);
     get_pattern := fun _ => "^.*$";
     get_markup := fun m => m;
     get_required_warning := "REQUIRED";
     get_skip := "Skip";
     TFMarkup_confirm := fun data =>
       if data =? "True" then Some true
       else if data =? "False" then Some false else None;
     TFMarkup_get_pattern := "^(True|False)$";
     get_hourly := "Hourly";
     get_daily := "Daily";
     get_weekly := "Weekly";
     get_monthly := "Monthly";
     valid_freq := fun d h m => negb (Z.eqb d 0 && Z.eqb h 0 && Z.ltb m 5);
     strptime := scripted_strptime |}.

Definition text_question (header : string) : scripted_question :=
  {| sq_header := header; sq_description := ""; sq_required := true;
     sq_grid := false; sq_sub_questions := [] |}.

Definition grid_question (header : string) (subs : list string) : scripted_question :=
  {| sq_header := header; sq_description := ""; sq_required := true;
     sq_grid := true; sq_sub_questions := subs |}.

(** A session that holds a form link and nothing else. *)
Definition idle_session (E : Env) (prefs : option save_prefs) : world E :=
  {| ud := {| _SAVE_PREFS := prefs; _PROCESSOR := Some (IdleLink "https://forms/1");
              _CURRENT_QUESTION := None; _CURRENT_ANSWER := None;
              _CURRENT_MARKUP := None; _CURRENT_JOB := None |};
     job_queue := [];
     answer_handler_pattern := "^$";
     confirm_handler_pattern := "^$";
     history := [] |}.

(** The menus of the scripted forms: a menu answers the pressed button
    back, the button "A,Other" stands for the selection of "A" and of the
    'Other' option; the frequency menu answers its button back as well.
    A pattern compiles unless it holds a star. *)
Definition scripted_menus (questions : list (question_result scripted_question))
    (infos accepts : list (option bool)) : Menus (scripted questions infos accepts) :=
  Build_Menus (scripted questions infos accepts)
    "Other"
    (fun (m : scripted_markup) data =>
       (OValue (if data =? "A,Other" then Tuple ["A"; "Other"] else Str data), m))
    "REQUIRED"
    (fun required _ => SDatetime required)
    (SMenu false false ["days"; "hours"; "minutes"])
    (fun m : scripted_markup => match m with SMenu false false _ => true | _ => false end)
    "INVALID"
    (SMenu true false ["Hourly"; "Daily"; "Weekly"; "Monthly"])
    (fun pattern => negb (Py.contains "*" pattern)).

(** A chat around a session, with nothing sent yet. *)
Definition chat_of (E : Env) (u : user_data E) (queue : list job) : chat E :=
  {| user := u; held_job := None; _GARBAGE_INPUT_COUNTER := None; jobs := queue;
     remind_handler_pattern := "^$"; sent := [] |}.

(** A handler that does nothing, for the two that are not at hand. *)
Definition does_nothing (E : Env) (c : chat E) : ending * chat E := (ReturnsNone, c).

(** *** The theorems at work on scripted sessions *)

(** A form with one required text question "Q1". *)
Definition one_question : Env := scripted [QQuestion (text_question "Q1")] [] [].

(** The same form when the first two retrievals of the question report a
    stale element. *)
Definition stale_twice : Env :=
  scripted [QQuestion (text_question "Q1")] [Some false; Some false; Some true] [].

(** A form that the driver cannot open. *)
Definition no_form : Env := scripted [QFalse] [] [].

(** A grid question "G" with the rows "r1", "r2" and "r3". *)
Definition one_grid : Env :=
  scripted [QQuestion (grid_question "G" ["r1"; "r2"; "r3"])] [] [].

Definition always_5 : question_pref :=
  {| _PREF_KEY := Some save_always; _ANSWER_KEY := Some (Plain (Str "5")) |}.

(** "Q1" is saved with the answer "5" and the policy save-always. *)
Definition prefs_exact : save_prefs :=
  {| _GLOBAL_SAVE_PREF := Some save_always;
     _LOCAL_SAVE_PREF := Some [(KIdentity ("Q1", "", true), always_5)] |}.

(** An earlier revision of "Q1", with another description, is saved with
    the answer "5" and the policy save-always; "Q0" is saved before it. *)
Definition prefs_close : save_prefs :=
  {| _GLOBAL_SAVE_PREF := Some save_always;
     _LOCAL_SAVE_PREF :=
       Some [(KIdentity ("Q0", "", true), always_5);
             (KIdentity ("Q1", "first revision", true), always_5);
             (KIdentity ("Q1", "", false), always_5)] |}.

Lemma driver_field_witness :
  let w := snd (_obtain_question one_question 3 true (idle_session one_question None)) in
  (exists l, _PROCESSOR (ud w) = Some (IdleLink l) /\
             (status (history w) = never_started \/ status (history w) = released l)) \/
  (exists p, _PROCESSOR (ud w) = Some (Active p) /\ status (history w) = running).
Proof.
  apply (driver_field_link_xor_handle one_question (idle_session one_question None) _
           "https://forms/1"); [reflexivity | reflexivity |].
  eapply reach_step; [apply reach_start | apply step_obtain_question].
Defined.

(** The session after the first prompt: a driver is running. *)
Definition prompted_session : world one_question :=
  snd (_obtain_question one_question 3 true (idle_session one_question None)).


Lemma saved_answer_witness :
  exists w2,
    run one_question (_obtain_question_body one_question 3 true)
      (idle_session one_question (Some prefs_exact)) = (TailCall true, w2) /\
    history w2 =
      driver (call_answer_question (Answers [Some (Str "5")]))
      :: history (snd (prepare_question one_question 3
                         (idle_session one_question (Some prefs_exact)))) /\
    _CURRENT_QUESTION (ud w2) = None.
Proof.
  assert (Hprep : prepare_question one_question 3
                    (idle_session one_question (Some prefs_exact))
                  = (Normal (text_question "Q1" : Question one_question),
                     snd (prepare_question one_question 3
                            (idle_session one_question (Some prefs_exact)))))
    by (vm_compute; reflexivity).
  assert (Hget : dict_get dict_key_eqb
                   (KIdentity (get_pref_key one_question (text_question "Q1")))
                   [(KIdentity ("Q1", "", true), always_5)] = Some always_5)
    by (vm_compute; reflexivity).
  destruct (saved_answer_submitted_without_prompt one_question 3
              (idle_session one_question (Some prefs_exact))
              (snd (prepare_question one_question 3
                      (idle_session one_question (Some prefs_exact))))
              (text_question "Q1") prefs_exact
              [(KIdentity ("Q1", "", true), always_5)] always_5 (Plain (Str "5"))
              Hprep eq_refl eq_refl Hget eq_refl eq_refl eq_refl)
    as (p & first & rest & s & r & p' & w2 & Hp & _ & _ & Htext & _ & Hall & Hr & Hrun
        & Hh & _ & _ & _ & Hnext).
  vm_compute in Hp. inversion Hp; subst p.
  specialize (Htext "5" eq_refl). inversion Htext; subst first rest.
  assert (Hs : s = Answers [Some (Str "5")]) by (apply Hall; discriminate).
  subst s.
  vm_compute in Hr. inversion Hr; subst r p'.
  exists w2. split; [exact Hrun|]. split; [exact Hh|].
  now destruct (Hnext eq_refl).
Defined.

Lemma close_match_witness :
  close_match ("Q1", "", true)
    [KIdentity ("Q0", "", true); KIdentity ("Q1", "first revision", true);
     KIdentity ("Q1", "", false)]
  = Matched (KIdentity ("Q1", "first revision", true)).
Proof.
  destruct (close_match_selects_first_candidate "Q1" "" true
              [(KIdentity ("Q0", "", true), always_5);
               (KIdentity ("Q1", "first revision", true), always_5);
               (KIdentity ("Q1", "", false), always_5)] eq_refl) as [_ Hfirst].
  apply (Hfirst [("Q0", "", true)] "Q1" "first revision" true
           [KIdentity ("Q1", "", false)]).
  - reflexivity.
  - repeat constructor.
  - reflexivity.
  - now right.
Defined.

Lemma close_match_recommended_witness :
  exists w2,
    _obtain_question one_question 3 true (idle_session one_question (Some prefs_close))
      = (Return _CONFIRM_SUBMIT, w2) /\
    history w2 =
      edit_message_text
        (question_text "Q1" "(no description)" true None (answer_recommendation "5"))
        TF_markup
      :: history (snd (prepare_question one_question 3
                         (idle_session one_question (Some prefs_close)))) /\
    _CURRENT_ANSWER (ud w2) = Some (Plain (Str "5")) /\
    filter (is_submission one_question)
      (history (snd (run one_question (_submit_answer_body one_question (Some "True")) w2)))
      = [driver (call_answer_question (Answers [Some (Str "5")]))].
Proof.
  assert (Hprep : prepare_question one_question 3
                    (idle_session one_question (Some prefs_close))
                  = (Normal (text_question "Q1" : Question one_question),
                     snd (prepare_question one_question 3
                            (idle_session one_question (Some prefs_close)))))
    by (vm_compute; reflexivity).
  assert (Hexact : dict_get dict_key_eqb
                     (KIdentity (get_pref_key one_question (text_question "Q1")))
                     [(KIdentity ("Q0", "", true), always_5);
                      (KIdentity ("Q1", "first revision", true), always_5);
                      (KIdentity ("Q1", "", false), always_5)] = None)
    by (vm_compute; reflexivity).
  destruct (close_match_is_only_recommended one_question 3
              (idle_session one_question (Some prefs_close))
              (snd (prepare_question one_question 3
                      (idle_session one_question (Some prefs_close))))
              (text_question "Q1") prefs_close
              [(KIdentity ("Q0", "", true), always_5);
               (KIdentity ("Q1", "first revision", true), always_5);
               (KIdentity ("Q1", "", false), always_5)]
              Hprep eq_refl eq_refl Hexact) as (_ & Hoffer & _).
  assert (Hmatch : close_match (get_pref_key one_question (text_question "Q1"))
                     (map fst
                        [(KIdentity ("Q0", "", true), always_5);
                         (KIdentity ("Q1", "first revision", true), always_5);
                         (KIdentity ("Q1", "", false), always_5)])
                   = Matched (KIdentity ("Q1", "first revision", true)))
    by (vm_compute; reflexivity).
  destruct (Hoffer (KIdentity ("Q1", "first revision", true)) always_5 (Plain (Str "5"))
              Hmatch eq_refl eq_refl eq_refl eq_refl)
    as (w2 & Hrun & Hhist & Htie).
  destruct (Htie eq_refl) as [Hcurrent Hconfirm].
  assert (Hplain : forall m, Plain (Str "5") = Grid m -> ~ In None (map snd m))
    by discriminate.
  destruct (Hconfirm "True" eq_refl Hplain)
    as (first & rest & s & _ & _ & Htext & _ & Hall & Hsent).
  specialize (Htext "5" eq_refl). inversion Htext; subst first rest.
  assert (Hs : s = Answers [Some (Str "5")]) by (apply Hall; discriminate).
  subst s.
  exists w2. split; [exact Hrun|]. split; [exact Hhist|]. split; [exact Hcurrent|].
  exact Hsent.
Defined.

(** An earlier revision of the grid "G" is saved with the text "5". *)
Definition prefs_close_grid : save_prefs :=
  {| _GLOBAL_SAVE_PREF := Some save_always;
     _LOCAL_SAVE_PREF := Some [(KIdentity ("G", "first revision", true), always_5)] |}.

(** C5 as the claim states it fails for a grid question whose close match
    holds an answer that is not a grid: the scan finds the non-empty
    answer "5", and the call ends with a [KeyError] before any question is
    shown; nothing is submitted either. *)
Lemma close_match_not_surfaced_for_grid :
  close_match (get_pref_key one_grid (grid_question "G" ["r1"; "r2"; "r3"]))
    [KIdentity ("G", "first revision", true)]
    = Matched (KIdentity ("G", "first revision", true)) /\
  _ANSWER_KEY always_5 = Some (Plain (Str "5")) /\
  fst (_obtain_question one_grid 3 true (idle_session one_grid (Some prefs_close_grid)))
    = Raise KeyError /\
  filter (is_question_prompt one_grid)
    (history (snd (_obtain_question one_grid 3 true
                     (idle_session one_grid (Some prefs_close_grid))))) = [] /\
  filter (is_submission one_grid)
    (history (snd (_obtain_question one_grid 3 true
                     (idle_session one_grid (Some prefs_close_grid))))) = [].
Proof. repeat split; vm_compute; reflexivity. Qed.

(** A grid in progress: the rows "r1" and "r2" are answered, "r3" is
    not, and the yes/no markup is shown for "r2". *)
Definition grid_driver : scripted_driver :=
  {| sd_link := "https://forms/1"; sd_questions := []; sd_infos := []; sd_accepts := [] |}.

Definition grid_session : world one_grid :=
  {| ud := {| _SAVE_PREFS := None;
              _PROCESSOR := Some (Active (grid_driver : FormProcessor one_grid));
              _CURRENT_QUESTION :=
                Some (AQuestion (grid_question "G" ["r1"; "r2"; "r3"] : Question one_grid));
              _CURRENT_ANSWER :=
                Some (Grid [("r1", Some (Str "a")); ("r2", Some (Str "b")); ("r3", None)]);
              _CURRENT_MARKUP := None;
              _CURRENT_JOB := None |};
     job_queue := [];
     answer_handler_pattern := "^$";
     confirm_handler_pattern := "^(True|False)$";
     history := [] |}.

Lemma rejecting_clears_last_witness :
  exists w2,
    _submit_answer one_grid 3 (Some "False") grid_session = (Return _SKIP_OR_ANSWER, w2) /\
    _CURRENT_ANSWER (ud w2) =
      Some (Grid [("r1", Some (Str "a")); ("r2", None); ("r3", None)]) /\
    first_unanswered [("r1", Some (Str "a")); ("r2", None); ("r3", None)] = Some "r2".
Proof.
  destruct (rejecting_clears_last_sub_answer one_grid 3 grid_session "False"
              (grid_question "G" ["r1"; "r2"; "r3"]) grid_driver
              [("r1", Some (Str "a"))] [("r3", None)] "r2" (Str "b"))
    as (w2 & sub & Hrun & Hanswer & _);
    try reflexivity.
  - repeat constructor.
  - repeat constructor; simpl; intuition discriminate.
  - exists w2. split; [exact Hrun|]. split; [exact Hanswer | reflexivity].
Defined.

(** A session whose driver is running and has no question yet. *)
Definition started_session (E : Env) : world E :=
  {| ud := {| _SAVE_PREFS := None;
              _PROCESSOR := Some (Active (new_FormProcessor E "https://forms/1"));
              _CURRENT_QUESTION := None; _CURRENT_ANSWER := None;
              _CURRENT_MARKUP := None; _CURRENT_JOB := None |};
     job_queue := [];
     answer_handler_pattern := "^$";
     confirm_handler_pattern := "^$";
     history := [] |}.

(** C7 as stated fails: after two stale reports the call has re-discovered
    the element twice and retrieved the metadata three times, and it does
    not give up: it goes on to prompt for the question. *)
Lemma two_stale_reports_two_retries :
  fst (_obtain_question stale_twice 5 true (idle_session stale_twice None))
    = Return _SKIP_OR_ANSWER /\
  history (snd (_obtain_question stale_twice 5 true (idle_session stale_twice None)))
    = [edit_message_text
         (question_text "Q1" "(no description)" true None (please_answer false false))
         no_markup;
       driver call_get_info; driver call_set_question_element; driver call_refresh_section;
       driver call_get_info; driver call_set_question_element; driver call_refresh_section;
       driver call_get_info; driver (call_get_question true);
       callback_answer None; driver (call_FormProcessor "https://forms/1");
       edit_message_text please_wait no_markup].
Proof. split; vm_compute; reflexivity. Qed.

Lemma stale_question_witness :
  exists w',
    obtain_next_question stale_twice 5 true (started_session stale_twice)
      = (Normal (text_question "Q1" : Question stale_twice), w') /\
    history w' =
      retries_history stale_twice 2 false
        [driver call_get_info; driver (call_get_question true)].
Proof.
  destruct (stale_question_retried_while_rediscovered stale_twice 5 true
              (started_session stale_twice)
              {| sd_link := "https://forms/1";
                 sd_questions := [QQuestion (text_question "Q1")];
                 sd_infos := [Some false; Some false; Some true]; sd_accepts := [] |}
              {| sd_link := "https://forms/1"; sd_questions := [];
                 sd_infos := [Some false; Some false; Some true]; sd_accepts := [] |}
              {| sd_link := "https://forms/1"; sd_questions := [];
                 sd_infos := [Some false; Some true]; sd_accepts := [] |}
              {| sd_link := "https://forms/1"; sd_questions := [];
                 sd_infos := []; sd_accepts := [] |}
              (text_question "Q1") (text_question "Q1") (text_question "Q1")
              (Some false) (Some true) 2 false)
    as (w' & Hrun & _ & Hh); try reflexivity.
  - eapply run_retry; [reflexivity | reflexivity |].
    eapply run_retry; [reflexivity | reflexivity |].
    apply run_settled. discriminate.
  - cbn. lia.
  - exists w'. split; [exact Hrun | exact Hh].
Defined.

(** The same form when the question cannot be read. *)
Definition unreadable : Env := scripted [QQuestion (text_question "Q1")] [None] [].

(** C8 as stated fails: when the user's own traversal fails (the form
    cannot be opened, or the question cannot be read), [_obtain_question]
    returns [_STOPPING] with the driver still running and held in
    [_PROCESSOR], and in the second case with the question still current. *)
Lemma failed_interactive_call_keeps_driver :
  (fst (_obtain_question no_form 5 true (idle_session no_form None)) = Return _STOPPING /\
   _PROCESSOR (ud (snd (_obtain_question no_form 5 true (idle_session no_form None))))
     = Some (Active (grid_driver : FormProcessor no_form)) /\
   status (history (snd (_obtain_question no_form 5 true (idle_session no_form None))))
     = running) /\
  (fst (_obtain_question unreadable 5 true (idle_session unreadable None))
     = Return _STOPPING /\
   _PROCESSOR (ud (snd (_obtain_question unreadable 5 true (idle_session unreadable None))))
     = Some (Active (grid_driver : FormProcessor unreadable)) /\
   _CURRENT_QUESTION
     (ud (snd (_obtain_question unreadable 5 true (idle_session unreadable None))))
     = Some (AQuestion (text_question "Q1" : Question unreadable))).
Proof. repeat split; vm_compute; reflexivity. Qed.

Lemma failed_job_witness :
  exists w2,
    _auto_submit no_form 5 (idle_session no_form None) = (job_done, w2) /\
    _PROCESSOR (ud w2) = Some (IdleLink "https://forms/1") /\
    _CURRENT_QUESTION (ud w2) = None /\
    _CURRENT_ANSWER (ud w2) = None.
Proof.
  assert (Hrun : _obtain_question no_form 5 true (idle_session no_form None)
                 = (Return _STOPPING,
                    snd (_obtain_question no_form 5 true (idle_session no_form None))))
    by (vm_compute; reflexivity).
  destruct (failed_job_releases_driver no_form 5 (idle_session no_form None)
              (snd (_obtain_question no_form 5 true (idle_session no_form None)))
              "https://forms/1" eq_refl (or_introl eq_refl) Hrun)
    as (w2 & l & Hjob & Hslot & _ & Hq & Ha & _ & Hlink).
  destruct (Hlink (grid_driver : FormProcessor no_form)) as [Hl _].
  { vm_compute; reflexivity. }
  exists w2. rewrite Hslot, Hl. repeat split; auto.
Defined.

(** A session about to confirm the job [name]. *)
Definition pending_job (name : string) : world one_question :=
  {| ud := {| _SAVE_PREFS := None; _PROCESSOR := Some (IdleLink "https://forms/1");
              _CURRENT_QUESTION := None; _CURRENT_ANSWER := None;
              _CURRENT_MARKUP := None; _CURRENT_JOB := Some (JobName name) |};
     job_queue := [];
     answer_handler_pattern := "^$";
     confirm_handler_pattern := "^$";
     history := [] |}.

(** C9 on the code: a daily job confirmed with the start 2030-03-15
    10:00 is registered with the time 10:00 only, exactly as one confirmed
    with the start 2030-01-02 10:00: no first fire is handed to the job
    queue.  The hourly job of the same start is registered with it. *)
Lemma daily_job_drops_start_date :
  job_queue (snd (_confirm_add one_question (Some "True")
                    (pending_job "Daily, starting from 2030-03-15 10:00")))
    = [{| job_name := "Daily, starting from 2030-03-15 10:00";
          job_trigger := run_daily (10, 0)%Z |}] /\
  job_queue (snd (_confirm_add one_question (Some "True")
                    (pending_job "Daily, starting from 2030-01-02 10:00")))
    = [{| job_name := "Daily, starting from 2030-01-02 10:00";
          job_trigger := run_daily (10, 0)%Z |}] /\
  first_fire (run_daily (10, 0)%Z) = None /\
  job_queue (snd (_confirm_add one_question (Some "True")
                    (pending_job "Hourly, starting from 2030-03-15 10:00")))
    = [{| job_name := "Hourly, starting from 2030-03-15 10:00";
          job_trigger :=
            run_repeating 3600
              {| year := 2030; month := 3; day := 15; hour := 10; minute := 0 |} |}].
Proof. repeat split; vm_compute; reflexivity. Qed.

(** *** The handlers of the scheduler and of the answers at work *)

Definition session (E : Env) (u : user_data E) (queue : list job) : world E :=
  {| ud := u; job_queue := queue; answer_handler_pattern := "^$";
     confirm_handler_pattern := "^$"; history := [] |}.

Definition one_menus : Menus one_question := scripted_menus _ _ _.

Definition grid_menus : Menus one_grid := scripted_menus _ _ _.

Definition daily_from_january : job :=
  {| job_name := "Daily, starting from 2030-01-02 10:00";
     job_trigger := run_daily (10, 0)%Z |}.

(** The date picker of a new job with the frequency [freq] is shown. *)
Definition picking_start (freq : string) : user_data one_question :=
  {| _SAVE_PREFS := None; _PROCESSOR := Some (IdleLink "https://forms/1");
     _CURRENT_QUESTION := None; _CURRENT_ANSWER := None;
     _CURRENT_MARKUP := Some (AMarkup (SDatetime true : Markup one_question));
     _CURRENT_JOB := Some (JobName freq) |}.

Lemma duplicate_job_witness :
  exists w2,
    _start_date one_question (Some "2030-01-02 10:00")
      (session one_question (picking_start "Daily") [daily_from_january])
      = (Exit (Return _SELECT_START), w2) /\
    job_queue w2 = [daily_from_january].
Proof.
  assert (Hd : "2030-01-02 10:00" <> "") by discriminate.
  assert (Hr : "2030-01-02 10:00" <> get_required_warning one_question) by discriminate.
  destruct (duplicate_job_name_rejected one_question
              (session one_question (picking_start "Daily") [daily_from_january])
              "2030-01-02 10:00" (SDatetime true) (SDatetime true) "Daily"
              "2030-01-02 10:00" daily_from_january
              Hd eq_refl eq_refl eq_refl eq_refl Hr (or_introl eq_refl) eq_refl)
    as (w2 & Hrun & Hq & _).
  exists w2. split; [exact Hrun | exact Hq].
Defined.

Lemma confirmed_job_witness :
  exists w2,
    _confirm_add one_question (Some "True")
      (pending_job "Hourly, starting from 2030-03-15 10:00") = (Exit (Return _CANCEL), w2) /\
    job_queue w2 =
      [{| job_name := "Hourly, starting from 2030-03-15 10:00";
          job_trigger :=
            run_repeating 3600
              {| year := 2030; month := 3; day := 15; hour := 10; minute := 0 |} |}].
Proof.
  assert (Hd : "True" <> "") by discriminate.
  assert (Hs : Py.split ", starting from " "Hourly, starting from 2030-03-15 10:00"
               = ["Hourly"; "2030-03-15 10:00"]) by (vm_compute; reflexivity).
  destruct (confirmed_job_registered_once one_question
              (pending_job "Hourly, starting from 2030-03-15 10:00")
              "True" "Hourly, starting from 2030-03-15 10:00" "Hourly" "2030-03-15 10:00"
              {| year := 2030; month := 3; day := 15; hour := 10; minute := 0 |}
              (run_repeating 3600
                 {| year := 2030; month := 3; day := 15; hour := 10; minute := 0 |})
              Hd eq_refl Hs eq_refl eq_refl eq_refl)
    as (w2 & Hrun & Hq & _).
  exists w2. split; [exact Hrun | exact Hq].
Defined.

Lemma job_name_read_back_witness :
  exists w1 w2,
    _start_date one_question (Some "2030-03-15 10:00")
      (session one_question (picking_start "Hourly") []) = (Exit (Return _CONFIRM_ADD), w1) /\
    _confirm_add one_question (Some "True") w1 = (Exit (Return _CANCEL), w2) /\
    job_queue w2 =
      [{| job_name := "Hourly, starting from 2030-03-15 10:00";
          job_trigger :=
            run_repeating 3600
              {| year := 2030; month := 3; day := 15; hour := 10; minute := 0 |} |}].
Proof.
  assert (Hd : "2030-03-15 10:00" <> "") by discriminate.
  assert (Hd2 : "True" <> "") by discriminate.
  assert (Hr : "2030-03-15 10:00" <> get_required_warning one_question) by discriminate.
  assert (Hf : Py.contains ", starting from " "Hourly" = false) by (vm_compute; reflexivity).
  assert (Hs : Py.contains ", starting from " "2030-03-15 10:00" = false)
    by (vm_compute; reflexivity).
  destruct (job_name_is_read_back one_question
              (session one_question (picking_start "Hourly") [])
              "2030-03-15 10:00" "True" (SDatetime true) (SDatetime true) "Hourly"
              "2030-03-15 10:00"
              {| year := 2030; month := 3; day := 15; hour := 10; minute := 0 |}
              (run_repeating 3600
                 {| year := 2030; month := 3; day := 15; hour := 10; minute := 0 |})
              Hd Hd2 eq_refl eq_refl eq_refl eq_refl Hr eq_refl Hf Hs eq_refl eq_refl eq_refl)
    as (w1 & w2 & Hrun1 & _ & Hrun2 & Hq & _).
  exists w1, w2. split; [exact Hrun1 | split; [exact Hrun2 | exact Hq]].
Defined.

(** The last question of the form was answered: the driver has nothing
    left to ask. *)
Definition last_answered : world one_question :=
  session one_question
    {| _SAVE_PREFS := None;
       _PROCESSOR := Some (Active (grid_driver : FormProcessor one_question));
       _CURRENT_QUESTION := None; _CURRENT_ANSWER := None;
       _CURRENT_MARKUP := None; _CURRENT_JOB := None |} [].

Lemma completed_form_witness :
  exists w2,
    _obtain_question one_question 3 true last_answered = (Return _RETURN, w2) /\
    _PROCESSOR (ud w2) = Some (IdleLink "https://forms/1") /\
    answer_handler_pattern w2 = "^$".
Proof.
  destruct (completed_form_releases_driver one_question 3 true last_answered
              grid_driver grid_driver eq_refl eq_refl eq_refl)
    as (w2 & Hrun & Hp & Ha & _).
  exists w2. split; [exact Hrun | split; [exact Hp | exact Ha]].
Defined.

Lemma grid_rows_witness :
  exists w2,
    grid_sub_question one_grid (grid_question "G" ["r1"; "r2"; "r3"]) None
      (idle_session one_grid None) = (Normal (Some "r1", None), w2) /\
    _CURRENT_ANSWER (ud w2) = Some (Grid [("r1", None); ("r2", None); ("r3", None)]).
Proof.
  assert (Hrows : NoDup (get_sub_questions one_grid (grid_question "G" ["r1"; "r2"; "r3"]))).
  { repeat constructor; simpl; intuition discriminate. }
  assert (Hnone : forall v, @None Answer <> Some (Plain v)) by discriminate.
  destruct (grid_starts_with_every_row_open one_grid (grid_question "G" ["r1"; "r2"; "r3"])
              None (idle_session one_grid None) eq_refl eq_refl Hrows Hnone)
    as [_ Hrest].
  destruct (Hrest "r1" ["r2"; "r3"] eq_refl) as (w2 & Hrun & Ha & _).
  exists w2. split; [exact Hrun | exact Ha].
Defined.

Definition ask_about_q1 : question_pref :=
  {| _PREF_KEY := Some ask_again; _ANSWER_KEY := None |}.

(** "Q1" was answered with "5"; the user is asked whether to save it. *)
Definition asked_to_save : world one_question :=
  session one_question
    {| _SAVE_PREFS :=
         Some {| _GLOBAL_SAVE_PREF := Some ask_again;
                 _LOCAL_SAVE_PREF := Some [(KIdentity ("Q1", "", true), ask_about_q1)] |};
       _PROCESSOR := Some (Active (grid_driver : FormProcessor one_question));
       _CURRENT_QUESTION := Some (AQuestion (text_question "Q1" : Question one_question));
       _CURRENT_ANSWER := Some (Plain (Str "5"));
       _CURRENT_MARKUP := None; _CURRENT_JOB := None |} [].

Lemma saved_answer_found_witness :
  exists w1,
    _save_answer_body one_question (Some "True") asked_to_save
      = (Exit (TailCall true), w1) /\
    stored_answer one_question true (text_question "Q1") w1
      = (Normal (Some (Plain (Str "5")), Some ask_again), w1).
Proof.
  destruct (saved_answer_is_found_again one_question "True" asked_to_save
              (text_question "Q1") (Plain (Str "5")) ask_about_q1
              eq_refl eq_refl eq_refl eq_refl) as [Hyes _].
  destruct (Hyes eq_refl) as (w1 & Hrun & _ & _ & Hfound).
  exists w1. split; [exact Hrun | apply Hfound; reflexivity].
Defined.

(** The three rows of the grid are answered. *)
Definition complete_grid_session : world one_grid :=
  session one_grid
    {| _SAVE_PREFS := None;
       _PROCESSOR := Some (Active (grid_driver : FormProcessor one_grid));
       _CURRENT_QUESTION :=
         Some (AQuestion (grid_question "G" ["r1"; "r2"; "r3"] : Question one_grid));
       _CURRENT_ANSWER :=
         Some (Grid [("r1", Some (Str "a")); ("r2", Some (Str "b")); ("r3", Some (Str "c"))]);
       _CURRENT_MARKUP := None; _CURRENT_JOB := None |} [].

Lemma grid_submission_witness :
  filter (is_submission one_grid)
    (history (snd (run one_grid (_submit_answer_body one_grid (Some "True"))
                     complete_grid_session)))
    = [driver (call_answer_question
                 (Answers [Some (Str "a"); Some (Str "b"); Some (Str "c")]))] /\
  filter (is_submission one_grid)
    (history (snd (run one_grid (_submit_answer_body one_grid (Some "True")) grid_session)))
    = [].
Proof.
  split.
  - destruct (grid_is_submitted_when_complete one_grid (Some "True") complete_grid_session
                [("r1", Some (Str "a")); ("r2", Some (Str "b")); ("r3", Some (Str "c"))]
                eq_refl)
      as [Hsame | (_ & first & rest & s & Hrows & _ & Hall & Hsent)].
    + vm_compute in Hsame. discriminate Hsame.
    + rewrite Hsent. inversion Hrows; subst first rest.
      rewrite Hall by discriminate. reflexivity.
  - destruct (grid_is_submitted_when_complete one_grid (Some "True") grid_session
                [("r1", Some (Str "a")); ("r2", Some (Str "b")); ("r3", None)] eq_refl)
      as [Hsame | (Hfull & _)].
    + rewrite Hsame. reflexivity.
    + exfalso. apply Hfull. cbn. tauto.
Defined.

(** "Q1" was answered with "5" and has no entry among the preferences;
    the global policy is to save always. *)
Definition first_answer : world one_question :=
  session one_question
    {| _SAVE_PREFS :=
         Some {| _GLOBAL_SAVE_PREF := Some save_always; _LOCAL_SAVE_PREF := Some [] |};
       _PROCESSOR := Some (Active (grid_driver : FormProcessor one_question));
       _CURRENT_QUESTION := Some (AQuestion (text_question "Q1" : Question one_question));
       _CURRENT_ANSWER := Some (Plain (Str "5"));
       _CURRENT_MARKUP := None; _CURRENT_JOB := None |} [].

Lemma global_policy_witness :
  exists w2,
    run one_question (_submit_answer_body one_question (Some "True")) first_answer
      = (TailCall true, w2) /\
    dict_get dict_key_eqb (KIdentity ("Q1", "", true)) (local_prefs one_question (ud w2))
      = Some {| _PREF_KEY := Some save_always; _ANSWER_KEY := Some (Plain (Str "5")) |}.
Proof.
  destruct (unknown_question_gets_the_global_policy one_question "True" first_answer
              (text_question "Q1") (Str "5") grid_driver grid_driver
              (Answers [Some (Str "5")]) eq_refl eq_refl eq_refl eq_refl eq_refl eq_refl
              eq_refl)
    as (x & w2 & Hrun & Hget & _ & Hx).
  exists w2. split; [rewrite Hrun, Hx; reflexivity | exact Hget].
Defined.

Lemma submit_conversation_witness :
  In _STOPPING (known_states submit_conv_handler).
Proof.
  apply (submit_conversation_knows_every_state one_question one_menus
           (does_nothing one_question) (fun _ => does_nothing one_question)
           h_process_answer _STOPPING).
  - simpl; tauto.
  - apply return_process_answer
      with (upd := empty_update) (c := chat_of one_question (ud last_answered) []).
    reflexivity.
Defined.

Lemma remind_conversation_witness :
  In _CANCEL (known_states remind_conv_handler).
Proof.
  apply (remind_conversation_knows_every_state one_question one_menus
           (does_nothing one_question) (fun _ => does_nothing one_question)
           h_select_reminder _CANCEL).
  - simpl; tauto.
  - apply return_select_reminder
      with (upd := callback_update None) (c := chat_of one_question (ud last_answered) []).
    reflexivity.
Defined.

(** The menu of the row "r3" of the grid is shown. *)
Definition grid_chat : chat one_grid :=
  chat_of one_grid
    {| _SAVE_PREFS := None;
       _PROCESSOR := Some (Active (grid_driver : FormProcessor one_grid));
       _CURRENT_QUESTION :=
         Some (AQuestion (grid_question "G" ["r1"; "r2"; "r3"] : Question one_grid));
       _CURRENT_ANSWER :=
         Some (Grid [("r1", Some (Str "a")); ("r2", Some (Str "b")); ("r3", None)]);
       _CURRENT_MARKUP :=
         Some (AMarkup (SMenu true false ["a"; "b"; "c"] : Markup one_grid));
       _CURRENT_JOB := None |} [].

Lemma first_open_row_witness :
  exists c2,
    _process_answer one_grid grid_menus (callback_update (Some "c")) grid_chat
      = (Returns _CONFIRM_SUBMIT, c2) /\
    _CURRENT_ANSWER (user c2)
      = Some (Grid [("r1", Some (Str "a")); ("r2", Some (Str "b"));
                    ("r3", Some (Str "c"))]).
Proof.
  assert (Hw : Str "c" <> Str (option_required_warning one_grid grid_menus))
    by discriminate.
  assert (Hfilled : Forall (fun kv : string * option value => snd kv <> None)
                      [("r1", Some (Str "a")); ("r2", Some (Str "b"))])
    by (repeat constructor; discriminate).
  assert (Hrow : ~ In "r3" (map fst [("r1", Some (Str "a")); ("r2", Some (Str "b"))]))
    by (simpl; intuition discriminate).
  destruct (answer_goes_to_the_first_open_row one_grid grid_menus grid_chat "c"
              (SMenu true false ["a"; "b"; "c"]) (SMenu true false ["a"; "b"; "c"])
              (Str "c") [("r1", Some (Str "a")); ("r2", Some (Str "b"))] [] "r3"
              eq_refl eq_refl eq_refl Hw eq_refl eq_refl Hfilled Hrow)
    as (c2 & Hrun & Ha & _).
  exists c2. split; [exact Hrun | exact Ha].
Defined.

(** A checkbox menu with an 'Other' option is shown for "Q1". *)
Definition checkbox_chat : chat one_question :=
  chat_of one_question
    {| _SAVE_PREFS := None;
       _PROCESSOR := Some (Active (grid_driver : FormProcessor one_question));
       _CURRENT_QUESTION := Some (AQuestion (text_question "Q1" : Question one_question));
       _CURRENT_ANSWER := None;
       _CURRENT_MARKUP :=
         Some (AMarkup (SMenu true true ["A"; "B"; "Other"] : Markup one_question));
       _CURRENT_JOB := None |} [].

Lemma other_option_witness :
  exists c1 c2,
    _process_answer one_question one_menus (callback_update (Some "A,Other")) checkbox_chat
      = (Returns _ANSWER_OTHER, c1) /\
    _process_other one_question one_menus "C" c1 = (Returns _CONFIRM_SUBMIT, c2) /\
    _CURRENT_ANSWER (user c2) = Some (Plain (Tuple ["A"; "C"])).
Proof.
  assert (Hw : Tuple ["A"; "Other"] <> Str (option_required_warning one_question one_menus))
    by discriminate.
  assert (Hplain : forall m, _CURRENT_ANSWER (user checkbox_chat) <> Some (Grid m))
    by discriminate.
  destruct (other_option_takes_the_typed_text one_question one_menus checkbox_chat
              "A,Other" "C" (SMenu true true ["A"; "B"; "Other"])
              (SMenu true true ["A"; "B"; "Other"]) (Tuple ["A"; "Other"])
              eq_refl eq_refl eq_refl Hw Hplain eq_refl)
    as (c1 & Hrun & _ & _ & _ & Htuple).
  assert (Hpre : ~ In (get_other_option_label one_question one_menus) ["A"])
    by (simpl; intuition discriminate).
  destruct (Htuple ["A"] [] eq_refl Hpre) as (c2 & Hrun2 & Ha & _).
  exists c1, c2. split; [exact Hrun | split; [exact Hrun2 | exact Ha]].
Defined.

Lemma rejected_row_witness :
  exists c2,
    _process_answer one_grid grid_menus (callback_update (Some "c")) grid_chat
      = (Returns _CONFIRM_SUBMIT, c2) /\
    forall (w : world one_grid) q p,
      ud w = user c2 ->
      _CURRENT_QUESTION (ud w) = Some (AQuestion q) ->
      _PROCESSOR (ud w) = Some (Active p) ->
      exists w2,
        run one_grid (_submit_answer_body one_grid (Some "False")) w = (TailCall false, w2) /\
        _CURRENT_ANSWER (ud w2)
          = Some (Grid [("r1", Some (Str "a")); ("r2", Some (Str "b")); ("r3", None)]).
Proof.
  assert (Hw : Str "c" <> Str (option_required_warning one_grid grid_menus))
    by discriminate.
  assert (Hfilled : Forall (fun kv : string * option value => snd kv <> None)
                      [("r1", Some (Str "a")); ("r2", Some (Str "b"))])
    by (repeat constructor; discriminate).
  assert (Hrest : Forall (fun kv : string * option value => snd kv = None) [])
    by constructor.
  assert (Hrows : NoDup (map fst ([("r1", Some (Str "a")); ("r2", Some (Str "b"))]
                                  ++ [("r3", @None value)])%list))
    by (repeat constructor; simpl; intuition discriminate).
  apply (rejected_row_is_open_again one_grid grid_menus grid_chat "c" "False"
           (SMenu true false ["a"; "b"; "c"]) (SMenu true false ["a"; "b"; "c"])
           (Str "c") [("r1", Some (Str "a")); ("r2", Some (Str "b"))] [] "r3"
           eq_refl eq_refl eq_refl Hw eq_refl eq_refl Hfilled Hrest Hrows eq_refl).
Defined.

(** The menu of a custom frequency is shown. *)
Definition custom_chat : chat one_question :=
  chat_of one_question
    {| _SAVE_PREFS := None; _PROCESSOR := Some (IdleLink "https://forms/1");
       _CURRENT_QUESTION := None; _CURRENT_ANSWER := None;
       _CURRENT_MARKUP :=
         Some (AMarkup (SMenu false false ["days"; "hours"; "minutes"]
                        : Markup one_question));
       _CURRENT_JOB := None |} [].

Definition noon : datetime :=
  {| year := 2030; month := 1; day := 1; hour := 12; minute := 0 |}.

Lemma custom_frequency_witness :
  exists c2,
    _handle_custom one_question one_menus noon
      (callback_update (Some "1 days 2 hours 30 minutes")) custom_chat
      = (Returns _SELECT_START, c2) /\
    _CURRENT_JOB (user c2) = Some (JobName "Submit every 1 days 2 hours 30 minutes") /\
    trigger_for one_question "Submit every 1 days 2 hours 30 minutes" noon
      = Some (run_repeating 95400 noon).
Proof.
  assert (Hd : "1 days 2 hours 30 minutes" <> "") by discriminate.
  assert (Hi : "1 days 2 hours 30 minutes" <> get_invalid_message one_question one_menus)
    by discriminate.
  destruct (custom_frequency_gives_the_interval one_question one_menus custom_chat noon
              "1 days 2 hours 30 minutes"
              (SMenu false false ["days"; "hours"; "minutes"])
              (SMenu false false ["days"; "hours"; "minutes"])
              "1 days 2 hours 30 minutes"
              Hd eq_refl eq_refl eq_refl eq_refl Hi)
    as (c2 & Hrun & Hj & _ & Ht).
  exists c2. split; [exact Hrun | split; [exact Hj |]].
  assert (Hdigits : Py.findall_digits "1 days 2 hours 30 minutes" = ["1"; "2"; "30"])
    by (vm_compute; reflexivity).
  assert (Hnot : ~ In ("Submit every " ++ "1 days 2 hours 30 minutes")
                   [get_hourly one_question; get_daily one_question;
                    get_weekly one_question; get_monthly one_question])
    by (simpl; intuition discriminate).
  apply (Ht "1" "2" "30" 1%Z 2%Z 30%Z noon Hdigits eq_refl eq_refl eq_refl eq_refl Hnot).
Defined.

Definition daily_again : job :=
  {| job_name := "Daily, starting from 2030-01-02 10:00";
     job_trigger := run_daily (11, 0)%Z |}.

(** The list of the jobs is shown; two of them have the same name. *)
Definition removal_chat : chat one_question :=
  chat_of one_question (ud (idle_session one_question None))
    [daily_from_january; daily_again].

Lemma removal_witness :
  exists c1 c2,
    _confirm_removal one_question
      (callback_update (Some "Daily, starting from 2030-01-02 10:00")) removal_chat
      = (Returns _CONFIRM_REMOVE, c1) /\
    _perform_removal one_question (callback_update (Some "True")) c1
      = (Returns _CANCEL, c2) /\
    sent c2 =
      edit_text job_removed (inline (ok_button _SET_REMINDER))
      :: schedule_removal daily_from_january :: answer_query None :: sent c1.
Proof.
  assert (Hn : "Daily, starting from 2030-01-02 10:00" <> "") by discriminate.
  assert (Hd : "True" <> "") by discriminate.
  destruct (removal_takes_the_first_job_of_that_name one_question removal_chat
              "Daily, starting from 2030-01-02 10:00" "True" Hn Hd eq_refl)
    as [_ Hfound].
  destruct (Hfound daily_from_january [daily_again] eq_refl)
    as (c1 & Hrun & _ & _ & Hyes & _).
  destruct (Hyes eq_refl) as (c2 & Hrun2 & Hsent & _).
  exists c1, c2. split; [exact Hrun | split; [exact Hrun2 | exact Hsent]].
Defined.

(** Four messages were not understood so far. *)
Definition chatty : chat one_question :=
  {| user := ud (idle_session one_question None); held_job := None;
     _GARBAGE_INPUT_COUNTER := Some 4%Z; jobs := [];
     remind_handler_pattern := "^$"; sent := [] |}.

Lemma echo_witness :
  _GARBAGE_INPUT_COUNTER (snd (_echo one_question (fun _ => 0) "hm" "Ann" chatty))
    = Some 5%Z /\
  exists t,
    nth_error _anti_garbage_replies 0 = Some t /\
    sent (snd (_echo one_question (fun _ => 0) "hm" "Ann" chatty))
      = [reply_text (literally t) ReplyKeyboardRemove].
Proof.
  assert (H1 : (fun _ : nat => 0) (List.length _anti_garbage_replies)
               < List.length _anti_garbage_replies) by (simpl; lia).
  assert (H2 : (fun _ : nat => 0) (List.length _garbage_replies)
               < List.length _garbage_replies) by (simpl; lia).
  pose proof (echo_reminds_every_fifth_time one_question (fun _ => 0) "hm" "Ann" chatty
                H1 H2) as H.
  cbv zeta in H. destruct H as (_ & Hn & said & Hsent & _ & Hfifth & _).
  split; [exact Hn|].
  destruct Hfifth as (t & Ht & Hsaid); [reflexivity | reflexivity |].
  exists t. split; [exact Ht|]. rewrite Hsent, Hsaid. reflexivity.
Defined.

Definition removal_confirmed : chat one_question :=
  {| user := set_CURRENT_JOB one_question (Some NotAName)
               (ud (idle_session one_question None));
     held_job := Some daily_again; _GARBAGE_INPUT_COUNTER := None;
     jobs := [daily_from_january; daily_again];
     remind_handler_pattern := "^$"; sent := [] |}.


Lemma refused_skip_witness :
  _process_answer one_question one_menus (message_update "/skip" "Ann") checkbox_chat
    = (Returns _SKIP_OR_ANSWER,
       told (reply_text cannot_skip (inline no_markup)) checkbox_chat) /\
  _process_answer one_question one_menus (message_update "A" "Ann") checkbox_chat
    = (Returns _SKIP_OR_ANSWER,
       told (potential_feature_message select_from_menu) checkbox_chat).
Proof.
  destruct (refused_input_is_not_kept one_question one_menus checkbox_chat)
    as (Hskip & Htyped & _).
  split.
  - apply (Hskip "Ann" (text_question "Q1")); reflexivity.
  - apply (Htyped "A" "Ann" (text_question "Q1")); [reflexivity | reflexivity |].
    left. discriminate.
Defined.

(** "A" and "B" are selected from a checkbox menu without 'Other'
    option. *)
Definition no_other_chat : chat one_question :=
  chat_of one_question
    {| _SAVE_PREFS := None;
       _PROCESSOR := Some (Active (grid_driver : FormProcessor one_question));
       _CURRENT_QUESTION := Some (AQuestion (text_question "Q1" : Question one_question));
       _CURRENT_ANSWER := Some (Plain (Tuple ["A"; "B"]));
       _CURRENT_MARKUP :=
         Some (AMarkup (SMenu true true ["A"; "B"] : Markup one_question));
       _CURRENT_JOB := None |} [].

Lemma other_text_fails_witness :
  _process_other one_question one_menus "C" no_other_chat
    = (Fails ValueError, no_other_chat) /\
  _process_other one_grid grid_menus "C" grid_chat = (Fails TypeError, grid_chat).
Proof.
  split.
  - destruct (other_text_without_other_option_fails one_question one_menus
                no_other_chat "C") as (_ & Hvalue & _).
    apply (Hvalue (AMarkup (SMenu true true ["A"; "B"] : Markup one_question)) ["A"; "B"]);
      [reflexivity | reflexivity |].
    simpl; intuition discriminate.
  - destruct (other_text_without_other_option_fails one_grid grid_menus grid_chat "C")
      as (_ & _ & Htype).
    apply (Htype (AMarkup (SMenu true false ["a"; "b"; "c"] : Markup one_grid))
             [("r1", Str "a"); ("r2", Str "b")] "r3" []);
      [reflexivity | reflexivity |].
    repeat constructor.
Defined.

Lemma fixed_frequency_witness :
  exists c2,
    _fixed_frequency one_question one_menus noon (callback_update (Some "Daily"))
      removal_chat = (Returns _SELECT_START, c2) /\
    _CURRENT_JOB (user c2) = Some (JobName "Daily") /\
    _CURRENT_MARKUP (user c2) = Some (AMarkup (SDatetime true : Markup one_question)).
Proof.
  destruct (frequency_is_kept_for_the_start_date one_question one_menus removal_chat noon
              "Daily") as [Hfree _].
  destruct (Hfree eq_refl eq_refl) as (c2 & Hrun & Hj & Hm & _).
  exists c2. split; [exact Hrun | split; [exact Hj | exact Hm]].
Defined.

Definition starred : job :=
  {| job_name := "*Daily, starting from 2030-01-02 10:00";
     job_trigger := run_daily (10, 0)%Z |}.

Lemma listed_jobs_witness :
  (exists c1,
     _select_reminder one_question one_menus (callback_update None) removal_chat
       = (Returns _SELECT_JOB, c1) /\
     remind_handler_pattern c1
       = "^(Daily, starting from 2030-01-02 10:00|Daily, starting from 2030-01-02 10:00)$" /\
     fst (_confirm_removal one_question
            (callback_update (Some "Daily, starting from 2030-01-02 10:00")) c1)
       = Returns _CONFIRM_REMOVE) /\
  fst (_select_reminder one_question one_menus (callback_update None)
         (chat_of one_question (ud (idle_session one_question None)) [starred]))
    = Fails re_error.
Proof.
  split.
  - destruct (reminders_are_listed_for_removal one_question one_menus removal_chat None)
      as (_ & _ & Hsome).
    assert (Hjobs : jobs removal_chat <> []) by discriminate.
    destruct (Hsome Hjobs eq_refl) as (c1 & Hrun & Hp & _ & _ & Hpress).
    exists c1. split; [exact Hrun | split; [exact Hp |]].
    destruct (Hpress "Daily, starting from 2030-01-02 10:00")
      as (first & c2 & Hrun2 & _); [left; reflexivity | discriminate | reflexivity |].
    now rewrite Hrun2.
  - destruct (reminders_are_listed_for_removal one_question one_menus
                (chat_of one_question (ud (idle_session one_question None)) [starred]) None)
      as (_ & Hbad & _).
    rewrite Hbad; [reflexivity | discriminate | reflexivity].
Defined.
End Handler.
